(** * Terminal code execution: REPL sessions and working-directory reconciliation

    A shallow embedding of [TerminalCodeExecutionProvider]
    (src/client/terminals/codeExecution/terminalCodeExecution.ts) and the
    properties its specification states about it.

    The provider is a class of [async] methods.  Each method is embedded as a
    term of a small monad [Async] whose constructors are the things an async
    method can do: run synchronous code on the provider and the host
    ([Act]), reach the suspension point of an [await] ([Suspend],
    [AwaitHandle]) and start the executor of a [new Promise] ([Spawn]).  Two
    interpreters give the terms their meaning: [solo] runs one call to its
    end with nothing else going on, and [exec] is one step of the host's
    event loop over a pool of suspended calls. *)

From stdpp Require Import gmap strings list fin_maps.
From Stdlib Require Import Ascii.

(** ** Strings

    A [string] stands for a JavaScript string all of whose code units are
    below 256, one [ascii] per code unit. *)

Module JsString.

(** ECMAScript [LineTerminator] code units below 256: LF and CR. *)
Definition isLineTerminator (c : ascii) : bool :=
  Ascii.eqb c "010" || Ascii.eqb c "013".

(** ECMAScript [WhiteSpace] and [LineTerminator] code units below 256:
    TAB, LF, VT, FF, CR, SP and NBSP; these are what [trim] strips. *)
Definition isWhiteSpace (c : ascii) : bool :=
  existsb (Ascii.eqb c) ["009"; "010"; "011"; "012"; "013"; " "; "160"]%char.

(** What [[a-z]] matches under the [i] flag: the ASCII letters. *)
Definition isLetter (c : ascii) : bool :=
  let n := nat_of_ascii c in
  ((65 <=? n) && (n <=? 90) || (97 <=? n) && (n <=? 122))%nat.

Fixpoint trimStart (s : string) : string :=
  match s with
  | String c r => if isWhiteSpace c then trimStart r else s
  | EmptyString => EmptyString
  end.

Fixpoint trimEnd (s : string) : string :=
  match s with
  | EmptyString => EmptyString
  | String c r =>
      match trimEnd r with
      | EmptyString => if isWhiteSpace c then EmptyString else String c EmptyString
      | r' => String c r'
      end
  end.

(** [s.trim()] *)
Definition trim (s : string) : string := trimEnd (trimStart s).

(** [s.replace(/\\/g, '/')] *)
Fixpoint backslashesToSlashes (s : string) : string :=
  match s with
  | EmptyString => EmptyString
  | String c r =>
      String (if Ascii.eqb c "\" then "/"%char else c) (backslashesToSlashes r)
  end.

(** [/[a-z]\:/i.test(s)]: somewhere in [s] a letter is followed by a colon. *)
Fixpoint testDriveLetter (s : string) : bool :=
  match s with
  | String c ((String d _) as r) =>
      isLetter c && Ascii.eqb d ":" || testDriveLetter r
  | _ => false
  end.

(** [s.replace(/\:.*/g, '')].  A match starts at a colon and runs up to,
    and not including, the next line terminator ([.] matches anything
    else); the search then goes on behind the match.  [inMatch] tells
    whether the scan is inside a match. *)
Fixpoint dropColonTails (inMatch : bool) (s : string) : string :=
  match s with
  | EmptyString => EmptyString
  | String c r =>
      if inMatch then
        if isLineTerminator c then String c (dropColonTails false r)
        else dropColonTails true r
      else
        if Ascii.eqb c ":" then dropColonTails true r
        else String c (dropColonTails false r)
  end.

Definition stripFromColon (s : string) : string := dropColonTails false s.

(** The text of [s] before its first colon (all of [s] without one). *)
Fixpoint beforeColon (s : string) : string :=
  match s with
  | EmptyString => EmptyString
  | String c r => if Ascii.eqb c ":" then EmptyString else String c (beforeColon r)
  end.

Fixpoint chars (s : string) : list ascii :=
  match s with
  | EmptyString => []
  | String c r => c :: chars r
  end.

(** A single-line string: no line terminator in it. *)
Definition singleLine (s : string) : bool :=
  forallb (fun c => negb (isLineTerminator c)) (chars s).

End JsString.
Import JsString.

(** ** Data of the host that the provider sees *)

Record Uri := { fsPath : string }.

#[global] Instance Uri_eq_dec : EqDecision Uri.
Proof. solve_decision. Defined.

Record ITerminalSettings := {
  launchArgs : list string;
  executeInFileDir : bool
}.

Record IPythonSettings := {
  pythonPath : string;
  terminal : ITerminalSettings
}.

Record PythonEnvironment := { path : string }.

Record PythonExecInfo := {
  command : string;
  args : list string
}.

(** Modelled from the spec: [buildPythonExecInfo] of pythonEnvironments/exec,
    which is not among the sources.  The spec's executable descriptor has a
    command path and an ordered list of string arguments, and
    [resolveExecutable] returns [{command, args}] made of the command and
    the arguments it computed. *)
Definition buildPythonExecInfo (python : string) (pythonArgs : list string)
  : PythonExecInfo :=
  {| command := python; args := pythonArgs |}.

(** The argument of [terminalServiceFactory.getTerminalService]; it names the
    terminal service a call goes to. *)
Record TerminalOptions := {
  resource : option Uri;
  title : string
}.

#[global] Instance TerminalOptions_eq_dec : EqDecision TerminalOptions.
Proof. solve_decision. Defined.

(** The calls the provider makes on an [ITerminalService]. *)
Inductive TerminalCall :=
| SendText (text : string)
| SendCommand (command : string) (args : list string)
| Show.

(** The injected services, each an interface of the host. *)
Class IPlatformService := { isWindows : bool }.
Class IWorkspaceService := { rootPath : option string }.
Class IConfigurationService := { getSettings : option Uri -> IPythonSettings }.
Class IInterpreterService :=
  { getActiveInterpreter : option Uri -> option PythonEnvironment }.
(** Node's [path.dirname]. *)
Class PathModule := { dirname : string -> string }.
(** [String.prototype.fileToCommandArgumentForPythonExt] of common/extensions. *)
Class StringExtensions := { fileToCommandArgumentForPythonExt : string -> string }.

(** ** The provider's state, and the part of the host it acts on *)

(** A [Promise<boolean>] object of the session registry, named by its
    allocation number. *)
Abbreviation handle := nat (only parsing).

Record Controller := {
  (** [private hasRanOutsideCurrentDrive = false] *)
  hasRanOutsideCurrentDrive : bool;
  (** [protected terminalTitle!: string] *)
  terminalTitle : string;
  (** [private replActive = new Map<string, Promise<boolean>>()] *)
  replActive : gmap string handle;
  (** the promises that have settled, with their values *)
  settled : gmap handle bool;
  (** the number of promises created so far *)
  nextHandle : handle;
  (** pending [setTimeout(() => resolve(true), 1000)] callbacks, by the
      promise they resolve *)
  timers : list handle;
  (** the listeners given to [onDidCloseTerminal], by the terminal service
      and the registry key the listener deletes *)
  closeListeners : list (TerminalOptions * string);
  (** [disposables]: the listeners pushed to it, by their position in
      [closeListeners] *)
  disposables : list nat;
  (** every call made on a terminal service, oldest first *)
  terminalLog : list (TerminalOptions * TerminalCall)
}.

(** The provider as its constructor leaves it. *)
Definition newController (title : string) : Controller :=
  {| hasRanOutsideCurrentDrive := false; terminalTitle := title;
     replActive := ∅; settled := ∅; nextHandle := 0; timers := [];
     closeListeners := []; disposables := []; terminalLog := [] |}.

Definition setHasRanOutsideCurrentDrive (b : bool) (s : Controller) : Controller :=
  {| hasRanOutsideCurrentDrive := b; terminalTitle := terminalTitle s;
     replActive := replActive s; settled := settled s;
     nextHandle := nextHandle s; timers := timers s;
     closeListeners := closeListeners s; disposables := disposables s;
     terminalLog := terminalLog s |}.

Definition setReplActive (m : gmap string handle) (s : Controller) : Controller :=
  {| hasRanOutsideCurrentDrive := hasRanOutsideCurrentDrive s;
     terminalTitle := terminalTitle s;
     replActive := m; settled := settled s;
     nextHandle := nextHandle s; timers := timers s;
     closeListeners := closeListeners s; disposables := disposables s;
     terminalLog := terminalLog s |}.

Definition setSettled (p : gmap handle bool) (s : Controller) : Controller :=
  {| hasRanOutsideCurrentDrive := hasRanOutsideCurrentDrive s;
     terminalTitle := terminalTitle s;
     replActive := replActive s; settled := p;
     nextHandle := nextHandle s; timers := timers s;
     closeListeners := closeListeners s; disposables := disposables s;
     terminalLog := terminalLog s |}.

Definition setNextHandle (n : handle) (s : Controller) : Controller :=
  {| hasRanOutsideCurrentDrive := hasRanOutsideCurrentDrive s;
     terminalTitle := terminalTitle s;
     replActive := replActive s; settled := settled s;
     nextHandle := n; timers := timers s;
     closeListeners := closeListeners s; disposables := disposables s;
     terminalLog := terminalLog s |}.

Definition setTimers (l : list handle) (s : Controller) : Controller :=
  {| hasRanOutsideCurrentDrive := hasRanOutsideCurrentDrive s;
     terminalTitle := terminalTitle s;
     replActive := replActive s; settled := settled s;
     nextHandle := nextHandle s; timers := l;
     closeListeners := closeListeners s; disposables := disposables s;
     terminalLog := terminalLog s |}.

Definition setCloseListeners (l : list (TerminalOptions * string)) (s : Controller)
  : Controller :=
  {| hasRanOutsideCurrentDrive := hasRanOutsideCurrentDrive s;
     terminalTitle := terminalTitle s;
     replActive := replActive s; settled := settled s;
     nextHandle := nextHandle s; timers := timers s;
     closeListeners := l; disposables := disposables s;
     terminalLog := terminalLog s |}.

Definition setDisposables (l : list nat) (s : Controller) : Controller :=
  {| hasRanOutsideCurrentDrive := hasRanOutsideCurrentDrive s;
     terminalTitle := terminalTitle s;
     replActive := replActive s; settled := settled s;
     nextHandle := nextHandle s; timers := timers s;
     closeListeners := closeListeners s; disposables := l;
     terminalLog := terminalLog s |}.

Definition setTerminalLog (l : list (TerminalOptions * TerminalCall)) (s : Controller)
  : Controller :=
  {| hasRanOutsideCurrentDrive := hasRanOutsideCurrentDrive s;
     terminalTitle := terminalTitle s;
     replActive := replActive s; settled := settled s;
     nextHandle := nextHandle s; timers := timers s;
     closeListeners := closeListeners s; disposables := disposables s;
     terminalLog := l |}.

(** A call on a terminal service is recorded at the end of the log. *)
Definition logCall (t : TerminalOptions) (c : TerminalCall) (s : Controller)
  : Controller :=
  setTerminalLog (terminalLog s ++ [(t, c)]) s.

(** [resolve(v)]: settles the promise unless it has settled before. *)
Definition resolve (h : handle) (v : bool) (s : Controller) : Controller :=
  match settled s !! h with
  | Some _ => s
  | None => setSettled (<[h := v]> (settled s)) s
  end.

(** ** Async methods *)

Inductive Async (A : Type) : Type :=
| Done (a : A)
    (** the method returns *)
| Act {B : Type} (f : Controller -> B * Controller) (k : B -> Async A)
    (** synchronous code: it runs at once, with nothing in between *)
| Suspend (k : Async A)
    (** the suspension point of an [await] on a promise of the host or of a
        called async method; the method goes on in a later turn of the
        event loop *)
| AwaitHandle (h : handle) (k : bool -> Async A)
    (** the suspension point of an [await] on a promise of the registry;
        the method goes on, with the promise's value, in a later turn and
        not before the promise has settled *)
| Spawn (child : Async unit) (k : Async A).
    (** [new Promise(async ...)]: the executor runs up to its first
        suspension point, then the method goes on *)

Arguments Done {A} a.
Arguments Act {A B} f k.
Arguments Suspend {A} k.
Arguments AwaitHandle {A} h k.
Arguments Spawn {A} child k.

Fixpoint bind {A B : Type} (t : Async A) (f : A -> Async B) : Async B :=
  match t with
  | Done a => f a
  | Act g k => Act g (fun b => bind (k b) f)
  | Suspend k => Suspend (bind k f)
  | AwaitHandle h k => AwaitHandle h (fun b => bind (k b) f)
  | Spawn c k => Spawn c (bind k f)
  end.

#[global] Instance Async_ret : MRet Async := fun A a => Done a.
#[global] Instance Async_bind : MBind Async := fun A B f t => bind t f.

(** Reading and changing the state, synchronously. *)
Definition get {B : Type} (f : Controller -> B) : Async B :=
  Act (fun s => (f s, s)) Done.
Definition modify (f : Controller -> Controller) : Async unit :=
  Act (fun s => (tt, f s)) Done.

(** [await t] for a promise that is not one of the registry: [t] is the
    call that makes the promise.  The caller is suspended once [t] has
    produced its value, as an [await] always is. *)
Definition await {A : Type} (t : Async A) : Async A :=
  x ← t; Suspend (Done x).

(** [await p] for a promise [p] of the registry. *)
Definition awaitHandle (h : handle) : Async bool := AwaitHandle h Done.

(** [new Promise(executor)] *)
Definition newPromise (executor : handle -> Async unit) : Async handle :=
  h ← Act (fun s => (nextHandle s, setNextHandle (S (nextHandle s)) s)) Done;
  Spawn (executor h) (Done h).

(** [setTimeout(() => resolve(true), 1000)] for the promise [h] *)
Definition setTimeoutResolve (h : handle) : Async unit :=
  modify (fun s => setTimers (timers s ++ [h]) s).

(** *** Running a call

    [advance t s] runs [t] from state [s] to its next suspension point (or
    its end): it gives the state then, the executors started on the way,
    each at its own suspension point, and what is left of [t]. *)

Definition parked (t : Async unit) : list (Async unit) :=
  match t with
  | Done _ => []
  | _ => [t]
  end.

Fixpoint advance {A : Type} (t : Async A) (s : Controller)
  : Controller * list (Async unit) * Async A :=
  match t with
  | Done a => (s, [], Done a)
  | Act f k => let (b, s') := f s in advance (k b) s'
  | Suspend k => (s, [], Suspend k)
  | AwaitHandle h k => (s, [], AwaitHandle h k)
  | Spawn c k =>
      let '(s1, sp1, c') := advance c s in
      let '(s2, sp2, t') := advance k s1 in
      (s2, sp1 ++ parked c' ++ sp2, t')
  end.

(** [solo t s] runs the call [t] to its end with nothing else going on:
    every promise of the host settles when awaited and no other call,
    timer or terminal event comes in between.  It gives up on a registry
    promise that has not settled and on [new Promise]. *)
Fixpoint solo {A : Type} (t : Async A) (s : Controller) : option (A * Controller) :=
  match t with
  | Done a => Some (a, s)
  | Act f k => let (b, s') := f s in solo (k b) s'
  | Suspend k => solo k s
  | AwaitHandle h k =>
      match settled s !! h with
      | Some b => solo (k b) s
      | None => None
      end
  | Spawn _ _ => None
  end.

(** ** The provider's methods *)

Section TerminalCodeExecutionProvider.

Context {platformService : IPlatformService}
        {workspace : IWorkspaceService}
        {configurationService : IConfigurationService}
        {interpreterService : IInterpreterService}
        {pathModule : PathModule}
        {stringExtensions : StringExtensions}.

(** [resource?.fsPath || ''] *)
Definition resourceKey (resource : option Uri) : string :=
  match resource with
  | Some u => if String.eqb (fsPath u) "" then "" else fsPath u
  | None => ""
  end.

(** [private getTerminalService(resource?: Uri)] *)
Definition getTerminalService (resource : option Uri) : Async TerminalOptions :=
  get (fun s => {| resource := resource; title := terminalTitle s |}).

(** The methods of [ITerminalService] the provider calls. *)
Definition sendText (t : TerminalOptions) (text : string) : Async unit :=
  modify (logCall t (SendText text)).
Definition sendCommand (t : TerminalOptions) (command : string) (args : list string)
  : Async unit :=
  modify (logCall t (SendCommand command args)).
Definition show (t : TerminalOptions) : Async unit :=
  modify (logCall t Show).
(** [t.onDidCloseTerminal(() => this.replActive.delete(key))]; the value is
    the listener's disposable. *)
Definition onDidCloseTerminal (t : TerminalOptions) (key : string) : Async nat :=
  Act (fun s => (length (closeListeners s),
                 setCloseListeners (closeListeners s ++ [(t, key)]) s)) Done.

(** [public async getExecutableInfo(resource?: Uri, args: string[] = [])] *)
Definition getExecutableInfo (resource : option Uri) (args : list string)
  : Async PythonExecInfo :=
  let pythonSettings := getSettings resource in
  interpreter ← await (mret (getActiveInterpreter resource));
  let interpreterPath :=
    match interpreter with
    | Some i => path i
    | None => pythonPath pythonSettings
    end in
  let command :=
    if isWindows then backslashesToSlashes interpreterPath else interpreterPath in
  let launchArgs := launchArgs (terminal pythonSettings) in
  mret (buildPythonExecInfo command (launchArgs ++ args)).

(** [public async getExecuteFileArgs(resource?: Uri, executeArgs: string[] = [])] *)
Definition getExecuteFileArgs (resource : option Uri) (executeArgs : list string)
  : Async PythonExecInfo :=
  getExecutableInfo resource executeArgs.

(** The executor of the promise that [initializeRepl] makes. *)
Definition launchRepl (resource : option Uri) (terminalService : TerminalOptions)
           (h : handle) : Async unit :=
  replCommandArgs ← await (getExecutableInfo resource []);
  sendCommand terminalService (command replCommandArgs) (args replCommandArgs);;
  setTimeoutResolve h.

(** [public async initializeRepl(resource?: Uri)] *)
Definition initializeRepl (resource : option Uri) : Async unit :=
  terminalService ← getTerminalService resource;
  replActive0 ← get (fun s => replActive s !! resourceKey resource);
  ready ← match replActive0 with
          | Some h => awaitHandle h
          | None => mret false
          end;
  if ready : bool then
    await (show terminalService)
  else
    h ← newPromise (launchRepl resource terminalService);
    modify (fun s => setReplActive (<[resourceKey resource := h]> (replActive s)) s);;
    d ← onDidCloseTerminal terminalService (resourceKey resource);
    modify (fun s => setDisposables (disposables s ++ [d]) s);;
    _ ← awaitHandle h;
    mret tt.

(** [public async execute(code: string, resource?: Uri)] *)
Definition execute (code : string) (resource : option Uri) : Async unit :=
  if String.eqb code "" || (String.length (trim code) =? 0) then
    mret tt
  else
    await (initializeRepl None);;
    terminalService ← getTerminalService resource;
    await (sendText terminalService code).

(** [private async setCwdForFileExecution(file: Uri)] *)
Definition setCwdForFileExecution (file : Uri) : Async unit :=
  let pythonSettings := getSettings (Some file) in
  if negb (executeInFileDir (terminal pythonSettings)) then
    mret tt
  else
    let fileDirPath := dirname (fsPath file) in
    if 0 <? String.length fileDirPath then
      (if isWindows && testDriveLetter fileDirPath then
         let currentDrive := stripFromColon <$> rootPath in
         let fileDrive := stripFromColon fileDirPath in
         ranOutside ← get hasRanOutsideCurrentDrive;
         if negb (bool_decide (Some fileDrive = currentDrive)) || ranOutside then
           modify (setHasRanOutsideCurrentDrive true);;
           terminalService ← getTerminalService (Some file);
           await (sendText terminalService (fileDrive +:+ ":"))
         else
           mret tt
       else
         mret tt);;
      terminalService ← getTerminalService (Some file);
      await (sendText terminalService
               ("cd " +:+ fileToCommandArgumentForPythonExt fileDirPath))
    else
      mret tt.

(** [public async executeFile(file: Uri)] *)
Definition executeFile (file : Uri) : Async unit :=
  await (setCwdForFileExecution file);;
  info ← await (getExecuteFileArgs (Some file)
                  [fileToCommandArgumentForPythonExt (fsPath file)]);
  terminalService ← getTerminalService (Some file);
  await (sendCommand terminalService (command info) (args info)).

(** ** The event loop

    The host calls the provider's methods, lets suspended calls go on,
    fires timers and closes terminals, one at a time and in any order. *)

Inductive Request :=
| ExecuteFile (file : Uri)
| Execute (code : string) (resource : option Uri)
| InitializeRepl (resource : option Uri).

Definition method (r : Request) : Async unit :=
  match r with
  | ExecuteFile file => executeFile file
  | Execute code resource => execute code resource
  | InitializeRepl resource => initializeRepl resource
  end.

Inductive Event :=
| Call (r : Request)
    (** a method is called; its call joins the pool *)
| Resume (i : nat)
    (** the [i]-th call of the pool goes on from its suspension point *)
| TimerFires (h : handle)
    (** the warm-up delay of promise [h] is over *)
| TerminalClosed (t : TerminalOptions).
    (** the terminal of service [t] is closed *)

(** The provider and the calls made so far; a call that has returned stays
    in the pool as [Done tt]. *)
Record System := {
  ctl : Controller;
  pool : list (Async unit)
}.

Definition boot (s : Controller) : System := {| ctl := s; pool := [] |}.

(** Where the [i]-th call goes on, when it can. *)
Definition continuation (s : Controller) (t : Async unit) : option (Async unit) :=
  match t with
  | Suspend k => Some k
  | AwaitHandle h k => k <$> (settled s !! h)
  | _ => None
  end.

(** The listeners of [t] run: each deletes its key from the registry. *)
Definition fireClose (t : TerminalOptions) (s : Controller) : Controller :=
  setReplActive
    (foldl (fun m l => if decide (l.1 = t) then delete l.2 m else m)
           (replActive s) (closeListeners s)) s.

Definition exec (e : Event) (y : System) : option System :=
  match e with
  | Call r =>
      let '(s', sp, t') := advance (method r) (ctl y) in
      Some {| ctl := s'; pool := pool y ++ t' :: sp |}
  | Resume i =>
      t ← pool y !! i;
      k ← continuation (ctl y) t;
      let '(s', sp, t') := advance k (ctl y) in
      Some {| ctl := s'; pool := <[i := t']> (pool y) ++ sp |}
  | TimerFires h =>
      if decide (h ∈ timers (ctl y)) then
        Some {| ctl := resolve h true
                         (setTimers (filter (fun h' => h' ≠ h) (timers (ctl y))) (ctl y));
                pool := pool y |}
      else None
  | TerminalClosed t =>
      Some {| ctl := fireClose t (ctl y); pool := pool y |}
  end.

Fixpoint run (es : list Event) (y : System) : option System :=
  match es with
  | [] => Some y
  | e :: es' => y' ← exec e y; run es' y'
  end.

(** The start commands, [sendCommand] calls, in a terminal log. *)
Definition isSendCommand (c : TerminalOptions * TerminalCall) : bool :=
  match c.2 with
  | SendCommand _ _ => true
  | _ => false
  end.
Definition sendCommands (s : Controller) : list (TerminalOptions * TerminalCall) :=
  List.filter isSendCommand (terminalLog s).

End TerminalCodeExecutionProvider.

(** ** Sample hosts, for concrete runs *)

Module Sample.

Definition windows : IPlatformService := {| isWindows := true |}.
Definition posix : IPlatformService := {| isWindows := false |}.

Definition rootOnC : IWorkspaceService := {| rootPath := Some "C:\proj" |}.
Definition rootLowerC : IWorkspaceService := {| rootPath := Some "c:\proj" |}.
Definition noRoot : IWorkspaceService := {| rootPath := None |}.

Definition settings : IConfigurationService :=
  {| getSettings := fun _ =>
       {| pythonPath := "python";
          terminal := {| launchArgs := ["-i"]; executeInFileDir := true |} |} |}.

Definition interpreter : IInterpreterService :=
  {| getActiveInterpreter := fun _ => Some {| path := "C:\py\python.exe" |} |}.
Definition noInterpreter : IInterpreterService :=
  {| getActiveInterpreter := fun _ => None |}.

(** Everything before the last backslash: what [path.win32.dirname] gives
    for a drive path that names a file in a folder. *)
Fixpoint beforeLastBackslash (s : string) : string :=
  match s with
  | EmptyString => EmptyString
  | String c r =>
      if existsb (Ascii.eqb "\") (chars r) then String c (beforeLastBackslash r)
      else EmptyString
  end.
Definition win32Path : PathModule := {| dirname := beforeLastBackslash |}.

(** Paths without blanks need no quotes. *)
Definition plainArgument : StringExtensions :=
  {| fileToCommandArgumentForPythonExt := fun s => s |}.

Definition fileOnC : Uri := {| fsPath := "C:\proj\a.py" |}.
Definition fileOnD : Uri := {| fsPath := "D:\data\b.py" |}.
Definition fileUpperC : Uri := {| fsPath := "C:\proj\c.py" |}.

Definition fresh : Controller := newController "Python".

Definition terminalOf (resource : option Uri) : TerminalOptions :=
  {| resource := resource; title := "Python" |}.

End Sample.

(** Further hosts and files. *)
Module Hosts.

(** [executeInFileDir] switched off. *)
Definition settingsInPlace : IConfigurationService :=
  {| getSettings := fun _ =>
       {| pythonPath := "python";
          terminal := {| launchArgs := ["-i"]; executeInFileDir := false |} |} |}.

(** A file in a folder on a share; its path has no drive letter. *)
Definition fileOnShare : Uri := {| fsPath := "\\srv\share\docs\a.py" |}.

(** Everything before the last backslash is also what [path.win32.dirname]
    gives for a path on a share that names a file in a folder below the
    root of the share. *)
Definition sharePath : PathModule := {| dirname := Sample.beforeLastBackslash |}.

(** Everything before the last slash: what [path.posix.dirname] gives for an
    absolute path that names a file in a folder. *)
Fixpoint beforeLastSlash (s : string) : string :=
  match s with
  | EmptyString => EmptyString
  | String c r =>
      if existsb (Ascii.eqb "/") (chars r) then String c (beforeLastSlash r)
      else EmptyString
  end.
Definition posixPath : PathModule := {| dirname := beforeLastSlash |}.

Definition fileInHome : Uri := {| fsPath := "/home/me/a.py" |}.

(** A module for which the directory of every file is empty. *)
Definition noDirectory : PathModule := {| dirname := fun _ => "" |}.

(** A file named by an extended-length path. *)
Definition fileExtended : Uri := {| fsPath := "\\?\C:\proj\a.py" |}.

(** A provider that has run a file outside the root's drive. *)
Definition ranOutside : Controller := setHasRanOutsideCurrentDrive true Sample.fresh.

End Hosts.

(** ** Vocabulary of the statements *)

(** A path on drive [d]: the drive letter, a colon, and the rest on the same
    line. *)
Definition onDrive (d : ascii) (p : string) : bool :=
  match p with
  | String c (String colon rest) =>
      Ascii.eqb c d && isLetter d && Ascii.eqb colon ":" && singleLine rest
  | _ => false
  end.

(** What is left of a call at a suspension point is not synchronous code. *)
Inductive Parked {A : Type} : Async A -> Prop :=
| Parked_done a : Parked (Done a)
| Parked_suspend k : Parked (Suspend k)
| Parked_await h k : Parked (AwaitHandle h k).

(** A call that awaits only promises of the host and of the methods it
    calls: no promise of the registry, no [new Promise]. *)
Fixpoint Straight {A : Type} (t : Async A) : Prop :=
  match t with
  | Done _ => True
  | Act _ k => forall b, Straight (k b)
  | Suspend k => Straight k
  | AwaitHandle _ _ => False
  | Spawn _ _ => False
  end.

(** *** Calls that keep a relation

    [Keeps R V t]: every piece of synchronous code in [t] takes a state to
    one related to it by [R], whatever happens at the suspension points,
    as long as the registry promises [t] awaits have values in [V]. *)
Inductive Keeps (R : relation Controller) (V : bool -> Prop)
  : forall {A : Type}, Async A -> Prop :=
| Keeps_done {A} (a : A) : Keeps R V (Done a)
| Keeps_act {A B} (f : Controller -> B * Controller) (k : B -> Async A) :
    (forall s, R s (f s).2) -> (forall b, Keeps R V (k b)) -> Keeps R V (Act f k)
| Keeps_suspend {A} (k : Async A) : Keeps R V k -> Keeps R V (Suspend k)
| Keeps_await {A} h (k : bool -> Async A) :
    (forall b, V b -> Keeps R V (k b)) -> Keeps R V (AwaitHandle h k)
| Keeps_spawn {A} c (k : Async A) :
    Keeps R V c -> Keeps R V k -> Keeps R V (Spawn c k).

(** What a call that only waits for the session may change: calls of
    [show] and [sendText] in the terminal log, and nothing of the registry,
    the promises, the timers and the start commands. *)
Definition quiet : relation Controller :=
  fun s s' =>
    replActive s' = replActive s /\ settled s' = settled s
    /\ nextHandle s' = nextHandle s /\ timers s' = timers s
    /\ sendCommands s' = sendCommands s.

(** [Launcher start h t]: the call [t] reads the host, through any number
    of suspension points, and then, in one synchronous step, makes the
    terminal call [start], sets the timer of promise [h] and returns. *)
Inductive Launcher (start : TerminalOptions * TerminalCall) (h : handle)
  : Async unit -> Prop :=
| Launcher_suspend k : Launcher start h k -> Launcher start h (Suspend k)
| Launcher_read {B} (f : Controller -> B * Controller) k :
    (forall s, (f s).2 = s) -> (forall b, Launcher start h (k b)) ->
    Launcher start h (Act f k)
| Launcher_send {B C} (f : Controller -> B * Controller)
                (g : Controller -> C * Controller) k k' :
    (forall s, (f s).2 = logCall (start.1) (start.2) s) ->
    (forall s, (g s).2 = setTimers (timers s ++ [h]) s) ->
    (forall b, k b = Act g k') -> (forall c, k' c = Done tt) ->
    Launcher start h (Act f k).

(** A call suspended on the promise [h] that only waits for the session. *)
Definition Waiting (h : handle) (t : Async unit) : Prop :=
  (exists k, t = AwaitHandle h k) /\ Keeps quiet (fun b => b = true) t.

(** [Stays R t]: when the call [t] goes on, every piece of its synchronous
    code takes a state to one related to it by [R], with the values that
    the code before has produced, and no executor is started, as long as
    the registry promises [t] awaits are [true]. *)
Fixpoint Stays (R : relation Controller) {A : Type} (t : Async A) : Prop :=
  match t with
  | Done _ => True
  | Act f k => forall s, R s (f s).2 /\ Stays R (k (f s).1)
  | Suspend k => Stays R k
  | AwaitHandle _ k => Stays R (k true)
  | Spawn _ _ => False
  end.


(** [hasRanOutsideCurrentDrive], once set, is set. *)
Definition flagStays : relation Controller :=
  fun s s' => hasRanOutsideCurrentDrive s = true -> hasRanOutsideCurrentDrive s' = true.


Section Vocabulary.

Context {platformService : IPlatformService}
        {configurationService : IConfigurationService}
        {interpreterService : IInterpreterService}.

(** [interpreter?.path ?? pythonSettings.pythonPath] *)
Definition interpreterPathOf (resource : option Uri) : string :=
  match getActiveInterpreter resource with
  | Some i => path i
  | None => pythonPath (getSettings resource)
  end.

(** The start command of a session for [resource], from a provider in
    state [s]. *)
Definition startCommand (resource : option Uri) (s : Controller)
  : TerminalOptions * TerminalCall :=
  ({| resource := resource; title := terminalTitle s |},
   SendCommand
     (if isWindows then backslashesToSlashes (interpreterPathOf resource)
      else interpreterPathOf resource)
     (launchArgs (terminal (getSettings resource)) ++ [])).

(** The provider after the first synchronous step of an [initializeRepl]
    that finds no promise under the key. *)
Definition registered (resource : option Uri) (s : Controller) : Controller :=
  setDisposables (disposables s ++ [length (closeListeners s)])
    (setCloseListeners
       (closeListeners s
        ++ [({| resource := resource; title := terminalTitle s |}, resourceKey resource)])
       (setReplActive (<[resourceKey resource := nextHandle s]> (replActive s))
          (setNextHandle (S (nextHandle s)) s))).

(** Every promise that has settled was resolved with [true]. *)
Definition settledTrue (s : Controller) : Prop :=
  forall h b, settled s !! h = Some b -> b = true.

(** The next promise is new: it has not settled and no timer is set for
    it. *)
Definition nextHandleFresh (s : Controller) : Prop :=
  settled s !! nextHandle s = None /\ nextHandle s ∉ timers s.


(** A start command: a [sendCommand] whose arguments are the launch
    arguments of the terminal's resource and nothing after them.  (The
    command that [executeFile] sends has the file after them.) *)
Definition isStart (c : TerminalOptions * TerminalCall) : bool :=
  match c.2 with
  | SendCommand _ args =>
      bool_decide (args = launchArgs (terminal (getSettings (resource c.1))) ++ [])
  | _ => false
  end.

(** The start commands in the terminal log, and those sent to the
    terminal [t]. *)
Definition starts (s : Controller) : list (TerminalOptions * TerminalCall) :=
  List.filter isStart (terminalLog s).

(** What a call that is no launcher may change: the terminal log, by
    calls other than start commands, and the drive flag; nothing of the
    registry, the promises, the timers and the close listeners. *)
Definition aside : relation Controller :=
  fun s s' =>
    replActive s' = replActive s /\ settled s' = settled s
    /\ nextHandle s' = nextHandle s /\ timers s' = timers s
    /\ closeListeners s' = closeListeners s
    /\ starts s' = starts s.

(** A call in flight that is no launcher. *)
Definition Aside (t : Async unit) : Prop := Stays aside t.


(** A call suspended on the promise [h] that is no launcher. *)
Definition Awaiting (h : handle) (t : Async unit) : Prop :=
  (exists k, t = AwaitHandle h k) /\ Aside t.




(** Every close listener deletes the key of the resource of its
    terminal. *)
Definition listenersKeyed (s : Controller) : Prop :=
  forall t key, (t, key) ∈ closeListeners s -> key = resourceKey (resource t).



(** What holds of every state that a new provider reaches: the settled
    promises are [true]; the timers and the settled promises are of
    promises made; every close listener is for the key of its terminal;
    and a call in flight is no launcher, or is the launcher of a promise
    made. *)
Record Reached (y : System) : Prop := {
  reached_settled : settledTrue (ctl y);
  reached_timers : forall h, h ∈ timers (ctl y) -> h < nextHandle (ctl y);
  reached_promises : forall h, is_Some (settled (ctl y) !! h) -> h < nextHandle (ctl y);
  reached_listeners : listenersKeyed (ctl y);
  reached_pool :
    Forall (fun t => Aside t
                     \/ exists start' h', Launcher start' h' t /\ h' < nextHandle (ctl y))
           (pool y)
}.

End Vocabulary.

(** ** Vocabulary of the further properties *)

(** Nothing of the sessions changes: the registry, the promises, the
    timers and the close listeners. *)
Definition sessionsSame : relation Controller :=
  fun s s' =>
    replActive s' = replActive s /\ settled s' = settled s
    /\ nextHandle s' = nextHandle s /\ timers s' = timers s
    /\ closeListeners s' = closeListeners s /\ disposables s' = disposables s.

(** [hasRanOutsideCurrentDrive] is what it was. *)
Definition flagSame : relation Controller :=
  fun s s' => hasRanOutsideCurrentDrive s' = hasRanOutsideCurrentDrive s.

(** Settled promises that are all [true] stay all [true]. *)
Definition settledStayTrue : relation Controller :=
  fun s s' => settledTrue s -> settledTrue s'.

(** The close listeners for [key] are on terminals of [ts]. *)
Definition listenersWithin (key : string) (ts : list TerminalOptions)
           (s : Controller) : Prop :=
  forall t, (t, key) ∈ closeListeners s -> t ∈ ts.

(** The registry entry of [key] is what it was, and no listener for [key]
    has come on a terminal outside [ts]. *)
Definition apartFrom (key : string) (ts : list TerminalOptions) : relation Controller :=
  fun s s' =>
    listenersWithin key ts s ->
    listenersWithin key ts s' /\ replActive s' !! key = replActive s !! key.

(** The events that are not about [key]: calls for other keys ([execute]
    is a call for the empty key), suspended calls that go on, timers, and
    the close of a terminal outside [ts]. *)
Definition notAbout (key : string) (ts : list TerminalOptions) (e : Event) : bool :=
  match e with
  | Call (ExecuteFile _) => true
  | Call (Execute _ _) => negb (bool_decide (key = ""))
  | Call (InitializeRepl r) => negb (bool_decide (key = resourceKey r))
  | Resume _ => true
  | TimerFires _ => true
  | TerminalClosed t => negb (bool_decide (t ∈ ts))
  end.

(** The events other than a call of [executeFile]. *)
Definition noFileExecution (e : Event) : bool :=
  match e with
  | Call (ExecuteFile _) => false
  | _ => true
  end.

(** File executions, and suspended calls that go on. *)
Definition fileExecutionOnly (e : Event) : bool :=
  match e with
  | Call (ExecuteFile _) => true
  | Resume _ => true
  | _ => false
  end.

(** The close listeners and the disposables registered so far are still
    there, with later ones after them. *)
Definition listenersGrow : relation Controller :=
  fun s s' =>
    closeListeners s `prefix_of` closeListeners s'
    /\ disposables s `prefix_of` disposables s'.

(** The close listeners, the disposables and the promises, made and
    settled, are what they were. *)
Definition launchesSame : relation Controller :=
  fun s s' =>
    closeListeners s' = closeListeners s /\ disposables s' = disposables s
    /\ nextHandle s' = nextHandle s /\ settled s' = settled s.

(** From [s0] to [s], one close listener and one disposable have come for
    every promise made. *)
Definition onePerPromise (s0 s : Controller) : Prop :=
  nextHandle s0 <= nextHandle s
  /\ length (closeListeners s)
     = length (closeListeners s0) + (nextHandle s - nextHandle s0)
  /\ length (disposables s)
     = length (disposables s0) + (nextHandle s - nextHandle s0).

(** A string without colon. *)
Definition noColon (s : string) : bool :=
  forallb (fun c => negb (Ascii.eqb c ":")) (chars s).

(** The registry, the close listeners, the promises and the title are
    what they were. *)
Definition calm : relation Controller :=
  fun s s' =>
    replActive s' = replActive s /\ closeListeners s' = closeListeners s
    /\ settled s' = settled s /\ terminalTitle s' = terminalTitle s.

(** Every key of the registry is the key of a resource on whose terminal
    a close listener for the key is registered. *)
Definition listened (s : Controller) : Prop :=
  forall key h,
    replActive s !! key = Some h ->
    exists r, resourceKey r = key
              /\ ({| resource := r; title := terminalTitle s |}, key) ∈ closeListeners s.

(** The terminal log grows at its end, and the sessions and the start
    commands stay as they are. *)
Definition quietAppend : relation Controller :=
  fun s s' => quiet s s' /\ exists l, terminalLog s' = terminalLog s ++ l.

(** A call of the pool that has returned, or is suspended on the promise
    [h] and from there on only shows terminals and sends text. *)
Definition Idle (h : handle) (t : Async unit) : Prop :=
  t = Done tt
  \/ ((exists k, t = AwaitHandle h k) /\ Keeps quietAppend (fun b => b = true) t).

(** The events of a session of the empty key in one terminal lifetime:
    [execute] and [initializeRepl] for the empty key are called, suspended
    calls go on, and timers fire. *)
Definition codeSession (e : Event) : bool :=
  match e with
  | Call (Execute _ _) => true
  | Call (InitializeRepl r) => bool_decide (resourceKey r = "")
  | Call (ExecuteFile _) => false
  | Resume _ => true
  | TimerFires _ => true
  | TerminalClosed _ => false
  end.

(** The three stages of a session that [execute] has started, with [log]
    the terminal log before: the launcher, one call of the pool, has not
    sent [start], all other calls have returned or wait for the promise
    [h], and nothing has been sent; [start] has been sent and the promise
    [h] has not settled, and nothing else has been sent; the promise is
    [true], and [start] is the first of what has been sent. *)
Record Warmup (h : handle) (start : TerminalOptions * TerminalCall)
       (log : list (TerminalOptions * TerminalCall)) (y : System) : Prop := {
  warmup_registry : replActive (ctl y) !! "" = Some h;
  warmup_settled : settledTrue (ctl y);
  warmup_stage :
    (terminalLog (ctl y) = log
     /\ settled (ctl y) !! h = None /\ (h ∉ timers (ctl y))
     /\ exists pre l post, pool y = pre ++ l :: post
                           /\ Launcher start h l
                           /\ Forall (Idle h) pre /\ Forall (Idle h) post)
    \/ (terminalLog (ctl y) = log ++ [start]
        /\ settled (ctl y) !! h = None /\ Forall (Idle h) (pool y))
    \/ (settled (ctl y) !! h = Some true
        /\ (exists rest, terminalLog (ctl y) = log ++ start :: rest)
        /\ Forall (Keeps quietAppend (fun b => b = true)) (pool y))
}.

(** ** Facts about the string operations *)

Section StringFacts.

Lemma dropColonTails_inMatch (s : string) :
  singleLine s = true -> dropColonTails true s = "".
Proof.
  unfold singleLine. induction s as [|c r IH]; simpl; [done|].
  intros [Hc Hr]%andb_prop.
  destruct (isLineTerminator c); [done|]. by apply IH.
Qed.

(** On a single line, [replace(/\:.*/g, '')] leaves the text before the
    first colon. *)
Lemma stripFromColon_beforeColon (s : string) :
  singleLine s = true -> stripFromColon s = beforeColon s.
Proof.
  unfold stripFromColon, singleLine.
  induction s as [|c r IH]; simpl; [done|].
  intros [Hc Hr]%andb_prop.
  destruct (Ascii.eqb c ":").
  - by apply dropColonTails_inMatch.
  - by rewrite IH.
Qed.

Lemma trimEnd_blank (s : string) :
  forallb isWhiteSpace (chars s) = true -> trimEnd s = "".
Proof.
  induction s as [|c r IH]; simpl; [done|].
  intros [Hc Hr]%andb_prop. by rewrite IH, Hc.
Qed.

Lemma trimEnd_nonblank (s : string) :
  forallb isWhiteSpace (chars s) = false -> trimEnd s <> "".
Proof.
  induction s as [|c r IH]; simpl; [done|].
  intros H. destruct (trimEnd r) eqn:Hr; [|done].
  destruct (isWhiteSpace c) eqn:Hc; [|done].
  simpl in H. by apply IH in H.
Qed.

Lemma trimStart_blank (s : string) :
  forallb isWhiteSpace (chars s) = true -> trimStart s = "".
Proof.
  induction s as [|c r IH]; simpl; [done|].
  intros [Hc Hr]%andb_prop. rewrite Hc. by apply IH.
Qed.

Lemma trimStart_nonblank (s : string) :
  forallb isWhiteSpace (chars s) = false ->
  forallb isWhiteSpace (chars (trimStart s)) = false.
Proof.
  induction s as [|c r IH]; simpl; [done|].
  destruct (isWhiteSpace c) eqn:Hc; simpl; [done|]. by rewrite Hc.
Qed.

(** [trim] leaves nothing exactly of the strings made of white space. *)
Lemma trim_empty_iff (s : string) :
  trim s = "" <-> forallb isWhiteSpace (chars s) = true.
Proof.
  unfold trim. split.
  - intros H. destruct (forallb isWhiteSpace (chars s)) eqn:Hs; [done|].
    by apply trimStart_nonblank, trimEnd_nonblank in Hs.
  - intros H. by rewrite trimStart_blank.
Qed.

Lemma chars_backslashesToSlashes (s : string) :
  chars (backslashesToSlashes s)
  = (fun c => if Ascii.eqb c "\" then "/"%char else c) <$> chars s.
Proof. induction s as [|c r IH]; simpl; [done|]. by rewrite IH. Qed.

End StringFacts.


Lemma onDrive_inv (d : ascii) (p : string) :
  onDrive d p = true ->
  testDriveLetter p = true /\ stripFromColon p = String d "" /\ (0 <? String.length p) = true.
Proof.
  destruct p as [|c [|colon rest]]; simpl; try done.
  intros [[[Hc Hd]%andb_prop Hcolon]%andb_prop Hrest]%andb_prop.
  apply Ascii.eqb_eq in Hc as ->. apply Ascii.eqb_eq in Hcolon as ->.
  rewrite Hd. split; [done|]. split; [|done].
  unfold stripFromColon. simpl.
  destruct (Ascii.eqb d ":") eqn:Hdc.
  - apply Ascii.eqb_eq in Hdc as ->. done.
  - by rewrite dropColonTails_inMatch.
Qed.

(** ** Facts about running calls *)

Section AsyncFacts.

Lemma solo_bind {A B : Type} (t : Async A) (f : A -> Async B) (s : Controller) :
  solo (t ≫= f) s = '(a, s') ← solo t s; solo (f a) s'.
Proof.
  unfold mbind, Async_bind.
  revert B f s.
  induction t as [A a|A C g k IH|A k IH|A h k IH|A c IHc k IHk]; intros B f s; simpl.
  - done.
  - destruct (g s) as [b s']. apply IH.
  - apply IH.
  - destruct (settled s !! h); [apply IH|done].
  - done.
Qed.

Lemma solo_await {A : Type} (t : Async A) (s : Controller) :
  solo (await t) s = solo t s.
Proof.
  unfold await. rewrite solo_bind.
  destruct (solo t s) as [[a s']|]; done.
Qed.

(** A call that runs to its first suspension point and is not done
    there, stays in front of what follows it. *)
Lemma advance_bind {A B : Type} (t : Async A) (f : A -> Async B) (s : Controller) :
  advance (t ≫= f) s =
  let '(s1, sp1, t1) := advance t s in
  match t1 with
  | Done a => let '(s2, sp2, t2) := advance (f a) s1 in (s2, sp1 ++ sp2, t2)
  | _ => (s1, sp1, t1 ≫= f)
  end.
Proof.
  unfold mbind, Async_bind.
  revert B f s.
  induction t as [A a|A C g k IH|A k IH|A h k IH|A c IHc k IH]; intros B f s; simpl.
  - by destruct (advance (f a) s) as [[s2 sp2] t2].
  - destruct (g s) as [b s']. apply IH.
  - done.
  - done.
  - destruct (advance c s) as [[s1 sp1] c'].
    rewrite IH. destruct (advance k s1) as [[s2 sp2] t'].
    destruct t' as [a| | | |]; try done.
    destruct (advance (f a) s2) as [[s3 sp3] t3].
    by rewrite <- !app_assoc.
Qed.


Lemma advance_parked {A : Type} (t : Async A) (s : Controller) :
  Parked (advance t s).2 /\ Forall Parked (advance t s).1.2.
Proof.
  revert s.
  induction t as [A a|A C g k IH|A k IH|A h k IH|A c IHc k IHk]; intros s; simpl;
    try (split; constructor).
  - destruct (g s) as [b s']. apply IH.
  - destruct (advance c s) as [[s1 sp1] c'] eqn:Hc.
    destruct (advance k s1) as [[s2 sp2] t'] eqn:Hk.
    specialize (IHc s). specialize (IHk s1). rewrite Hc in IHc. rewrite Hk in IHk.
    simpl in *. split; [apply IHk|].
    rewrite !Forall_app. split; [apply IHc|]. split; [|apply IHk].
    destruct IHc as [[] _]; simpl; repeat constructor.
Qed.


Lemma Keeps_inv R V {A : Type} (t : Async A) :
  Keeps R V t ->
  match t with
  | Done _ => True
  | Act f k => (forall s, R s (f s).2) /\ (forall b, Keeps R V (k b))
  | Suspend k => Keeps R V k
  | AwaitHandle h k => forall b, V b -> Keeps R V (k b)
  | Spawn c k => Keeps R V c /\ Keeps R V k
  end.
Proof. destruct 1; auto. Qed.

Lemma Keeps_bind R V {A B : Type} (t : Async A) (f : A -> Async B) :
  Keeps R V t -> (forall a, Keeps R V (f a)) -> Keeps R V (t ≫= f).
Proof.
  unfold mbind, Async_bind.
  intros Ht. revert B f.
  induction Ht; intros B' g Hg; simpl; try (constructor; auto). apply Hg.
Qed.

Lemma Keeps_parked R V (t : Async unit) :
  Keeps R V t -> Forall (Keeps R V) (parked t).
Proof.
  intros Ht. destruct t; simpl; [by apply Forall_nil|by apply Forall_singleton..].
Qed.

Lemma Keeps_advance R V `{!Reflexive R, !Transitive R}
      {A : Type} (t : Async A) (s : Controller) :
  Keeps R V t ->
  R s (advance t s).1.1
  /\ Forall (Keeps R V) (advance t s).1.2
  /\ Keeps R V (advance t s).2.
Proof.
  intros Ht. revert s.
  induction Ht as [A a|A B f k Hf Hk IH|A k Hk IH|A h k Hk IH|A c k Hc IHc Hk IHk];
    intros s; simpl.
  - repeat split; [done|constructor|constructor].
  - specialize (Hf s). destruct (f s) as [b s']. simpl in Hf.
    destruct (IH b s') as (?&?&?). repeat split; [by etrans|done|done].
  - repeat split; [done|constructor|by constructor].
  - repeat split; [done|constructor|by constructor].
  - destruct (IHc s) as (Hc1&Hc2&Hc3).
    destruct (advance c s) as [[s1 sp1] c'].
    destruct (IHk s1) as (Hk1&Hk2&Hk3).
    destruct (advance k s1) as [[s2 sp2] t']. simpl in *.
    repeat split; [by etrans| |done].
    rewrite !Forall_app. repeat split; [done| |done]. by apply Keeps_parked.
Qed.

(** The call at a place of the pool is before, at, or after a given
    call. *)
Lemma lookup_middle {A : Type} (pre post : list A) (l t : A) (i : nat) :
  (pre ++ l :: post) !! i = Some t ->
  (i < length pre /\ pre !! i = Some t)
  \/ (i = length pre /\ t = l)
  \/ (length pre < i /\ post !! (i - S (length pre)) = Some t).
Proof.
  intros Hi. destruct (decide (i < length pre)) as [Hlt|Hge].
  - left. split; [done|]. by rewrite lookup_app_l in Hi.
  - rewrite lookup_app_r in Hi by lia.
    destruct (i - length pre) as [|j] eqn:Hj; simpl in Hi.
    + right. left. split; [lia|congruence].
    + right. right. split; [lia|]. by replace (i - S (length pre)) with j by lia.
Qed.

Lemma insert_middle {A : Type} (pre post : list A) (l t : A) :
  <[length pre := t]> (pre ++ l :: post) = pre ++ t :: post.
Proof. rewrite insert_app_r_alt by lia. by rewrite Nat.sub_diag. Qed.

End AsyncFacts.

(** ** The executable resolver *)

Section ExecutableResolver.

Context {platformService : IPlatformService}
        {configurationService : IConfigurationService}
        {interpreterService : IInterpreterService}.


Lemma solo_getExecutableInfo (resource : option Uri) (extra : list string)
      (s : Controller) :
  solo (getExecutableInfo resource extra) s =
  Some ({| command := if isWindows then backslashesToSlashes (interpreterPathOf resource)
                      else interpreterPathOf resource;
           args := launchArgs (terminal (getSettings resource)) ++ extra |}, s).
Proof. done. Qed.

(** C8: the command that [getExecutableInfo] returns is the interpreter
    path with every backslash replaced by a forward slash when the
    platform is Windows, and the interpreter path unchanged otherwise;
    the call ends and leaves the provider as it was. *)
Theorem getExecutableInfo_command (resource : option Uri) (extra : list string)
        (s : Controller) :
  exists info,
    solo (getExecutableInfo resource extra) s = Some (info, s)
    /\ command info
       = (if isWindows then backslashesToSlashes (interpreterPathOf resource)
          else interpreterPathOf resource)
    /\ chars (backslashesToSlashes (interpreterPathOf resource))
       = (fun c => if Ascii.eqb c "\" then "/"%char else c)
           <$> chars (interpreterPathOf resource).
Proof.
  eexists. split; [apply solo_getExecutableInfo|].
  split; [done|apply chars_backslashesToSlashes].
Qed.

(** C5, as amended: [getExecutableInfo] takes the active interpreter's
    path when there is an active interpreter and the configured
    [pythonPath] only when there is none; the command is that path, with
    every backslash replaced by a forward slash when the platform is
    Windows; the arguments are the configured launch arguments followed
    by the caller's arguments. *)
Theorem getExecutableInfo_precedence (resource : option Uri) (extra : list string)
        (s : Controller) :
  exists info,
    solo (getExecutableInfo resource extra) s = Some (info, s)
    /\ args info = launchArgs (terminal (getSettings resource)) ++ extra
    /\ (forall i, getActiveInterpreter resource = Some i ->
          command info
          = if isWindows then backslashesToSlashes (path i) else path i)
    /\ (getActiveInterpreter resource = None ->
          command info
          = if isWindows then backslashesToSlashes (pythonPath (getSettings resource))
            else pythonPath (getSettings resource)).
Proof.
  eexists. split; [apply solo_getExecutableInfo|]. simpl.
  unfold interpreterPathOf. split; [done|].
  split; [intros i ->|intros ->]; done.
Qed.

End ExecutableResolver.

(** With an active interpreter at [C:\py\python.exe], the fallback [python]
    and a caller's argument, on Windows and elsewhere. *)
Lemma getExecutableInfo_precedence_witness :
  (exists info,
     solo (getExecutableInfo (platformService := Sample.windows)
             (configurationService := Sample.settings)
             (interpreterService := Sample.interpreter) None ["-q"]) Sample.fresh
     = Some (info, Sample.fresh)
     /\ args info = ["-i"; "-q"] /\ command info = "C:/py/python.exe")
  /\ (exists info,
     solo (getExecutableInfo (platformService := Sample.posix)
             (configurationService := Sample.settings)
             (interpreterService := Sample.noInterpreter) None ["-q"]) Sample.fresh
     = Some (info, Sample.fresh)
     /\ args info = ["-i"; "-q"] /\ command info = "python").
Proof.
  split.
  - destruct (getExecutableInfo_precedence
                (platformService := Sample.windows)
                (configurationService := Sample.settings)
                (interpreterService := Sample.interpreter) None ["-q"] Sample.fresh)
      as (info & Hrun & Hargs & Hactive & _).
    exists info. split; [exact Hrun|]. split; [exact Hargs|].
    apply (Hactive {| path := "C:\py\python.exe" |}). reflexivity.
  - destruct (getExecutableInfo_precedence
                (platformService := Sample.posix)
                (configurationService := Sample.settings)
                (interpreterService := Sample.noInterpreter) None ["-q"] Sample.fresh)
      as (info & Hrun & Hargs & _ & Hnone).
    exists info. split; [exact Hrun|]. split; [exact Hargs|].
    apply Hnone. reflexivity.
Defined.

(** C5 as stated fails on Windows: with the active interpreter at
    [C:\py\python.exe] and the fallback [python] both present, the command
    is [C:/py/python.exe], which is not the active interpreter's path. *)
Lemma getExecutableInfo_precedence_counterexample :
  let run := solo (getExecutableInfo (platformService := Sample.windows)
                     (configurationService := Sample.settings)
                     (interpreterService := Sample.interpreter) None [])
                  Sample.fresh in
  getActiveInterpreter (IInterpreterService := Sample.interpreter) None
  = Some {| path := "C:\py\python.exe" |}
  /\ command <$> (fst <$> run) = Some "C:/py/python.exe"
  /\ command <$> (fst <$> run) <> Some "C:\py\python.exe".
Proof. split; [reflexivity|]. split; [reflexivity|discriminate]. Qed.

(** ** The dispatcher and the working-directory reconciler *)

Section Dispatcher.

Context {platformService : IPlatformService}
        {workspace : IWorkspaceService}
        {configurationService : IConfigurationService}
        {interpreterService : IInterpreterService}
        {pathModule : PathModule}
        {stringExtensions : StringExtensions}.

Lemma testDriveLetter_nonempty (p : string) :
  testDriveLetter p = true -> (0 <? String.length p) = true.
Proof. by destruct p. Qed.

(** The reconciler on Windows, for a directory with a drive letter. *)
Lemma solo_setCwd_drive (file : Uri) (s : Controller) :
  isWindows = true ->
  executeInFileDir (terminal (getSettings (Some file))) = true ->
  testDriveLetter (dirname (fsPath file)) = true ->
  solo (setCwdForFileExecution file) s =
  let dir := dirname (fsPath file) in
  let t := {| resource := Some file; title := terminalTitle s |} in
  let cd := SendText ("cd " +:+ fileToCommandArgumentForPythonExt dir) in
  Some (tt,
        if negb (bool_decide (Some (stripFromColon dir) = stripFromColon <$> rootPath))
           || hasRanOutsideCurrentDrive s
        then logCall t cd (logCall t (SendText (stripFromColon dir +:+ ":"))
                             (setHasRanOutsideCurrentDrive true s))
        else logCall t cd s).
Proof.
  intros Hwin Hdir Hdrive. unfold setCwdForFileExecution.
  rewrite Hwin, Hdir, Hdrive, (testDriveLetter_nonempty _ Hdrive). simpl.
  by destruct (negb _ || _).
Qed.

(** [executeFile] is the reconciler followed by the run command. *)
Lemma solo_executeFile (file : Uri) (s : Controller) :
  solo (executeFile file) s =
  '(_, s1) ← solo (setCwdForFileExecution file) s;
  '(info, _) ← solo (getExecuteFileArgs (Some file)
                       [fileToCommandArgumentForPythonExt (fsPath file)]) s1;
  Some (tt, logCall {| resource := Some file; title := terminalTitle s1 |}
              (SendCommand (command info) (args info)) s1).
Proof.
  unfold executeFile. rewrite solo_bind, solo_await.
  destruct (solo (setCwdForFileExecution file) s) as [[[] s1]|]; [|done].
  done.
Qed.

(** C4: for a code string that is empty, or that [trim] leaves empty,
    [execute] returns in its first synchronous step with the provider and
    the host as they were: nothing is sent to a terminal, the registry is
    not touched and no session is started. *)
Theorem execute_blank_noop (code : string) (resource : option Uri) (s : Controller) :
  code = "" \/ trim code = "" ->
  advance (execute code resource) s = (s, [], Done tt)
  /\ solo (execute code resource) s = Some (tt, s)
  /\ forall y, exec (Call (Execute code resource)) y
               = Some {| ctl := ctl y; pool := pool y ++ [Done tt] |}.
Proof.
  intros H. unfold exec, method, execute.
  assert (String.eqb code "" || (String.length (trim code) =? 0) = true) as ->.
  { destruct H as [->| ->]; [done|]. by rewrite orb_true_r. }
  done.
Qed.


(** C6: on Windows, with [executeInFileDir] set, the workspace root and the
    file's directory on the same drive and no execution outside that drive
    so far, [executeFile] sends no drive change: what it sends is one [cd]
    with the quoted directory of the file, followed by the run command, and
    it leaves [hasRanOutsideCurrentDrive] unset. *)
Theorem executeFile_same_drive (d : ascii) (root : string) (file : Uri) (s : Controller) :
  isWindows = true ->
  executeInFileDir (terminal (getSettings (Some file))) = true ->
  rootPath = Some root ->
  onDrive d root = true ->
  onDrive d (dirname (fsPath file)) = true ->
  hasRanOutsideCurrentDrive s = false ->
  exists info s',
    solo (getExecuteFileArgs (Some file)
            [fileToCommandArgumentForPythonExt (fsPath file)]) s = Some (info, s)
    /\ solo (executeFile file) s = Some (tt, s')
    /\ terminalLog s'
       = terminalLog s
         ++ [({| resource := Some file; title := terminalTitle s |},
              SendText ("cd " +:+ fileToCommandArgumentForPythonExt (dirname (fsPath file))));
             ({| resource := Some file; title := terminalTitle s |},
              SendCommand (command info) (args info))]
    /\ hasRanOutsideCurrentDrive s' = false.
Proof.
  intros Hwin Hdir Hroot Hrd Hfd Hflag.
  apply onDrive_inv in Hrd as (_ & Hrs & _). apply onDrive_inv in Hfd as (Hfl & Hfs & _).
  eexists _, _. split; [apply solo_getExecutableInfo|].
  rewrite solo_executeFile, solo_setCwd_drive by done. cbv zeta.
  rewrite Hroot, Hfs, Hflag. simpl. rewrite Hrs.
  rewrite bool_decide_eq_true_2 by done. simpl.
  split; [done|]. simpl. rewrite <- app_assoc. by rewrite Hflag.
Qed.


End Dispatcher.

(** The three blank strings of the specification: the empty string, three
    spaces and a line feed. *)
Lemma execute_blank_noop_witness :
  let execute := execute (platformService := Sample.windows)
                   (configurationService := Sample.settings)
                   (interpreterService := Sample.interpreter) in
  advance (execute "" None) Sample.fresh = (Sample.fresh, [], Done tt)
  /\ advance (execute "   " None) Sample.fresh = (Sample.fresh, [], Done tt)
  /\ advance (execute (String "010" "") None) Sample.fresh = (Sample.fresh, [], Done tt).
Proof.
  pose proof (execute_blank_noop (platformService := Sample.windows)
                (workspace := Sample.rootOnC)
                (configurationService := Sample.settings)
                (interpreterService := Sample.interpreter)
                (pathModule := Sample.win32Path)
                (stringExtensions := Sample.plainArgument)) as noop.
  split; [|split].
  - apply (noop "" None Sample.fresh). left. reflexivity.
  - apply (noop "   " None Sample.fresh). right. reflexivity.
  - apply (noop (String "010" "") None Sample.fresh). right. reflexivity.
Defined.

Lemma executeFile_same_drive_witness :
  exists info s',
    solo (getExecuteFileArgs (platformService := Sample.windows)
            (configurationService := Sample.settings)
            (interpreterService := Sample.interpreter)
            (Some Sample.fileOnC) ["C:\proj\a.py"]) Sample.fresh
    = Some (info, Sample.fresh)
    /\ solo (executeFile (platformService := Sample.windows)
               (workspace := Sample.rootOnC)
               (configurationService := Sample.settings)
               (interpreterService := Sample.interpreter)
               (pathModule := Sample.win32Path)
               (stringExtensions := Sample.plainArgument) Sample.fileOnC) Sample.fresh
       = Some (tt, s')
    /\ terminalLog s'
       = [(Sample.terminalOf (Some Sample.fileOnC), SendText "cd C:\proj");
          (Sample.terminalOf (Some Sample.fileOnC),
           SendCommand (command info) (args info))]
    /\ hasRanOutsideCurrentDrive s' = false.
Proof.
  apply (executeFile_same_drive
           (platformService := Sample.windows) (workspace := Sample.rootOnC)
           (configurationService := Sample.settings)
           (interpreterService := Sample.interpreter)
           (pathModule := Sample.win32Path)
           (stringExtensions := Sample.plainArgument)
           "C"%char "C:\proj" Sample.fileOnC Sample.fresh); reflexivity.
Defined.

(** ** The sticky drive flag *)

#[global] Instance flagStays_preorder : PreOrder flagStays.
Proof.
  split; [intros s H; exact H|intros s1 s2 s3 H12 H23 H; by apply H23, H12].
Qed.

(** Unfolds a method down to the constructors of [Async] and checks that
    each piece of synchronous code keeps the relation. *)
Ltac keeps_step :=
  match goal with
  | |- Keeps _ _ (_ ≫= _) => apply Keeps_bind
  | |- Keeps _ _ (if ?b then _ else _) => destruct b
  | |- Keeps _ _ (match ?o with _ => _ end) => destruct o
  | |- Keeps _ _ (Done _) => apply Keeps_done
  | |- Keeps _ _ (Act _ _) => apply Keeps_act
  | |- Keeps _ _ (Suspend _) => apply Keeps_suspend
  | |- Keeps _ _ (AwaitHandle _ _) => apply Keeps_await
  | |- Keeps _ _ (Spawn _ _) => apply Keeps_spawn
  | |- forall _, _ => intros
  end.
Ltac keeps :=
  unfold await, awaitHandle, newPromise, setTimeoutResolve, get, modify, mret, Async_ret;
  cbv zeta; repeat keeps_step.

Section StickyFlag.

Context {platformService : IPlatformService}
        {workspace : IWorkspaceService}
        {configurationService : IConfigurationService}
        {interpreterService : IInterpreterService}
        {pathModule : PathModule}
        {stringExtensions : StringExtensions}.

Lemma getExecutableInfo_flagStays (resource : option Uri) (extra : list string) :
  Keeps flagStays (fun _ => True) (getExecutableInfo resource extra).
Proof. unfold getExecutableInfo. keeps. Qed.

Lemma setCwdForFileExecution_flagStays (file : Uri) :
  Keeps flagStays (fun _ => True) (setCwdForFileExecution file).
Proof.
  unfold setCwdForFileExecution, getTerminalService, sendText. keeps; by intros ?.
Qed.

Lemma initializeRepl_flagStays (resource : option Uri) :
  Keeps flagStays (fun _ => True) (initializeRepl resource).
Proof.
  unfold initializeRepl, launchRepl, getTerminalService, show, sendCommand,
    onDidCloseTerminal.
  keeps; try (by intros ?); try apply getExecutableInfo_flagStays.
Qed.

Lemma Keeps_continuation R V (s : Controller) (t k : Async unit) :
  (forall h b, settled s !! h = Some b -> V b) ->
  Keeps R V t -> continuation s t = Some k -> Keeps R V k.
Proof.
  intros HV Ht Hk. apply Keeps_inv in Ht.
  destruct t as [?|? ? ?|k'|h k'|? ?]; simpl in Hk; try done.
  - by simplify_eq.
  - destruct (settled s !! h) as [b|] eqn:Hb; simplify_eq/=. eauto.
Qed.

(** A suspended call that keeps [R] goes on keeping it. *)
Lemma Keeps_resume R V `{!PreOrder R} (y y' : System) (i : nat) :
  (forall h b, settled (ctl y) !! h = Some b -> V b) ->
  Forall (Keeps R V) (pool y) ->
  exec (Resume i) y = Some y' ->
  R (ctl y) (ctl y') /\ Forall (Keeps R V) (pool y').
Proof.
  intros HV Hpool Hexec. simpl in Hexec.
  destruct (pool y !! i) as [t|] eqn:Ht; [|done]. simpl in Hexec.
  destruct (continuation (ctl y) t) as [k|] eqn:Hk; [|done]. simpl in Hexec.
  assert (Keeps R V k) as Hkeeps.
  { eapply Keeps_continuation; [done| |done].
    eapply Forall_lookup_1; [exact Hpool|exact Ht]. }
  destruct (Keeps_advance R V k (ctl y) Hkeeps) as (H1 & H2 & H3).
  destruct (advance k (ctl y)) as [[s' sp] t']. simplify_eq/=.
  split; [done|]. apply Forall_app. split; [by apply Forall_insert|done].
Qed.

Lemma Keeps_call R V `{!PreOrder R} (y y' : System) (r : Request) :
  Keeps R V (method r) ->
  Forall (Keeps R V) (pool y) ->
  exec (Call r) y = Some y' ->
  R (ctl y) (ctl y') /\ Forall (Keeps R V) (pool y').
Proof.
  intros Hr Hpool Hexec. simpl in Hexec.
  destruct (Keeps_advance R V (method r) (ctl y) Hr) as (H1 & H2 & H3).
  destruct (advance (method r) (ctl y)) as [[s' sp] t']. simplify_eq/=.
  split; [done|]. apply Forall_app. split; [done|]. by apply Forall_cons.
Qed.

Lemma method_flagStays (r : Request) : Keeps flagStays (fun _ => True) (method r).
Proof.
  destruct r as [file|code resource|resource]; simpl.
  - unfold executeFile, getExecuteFileArgs, getTerminalService, sendCommand.
    keeps; try (by intros ?);
      [apply setCwdForFileExecution_flagStays|apply getExecutableInfo_flagStays].
  - unfold execute, getTerminalService, sendText.
    keeps; try (by intros ?). apply initializeRepl_flagStays.
  - apply initializeRepl_flagStays.
Qed.


Lemma resolve_flagStays (h : handle) (v : bool) (s : Controller) :
  hasRanOutsideCurrentDrive (resolve h v s) = hasRanOutsideCurrentDrive s.
Proof. unfold resolve. by destruct (settled s !! h). Qed.

(** No step of the event loop clears the flag. *)
Lemma exec_flagStays (e : Event) (y y' : System) :
  Forall (Keeps flagStays (fun _ => True)) (pool y) ->
  exec e y = Some y' ->
  flagStays (ctl y) (ctl y') /\ Forall (Keeps flagStays (fun _ => True)) (pool y').
Proof.
  intros Hpool Hexec. destruct e as [r|i|h|t].
  - eapply Keeps_call; [apply _|apply method_flagStays|done|done].
  - eapply Keeps_resume; [apply _|done|done|done].
  - simpl in Hexec. case_decide; [|done]. simplify_eq/=.
    split; [|done]. intros Hset. by rewrite resolve_flagStays.
  - simplify_eq/=. split; [by intros ?|done].
Qed.

Lemma run_flagStays (es : list Event) (y y' : System) :
  Forall (Keeps flagStays (fun _ => True)) (pool y) ->
  run es y = Some y' ->
  flagStays (ctl y) (ctl y') /\ Forall (Keeps flagStays (fun _ => True)) (pool y').
Proof.
  revert y. induction es as [|e es IH]; intros y Hpool Hrun; simpl in Hrun.
  - by simplify_eq.
  - destruct (exec e y) as [y1|] eqn:He; [|done]. simpl in Hrun.
    destruct (exec_flagStays e y y1 Hpool He) as [H1 Hpool1].
    destruct (IH y1 Hpool1 Hrun) as [H2 Hpool2].
    split; [by etrans|done].
Qed.

End StickyFlag.

(** ** Drive changes *)

Section Reconciler.

Context {platformService : IPlatformService}
        {workspace : IWorkspaceService}
        {configurationService : IConfigurationService}
        {interpreterService : IInterpreterService}
        {pathModule : PathModule}
        {stringExtensions : StringExtensions}.

(** What [executeFile] sends for [file] in state [s], after a drive change
    to [drive] when there is one: the [cd] to the quoted directory and the
    run command. *)
Lemma solo_executeFile_drive (file : Uri) (s : Controller) :
  isWindows = true ->
  executeInFileDir (terminal (getSettings (Some file))) = true ->
  testDriveLetter (dirname (fsPath file)) = true ->
  exists info s',
    solo (getExecuteFileArgs (Some file)
            [fileToCommandArgumentForPythonExt (fsPath file)]) s = Some (info, s)
    /\ solo (executeFile file) s = Some (tt, s')
    /\ let dir := dirname (fsPath file) in
       let t := {| resource := Some file; title := terminalTitle s |} in
       let tail := [(t, SendText ("cd " +:+ fileToCommandArgumentForPythonExt dir));
                    (t, SendCommand (command info) (args info))] in
       if negb (bool_decide (Some (stripFromColon dir) = stripFromColon <$> rootPath))
          || hasRanOutsideCurrentDrive s
       then terminalLog s'
            = terminalLog s ++ (t, SendText (stripFromColon dir +:+ ":")) :: tail
            /\ hasRanOutsideCurrentDrive s' = true
       else terminalLog s' = terminalLog s ++ tail
            /\ hasRanOutsideCurrentDrive s' = hasRanOutsideCurrentDrive s.
Proof.
  intros Hwin Hdir Hdrive.
  pose proof (solo_executeFile file s) as Hrun.
  rewrite solo_setCwd_drive in Hrun by done. cbv zeta in Hrun. cbv zeta.
  destruct (negb _ || _); simpl in Hrun;
    eexists _, _; (split; [apply solo_getExecutableInfo|]);
    (split; [exact Hrun|]); simpl; by rewrite <- !app_assoc.
Qed.

(** C9: on Windows, with [executeInFileDir] set and no workspace root
    path, executing a file whose directory has the drive-letter pattern
    sends a drive change (the text before the colon, and a colon) before the
    [cd] and sets [hasRanOutsideCurrentDrive], whatever the flag was: also on
    the first execution. *)
Theorem executeFile_unknown_root (file : Uri) (s : Controller) :
  isWindows = true ->
  executeInFileDir (terminal (getSettings (Some file))) = true ->
  rootPath = None ->
  testDriveLetter (dirname (fsPath file)) = true ->
  exists info s',
    solo (getExecuteFileArgs (Some file)
            [fileToCommandArgumentForPythonExt (fsPath file)]) s = Some (info, s)
    /\ solo (executeFile file) s = Some (tt, s')
    /\ terminalLog s'
       = terminalLog s
         ++ [({| resource := Some file; title := terminalTitle s |},
              SendText (stripFromColon (dirname (fsPath file)) +:+ ":"));
             ({| resource := Some file; title := terminalTitle s |},
              SendText ("cd " +:+ fileToCommandArgumentForPythonExt (dirname (fsPath file))));
             ({| resource := Some file; title := terminalTitle s |},
              SendCommand (command info) (args info))]
    /\ hasRanOutsideCurrentDrive s' = true.
Proof.
  intros Hwin Hdir Hroot Hdrive.
  destruct (solo_executeFile_drive file s Hwin Hdir Hdrive) as (info & s' & Hi & Hrun & H).
  exists info, s'. split; [done|]. split; [done|].
  cbv zeta in H. rewrite Hroot in H. simpl in H. exact H.
Qed.

(** C10: the reconciler compares the drives as strings, letter case and
    all.  On Windows, with [executeInFileDir] set, a single-line workspace
    root path and file directory, and the flag unset, the drive change is
    sent exactly when the text before the first colon of the directory is
    not the same string as the text before the first colon of the root. *)
Theorem drive_comparison_exact (root : string) (file : Uri) (s : Controller) :
  isWindows = true ->
  executeInFileDir (terminal (getSettings (Some file))) = true ->
  rootPath = Some root ->
  testDriveLetter (dirname (fsPath file)) = true ->
  singleLine root = true ->
  singleLine (dirname (fsPath file)) = true ->
  hasRanOutsideCurrentDrive s = false ->
  exists s',
    solo (setCwdForFileExecution file) s = Some (tt, s')
    /\ let dir := dirname (fsPath file) in
       let t := {| resource := Some file; title := terminalTitle s |} in
       let cd := (t, SendText ("cd " +:+ fileToCommandArgumentForPythonExt dir)) in
       if decide (beforeColon dir = beforeColon root)
       then terminalLog s' = terminalLog s ++ [cd]
            /\ hasRanOutsideCurrentDrive s' = false
       else terminalLog s'
            = terminalLog s ++ [(t, SendText (beforeColon dir +:+ ":")); cd]
            /\ hasRanOutsideCurrentDrive s' = true.
Proof.
  intros Hwin Hdir Hroot Hdrive Hr Hd Hflag.
  eexists. split; [by apply solo_setCwd_drive|]. cbv zeta.
  rewrite Hroot, Hflag, orb_false_r. simpl.
  rewrite !stripFromColon_beforeColon by done.
  case_decide as Heq.
  - rewrite Heq, bool_decide_eq_true_2 by done. by simpl.
  - rewrite bool_decide_eq_false_2 by congruence. simpl.
    by rewrite <- app_assoc.
Qed.

(** C3: on Windows, with the workspace root on drive [C:], executing a file
    on drive [D:] sends the drive change [D:] and sets
    [hasRanOutsideCurrentDrive]; once the flag is set, every execution of a
    file on a drive sends the drive change for that drive, the root's
    drive too; and no step of the provider or the host clears the flag
    again.  A file is on a drive when its directory is the drive letter, a
    colon and a rest without line terminator, and [executeInFileDir] is set
    for the files executed. *)
Theorem drive_stickiness (root : string) (fileD : Uri) :
  isWindows = true ->
  rootPath = Some root ->
  onDrive "C" root = true ->
  executeInFileDir (terminal (getSettings (Some fileD))) = true ->
  onDrive "D" (dirname (fsPath fileD)) = true ->
  (forall s, exists info s',
      solo (getExecuteFileArgs (Some fileD)
              [fileToCommandArgumentForPythonExt (fsPath fileD)]) s = Some (info, s)
      /\ solo (executeFile fileD) s = Some (tt, s')
      /\ terminalLog s'
         = terminalLog s
           ++ [({| resource := Some fileD; title := terminalTitle s |}, SendText "D:");
               ({| resource := Some fileD; title := terminalTitle s |},
                SendText ("cd " +:+ fileToCommandArgumentForPythonExt
                                      (dirname (fsPath fileD))));
               ({| resource := Some fileD; title := terminalTitle s |},
                SendCommand (command info) (args info))]
      /\ hasRanOutsideCurrentDrive s' = true)
  /\ (forall (d : ascii) (file : Uri) (s : Controller),
      executeInFileDir (terminal (getSettings (Some file))) = true ->
      onDrive d (dirname (fsPath file)) = true ->
      hasRanOutsideCurrentDrive s = true ->
      exists info s',
        solo (getExecuteFileArgs (Some file)
                [fileToCommandArgumentForPythonExt (fsPath file)]) s = Some (info, s)
        /\ solo (executeFile file) s = Some (tt, s')
        /\ terminalLog s'
           = terminalLog s
             ++ [({| resource := Some file; title := terminalTitle s |},
                  SendText (String d ":"));
                 ({| resource := Some file; title := terminalTitle s |},
                  SendText ("cd " +:+ fileToCommandArgumentForPythonExt
                                        (dirname (fsPath file))));
                 ({| resource := Some file; title := terminalTitle s |},
                  SendCommand (command info) (args info))]
        /\ hasRanOutsideCurrentDrive s' = true)
  /\ (forall (s0 : Controller) (es1 es2 : list Event) (y1 y2 : System),
      run es1 (boot s0) = Some y1 ->
      hasRanOutsideCurrentDrive (ctl y1) = true ->
      run es2 y1 = Some y2 ->
      hasRanOutsideCurrentDrive (ctl y2) = true).
Proof.
  intros Hwin Hroot HrootC HdirD HonD. split; [|split].
  - intros s.
    apply onDrive_inv in HrootC as (_ & Hrs & _). apply onDrive_inv in HonD as (Hdl & Hds & _).
    destruct (solo_executeFile_drive fileD s Hwin HdirD Hdl) as (info & s' & Hi & Hrun & H).
    exists info, s'. split; [done|]. split; [done|].
    cbv zeta in H. rewrite Hroot, Hds in H. simpl in H. rewrite Hrs in H.
    rewrite bool_decide_eq_false_2 in H by (intros [=]). exact H.
  - intros d file s Hdir Hon Hflag.
    apply onDrive_inv in Hon as (Hdl & Hds & _).
    destruct (solo_executeFile_drive file s Hwin Hdir Hdl) as (info & s' & Hi & Hrun & H).
    exists info, s'. split; [done|]. split; [done|].
    cbv zeta in H. rewrite Hflag, orb_true_r, Hds in H. exact H.
  - intros s0 es1 es2 y1 y2 Hrun1 Hflag Hrun2.
    destruct (run_flagStays es1 (boot s0) y1 (Forall_nil_2 _) Hrun1) as [_ Hpool].
    destruct (run_flagStays es2 y1 y2 Hpool Hrun2) as [Hstays _].
    by apply Hstays.
Qed.

End Reconciler.

(** No workspace root: the first execution of [C:\proj\a.py] changes to
    drive [C:] and sets the flag. *)
Lemma executeFile_unknown_root_witness :
  exists info s',
    solo (getExecuteFileArgs (platformService := Sample.windows)
            (configurationService := Sample.settings)
            (interpreterService := Sample.interpreter)
            (Some Sample.fileOnC) ["C:\proj\a.py"]) Sample.fresh
    = Some (info, Sample.fresh)
    /\ solo (executeFile (platformService := Sample.windows)
               (workspace := Sample.noRoot)
               (configurationService := Sample.settings)
               (interpreterService := Sample.interpreter)
               (pathModule := Sample.win32Path)
               (stringExtensions := Sample.plainArgument) Sample.fileOnC) Sample.fresh
       = Some (tt, s')
    /\ terminalLog s'
       = [(Sample.terminalOf (Some Sample.fileOnC), SendText "C:");
          (Sample.terminalOf (Some Sample.fileOnC), SendText "cd C:\proj");
          (Sample.terminalOf (Some Sample.fileOnC),
           SendCommand (command info) (args info))]
    /\ hasRanOutsideCurrentDrive Sample.fresh = false
    /\ hasRanOutsideCurrentDrive s' = true.
Proof.
  destruct (executeFile_unknown_root
              (platformService := Sample.windows) (workspace := Sample.noRoot)
              (configurationService := Sample.settings)
              (interpreterService := Sample.interpreter)
              (pathModule := Sample.win32Path)
              (stringExtensions := Sample.plainArgument)
              Sample.fileOnC Sample.fresh)
    as (info & s' & Hinfo & Hrun & Hlog & Hflag); try reflexivity.
  exists info, s'. repeat split; assumption.
Defined.

(** The root [c:\proj] and the directory [C:\proj] name the same drive, and
    the drive change [C:] is sent all the same. *)
Lemma drive_comparison_exact_witness :
  exists s',
    solo (setCwdForFileExecution (platformService := Sample.windows)
            (workspace := Sample.rootLowerC)
            (configurationService := Sample.settings)
            (pathModule := Sample.win32Path)
            (stringExtensions := Sample.plainArgument) Sample.fileUpperC) Sample.fresh
    = Some (tt, s')
    /\ dirname (PathModule := Sample.win32Path) (fsPath Sample.fileUpperC) = "C:\proj"
    /\ terminalLog s'
       = [(Sample.terminalOf (Some Sample.fileUpperC), SendText "C:");
          (Sample.terminalOf (Some Sample.fileUpperC), SendText "cd C:\proj")]
    /\ hasRanOutsideCurrentDrive s' = true.
Proof.
  destruct (drive_comparison_exact
              (platformService := Sample.windows) (workspace := Sample.rootLowerC)
              (configurationService := Sample.settings)
              (pathModule := Sample.win32Path)
              (stringExtensions := Sample.plainArgument)
              "c:\proj" Sample.fileUpperC Sample.fresh)
    as (s' & Hrun & H); try reflexivity.
  exists s'. split; [exact Hrun|]. split; [reflexivity|]. exact H.
Defined.

(** The root on [C:]: [D:\data\b.py] is executed first, then
    [C:\proj\a.py], whose drive is the root's; and the flag, set by the
    first step of the first call, is still set when a later call has
    run. *)
Lemma drive_stickiness_witness :
  let executeFile := executeFile (platformService := Sample.windows)
                       (workspace := Sample.rootOnC)
                       (configurationService := Sample.settings)
                       (interpreterService := Sample.interpreter)
                       (pathModule := Sample.win32Path)
                       (stringExtensions := Sample.plainArgument) in
  (exists s1 s2,
     solo (executeFile Sample.fileOnD) Sample.fresh = Some (tt, s1)
     /\ solo (executeFile Sample.fileOnC) s1 = Some (tt, s2)
     /\ terminalLog s2
        = [(Sample.terminalOf (Some Sample.fileOnD), SendText "D:");
           (Sample.terminalOf (Some Sample.fileOnD), SendText "cd D:\data");
           (Sample.terminalOf (Some Sample.fileOnD),
            SendCommand "C:/py/python.exe" ["-i"; "D:\data\b.py"]);
           (Sample.terminalOf (Some Sample.fileOnC), SendText "C:");
           (Sample.terminalOf (Some Sample.fileOnC), SendText "cd C:\proj");
           (Sample.terminalOf (Some Sample.fileOnC),
            SendCommand "C:/py/python.exe" ["-i"; "C:\proj\a.py"])])
  /\ (exists y2,
        run (workspace := Sample.rootOnC) (pathModule := Sample.win32Path)
            (stringExtensions := Sample.plainArgument)
            (platformService := Sample.windows)
            (configurationService := Sample.settings)
            (interpreterService := Sample.interpreter)
            [Call (ExecuteFile Sample.fileOnD); Call (ExecuteFile Sample.fileOnC);
             Resume 1; Resume 0]
            (boot Sample.fresh) = Some y2
        /\ hasRanOutsideCurrentDrive (ctl y2) = true).
Proof.
  destruct (drive_stickiness
              (platformService := Sample.windows) (workspace := Sample.rootOnC)
              (configurationService := Sample.settings)
              (interpreterService := Sample.interpreter)
              (pathModule := Sample.win32Path)
              (stringExtensions := Sample.plainArgument)
              "C:\proj" Sample.fileOnD)
    as (Hfirst & Hnext & Hstays); try reflexivity.
  split.
  - destruct (Hfirst Sample.fresh) as (info1 & s1 & Hinfo1 & Hrun1 & Hlog1 & Hflag1).
    destruct (Hnext "C"%char Sample.fileOnC s1) as (info2 & s2 & Hinfo2 & Hrun2 & Hlog2 & _);
      [reflexivity|reflexivity|exact Hflag1|].
    exists s1, s2. split; [exact Hrun1|]. split; [exact Hrun2|].
    rewrite Hlog2, Hlog1.
    injection Hinfo1 as <-. injection Hinfo2 as <-.
    injection Hrun1 as <-. reflexivity.
  - eexists. split; [reflexivity|].
    eapply (Hstays Sample.fresh [Call (ExecuteFile Sample.fileOnD)]
              [Call (ExecuteFile Sample.fileOnC); Resume 1; Resume 0]);
      reflexivity.
Defined.

(** ** Sessions *)

#[global] Instance quiet_preorder : PreOrder quiet.
Proof.
  split.
  - by intros s.
  - intros s1 s2 s3 (?&?&?&?&?) (?&?&?&?&?). repeat split; congruence.
Qed.

Lemma sendCommands_logCall (t : TerminalOptions) (c : TerminalCall) (s : Controller) :
  sendCommands (logCall t c s)
  = sendCommands s ++ (if isSendCommand (t, c) then [(t, c)] else []).
Proof. unfold sendCommands. simpl. rewrite List.filter_app. simpl. by destruct c. Qed.

Lemma quiet_logCall (t : TerminalOptions) (c : TerminalCall) (s : Controller) :
  isSendCommand (t, c) = false -> quiet s (logCall t c s).
Proof.
  intros Hc. repeat split. rewrite sendCommands_logCall, Hc. apply app_nil_r.
Qed.

Lemma resolve_fields (h : handle) (v : bool) (s : Controller) :
  replActive (resolve h v s) = replActive s
  /\ timers (resolve h v s) = timers s
  /\ sendCommands (resolve h v s) = sendCommands s.
Proof. unfold resolve. by destruct (settled s !! h). Qed.

Lemma resolve_settled (h h' : handle) (v b : bool) (s : Controller) :
  settled (resolve h v s) !! h' = Some b ->
  settled s !! h' = Some b \/ (h' = h /\ b = v).
Proof.
  unfold resolve. destruct (settled s !! h) eqn:Hh; simpl; [by left|].
  rewrite lookup_insert. case_decide; [|by left]. intros [= <-]. by right.
Qed.

Lemma resolve_settled_other (h h' : handle) (v : bool) (s : Controller) :
  h' <> h -> settled (resolve h v s) !! h' = settled s !! h'.
Proof.
  intros Hne. unfold resolve. destruct (settled s !! h); simpl; [done|].
  by rewrite lookup_insert_ne.
Qed.

(** A launcher that goes on either stays a launcher, with nothing changed,
    or sends the start command, sets the timer and returns. *)
Lemma Launcher_advance start h (k : Async unit) (s : Controller) :
  Launcher start h k ->
  (advance k s).1.2 = []
  /\ (((advance k s).1.1 = s /\ Launcher start h (advance k s).2)
      \/ ((advance k s).1.1 = setTimers (timers s ++ [h]) (logCall (start.1) (start.2) s)
          /\ (advance k s).2 = Done tt)).
Proof.
  intros Hk. revert s.
  induction Hk as [k Hk IH|B f k Hf Hk IH|B C f g k k' Hf Hg Hk Hk']; intros s; simpl.
  - split; [done|]. left. split; [done|]. by constructor.
  - specialize (Hf s). destruct (f s) as [b s']. simpl in Hf. subst s'. apply IH.
  - specialize (Hf s). destruct (f s) as [b s']. simpl in Hf. subst s'.
    rewrite Hk. simpl.
    specialize (Hg (logCall (start.1) (start.2) s)).
    destruct (g _) as [c s'']. simpl in Hg. subst s''.
    rewrite Hk'. simpl. split; [done|]. by right.
Qed.

Lemma Launcher_continuation start h (s : Controller) (t k : Async unit) :
  Launcher start h t -> continuation s t = Some k -> Launcher start h k.
Proof. intros Ht Hk. destruct Ht; simpl in Hk; by simplify_eq. Qed.

Lemma Waiting_blocked (h : handle) (s : Controller) (t : Async unit) :
  Waiting h t -> settled s !! h = None -> continuation s t = None.
Proof. intros [[k ->] _] Hh. simpl. by rewrite Hh. Qed.

Lemma Waiting_not_done (h : handle) (t : Async unit) : Waiting h t -> t <> Done tt.
Proof. by intros [[k ->] _]. Qed.

Section Sessions.

Context {platformService : IPlatformService}
        {workspace : IWorkspaceService}
        {configurationService : IConfigurationService}
        {interpreterService : IInterpreterService}
        {pathModule : PathModule}
        {stringExtensions : StringExtensions}.



(** With no promise under the key, [initializeRepl] makes one, starts the
    launcher, puts the promise in the registry, listens for the close of
    the terminal, and only then is suspended, on the promise. *)
Lemma initializeRepl_launch (resource : option Uri) (s : Controller) :
  replActive s !! resourceKey resource = None ->
  exists l k,
    advance (initializeRepl resource) s
    = (registered resource s, [l], AwaitHandle (nextHandle s) k)
    /\ Launcher (startCommand resource s) (nextHandle s) l
    /\ Waiting (nextHandle s) (AwaitHandle (nextHandle s) k)
    /\ forall s' b, solo (k b) s' = Some (tt, s').
Proof.
  intros Hnone. unfold initializeRepl.
  rewrite advance_bind. simpl. rewrite advance_bind. simpl. rewrite Hnone. simpl.
  eexists _, _. split; [reflexivity|]. split; [|split].
  - apply Launcher_suspend, Launcher_suspend.
    eapply Launcher_send
      with (g := fun s0 => (tt, setTimers (timers s0 ++ [nextHandle s]) s0)) (k' := Done);
      [intros; reflexivity..|by intros []].
  - split; [by eexists|]. apply Keeps_await. intros b _. apply Keeps_done.
  - done.
Qed.

(** With a promise under the key, [initializeRepl] changes nothing and is
    suspended on that promise; when the promise is [true] it shows the
    terminal and returns. *)
Lemma initializeRepl_reuse (resource : option Uri) (s : Controller) (h : handle) :
  replActive s !! resourceKey resource = Some h ->
  exists k,
    advance (initializeRepl resource) s = (s, [], AwaitHandle h k)
    /\ Waiting h (AwaitHandle h k)
    /\ forall s', solo (k true) s'
                  = Some (tt, logCall {| resource := resource; title := terminalTitle s |}
                                Show s').
Proof.
  intros Hsome. unfold initializeRepl.
  rewrite advance_bind. simpl. rewrite advance_bind. simpl. rewrite Hsome. simpl.
  eexists. split; [reflexivity|]. split; [|done].
  split; [by eexists|]. apply Keeps_await. intros b ->. simpl.
  apply Keeps_act; [intros s'; by apply quiet_logCall|].
  intros []. apply Keeps_suspend, Keeps_done.
Qed.

(** The launcher that [initializeRepl] starts is suspended twice, in
    [getExecutableInfo] and on its result, before it sends. *)
Lemma initializeRepl_launch_explicit (resource : option Uri) (s : Controller) :
  replActive s !! resourceKey resource = None ->
  advance (initializeRepl resource) s
  = (registered resource s,
     [Suspend (Suspend
        (modify (logCall ((startCommand resource s).1) ((startCommand resource s).2));;
         setTimeoutResolve (nextHandle s)))],
     AwaitHandle (nextHandle s) (fun _ => mret tt)).
Proof.
  intros Hnone. unfold initializeRepl.
  rewrite advance_bind. simpl. rewrite advance_bind. simpl. by rewrite Hnone.
Qed.

Lemma launcher_resumes (l : list (Async unit)) (i : nat) (s : Controller)
      (f : Controller -> Controller) (h : handle) :
  l !! i = Some (Suspend (Suspend (modify f;; setTimeoutResolve h))) ->
  run [Resume i; Resume i] {| ctl := s; pool := l |}
  = Some {| ctl := setTimers (timers (f s) ++ [h]) (f s); pool := <[i := Done tt]> l |}.
Proof.
  intros Hi. pose proof (lookup_lt_Some _ _ _ Hi) as Hlt.
  simpl. rewrite Hi. simpl.
  rewrite app_nil_r, list_lookup_insert_eq by done. simpl.
  by rewrite app_nil_r, list_insert_insert_eq.
Qed.

End Sessions.

(** ** Executing code *)

Section ExecuteCode.

Context {platformService : IPlatformService}
        {workspace : IWorkspaceService}
        {configurationService : IConfigurationService}
        {interpreterService : IInterpreterService}
        {pathModule : PathModule}
        {stringExtensions : StringExtensions}.

Lemma execute_guard (code : string) :
  trim code <> "" -> String.eqb code "" || (String.length (trim code) =? 0) = false.
Proof.
  intros Hcode. apply orb_false_intro.
  - apply String.eqb_neq. by intros ->.
  - by destruct (trim code).
Qed.

(** C1, as amended: for a code string that [trim] does not leave empty,
    [execute] is suspended, at the end of its first synchronous step, on a
    promise that the registry holds (under the key of the resource when
    no resource is given); up to there it has sent nothing, and when the
    promise was not there before it has started the launcher that sends
    the start command and sets the timer of that promise.  Once the promise
    is [true], what is left of the call sends at most a [show] and then
    the code, as text, to the terminal of the given resource, and
    returns. *)
Theorem execute_after_session (code : string) (resource : option Uri) (s : Controller) :
  trim code <> "" ->
  exists key h s1 sp k,
    advance (execute code resource) s = (s1, sp, AwaitHandle h k)
    /\ replActive s1 !! key = Some h
    /\ (resource = None -> key = resourceKey resource)
    /\ terminalLog s1 = terminalLog s
    /\ ((sp = [] /\ s1 = s)
        \/ (exists start l, sp = [l] /\ isSendCommand start = true
                            /\ Launcher start h l /\ replActive s !! key = None))
    /\ forall s2, exists shown,
         Forall (fun c => c.2 = Show) shown
         /\ solo (k true) s2
            = Some (tt, setTerminalLog
                          (terminalLog s2 ++ shown
                           ++ [({| resource := resource; title := terminalTitle s2 |},
                                SendText code)]) s2).
Proof.
  intros Hcode. unfold execute. rewrite (execute_guard code Hcode).
  unfold await. rewrite !advance_bind.
  destruct (replActive s !! resourceKey None) as [h|] eqn:Hreg.
  - destruct (initializeRepl_reuse None s h Hreg) as (k & Hadv & _ & Hk).
    rewrite Hadv. simpl.
    eexists (resourceKey None), h, s, [], _. split; [reflexivity|].
    split; [done|]. split; [by intros ->|]. split; [done|]. split; [by left|].
    intros s2. exists [({| resource := None; title := terminalTitle s |}, Show)].
    split; [by apply Forall_singleton|].
    change (bind ?t ?f) with (t ≫= f). rewrite !solo_bind, Hk. simpl.
    unfold logCall. simpl. by rewrite <- app_assoc.
  - destruct (initializeRepl_launch None s Hreg) as (l & k & Hadv & Hl & _ & Hk).
    rewrite Hadv. simpl.
    eexists (resourceKey None), (nextHandle s), _, [l], _. split; [reflexivity|].
    split; [apply lookup_insert_eq|]. split; [by intros ->|]. split; [done|].
    split; [right; by exists (startCommand None s), l|].
    intros s2. exists []. split; [done|].
    change (bind ?t ?f) with (t ≫= f). rewrite !solo_bind, Hk. done.
Qed.

Lemma foldl_delete_None (t : TerminalOptions) (key : string)
      (ls : list (TerminalOptions * string)) (m : gmap string nat) :
  m !! key = None ->
  foldl (fun m l => if decide (l.1 = t) then delete l.2 m else m) m ls !! key = None.
Proof.
  revert m. induction ls as [|l ls IH]; intros m Hm; simpl; [done|].
  apply IH. case_decide; [|done]. rewrite lookup_delete. by case_decide.
Qed.

(** The close of a terminal deletes the keys its listeners were made for. *)
Lemma fireClose_deletes (t : TerminalOptions) (key : string) (s : Controller) :
  (t, key) ∈ closeListeners s -> replActive (fireClose t s) !! key = None.
Proof.
  unfold fireClose. simpl. generalize (replActive s).
  induction (closeListeners s) as [|l ls IH]; intros m Hin; [by inversion Hin|].
  apply elem_of_cons in Hin as [<-|Hin]; simpl.
  - rewrite decide_True by done. apply foldl_delete_None, lookup_delete_eq.
  - by apply IH.
Qed.

(** A session that [initializeRepl] has registered is deleted by the close
    of its terminal, and the next [initializeRepl] for the key starts a
    launcher again. *)
Lemma initializeRepl_after_close (resource : option Uri) (s s' : Controller) :
  replActive s !! resourceKey resource = None ->
  let t := {| resource := resource; title := terminalTitle s |} in
  (t, resourceKey resource) ∈ closeListeners (registered resource s)
  /\ ((t, resourceKey resource) ∈ closeListeners s' ->
      exists l k,
        advance (initializeRepl resource) (fireClose t s')
        = (registered resource (fireClose t s'), [l],
           AwaitHandle (nextHandle s') k)
        /\ Launcher (startCommand resource s') (nextHandle s') l).
Proof.
  intros Hnone t. split.
  - simpl. apply elem_of_app. right. by apply list_elem_of_singleton.
  - intros Hin.
    destruct (initializeRepl_launch resource (fireClose t s')) as (l & k & Hadv & Hl & _).
    { by apply fireClose_deletes. }
    by exists l, k.
Qed.

End ExecuteCode.

(** [1+1] for a file, from a new provider: the call waits for promise 0 of
    the registry, and the code is sent last, to the terminal of the file. *)
Lemma execute_after_session_witness :
  let execute := execute (platformService := Sample.windows)
                   (configurationService := Sample.settings)
                   (interpreterService := Sample.interpreter) in
  exists h s1 sp k,
    advance (execute "1+1" (Some Sample.fileOnC)) Sample.fresh
    = (s1, sp, AwaitHandle h k)
    /\ (exists key, replActive s1 !! key = Some h)
    /\ terminalLog s1 = []
    /\ forall s2, exists shown,
         solo (k true) s2
         = Some (tt, setTerminalLog
                       (terminalLog s2 ++ shown
                        ++ [({| resource := Some Sample.fileOnC;
                                title := terminalTitle s2 |}, SendText "1+1")]) s2).
Proof.
  destruct (execute_after_session
              (platformService := Sample.windows)
              (configurationService := Sample.settings)
              (interpreterService := Sample.interpreter)
              "1+1" (Some Sample.fileOnC) Sample.fresh)
    as (key & h & s1 & sp & k & Hadv & Hreg & _ & Hlog & _ & Hk); [discriminate|].
  exists h, s1, sp, k. split; [exact Hadv|]. split; [by exists key|].
  split; [exact Hlog|].
  intros s2. destruct (Hk s2) as (shown & _ & Hrun). by exists shown.
Defined.

(** C1 as stated fails twice.  A string of one blank is not empty, and
    [execute] returns at once: no session, nothing sent.  And for a
    resource with a path the session that [execute] waits for is the one
    of the empty key: the registry gets no promise under the key of the
    resource, and the code goes to the terminal of the resource while the
    start command went to the terminal of no resource. *)
Lemma execute_after_session_counterexample :
  let execute := execute (platformService := Sample.windows)
                   (configurationService := Sample.settings)
                   (interpreterService := Sample.interpreter) in
  let run := run (platformService := Sample.windows) (workspace := Sample.rootOnC)
               (configurationService := Sample.settings)
               (interpreterService := Sample.interpreter)
               (pathModule := Sample.win32Path)
               (stringExtensions := Sample.plainArgument) in
  (" " <> ""
   /\ advance (execute " " (Some Sample.fileOnC)) Sample.fresh
      = (Sample.fresh, [], Done tt))
  /\ (exists y,
        run [Call (Execute "1+1" (Some Sample.fileOnC));
             Resume 1; Resume 1; TimerFires 0; Resume 0; Resume 0; Resume 0]
            (boot Sample.fresh) = Some y
        /\ pool y = [Done tt; Done tt]
        /\ resourceKey (Some Sample.fileOnC) = "C:\proj\a.py"
        /\ replActive (ctl y) !! resourceKey (Some Sample.fileOnC) = None
        /\ replActive (ctl y) !! "" = Some 0
        /\ terminalLog (ctl y)
           = [(Sample.terminalOf None, SendCommand "C:/py/python.exe" ["-i"]);
              (Sample.terminalOf (Some Sample.fileOnC), SendText "1+1")]).
Proof.
  split; [split; [discriminate|reflexivity]|].
  eexists. split; [vm_compute; reflexivity|]. repeat split; reflexivity.
Qed.

(** C7 at a failing input.  Sessions are made ready for no resource and for
    the file [C:\proj\a.py], by [initializeRepl]; the terminal of the file
    is closed, which deletes the file's key; then [execute] is called for
    the file.  It sends no start command: it shows the terminal of no
    resource and sends the code to the closed session's terminal, and the
    registry still has nothing under the file's key. *)
Theorem execute_after_close_no_relaunch :
  let run := run (platformService := Sample.windows) (workspace := Sample.rootOnC)
               (configurationService := Sample.settings)
               (interpreterService := Sample.interpreter)
               (pathModule := Sample.win32Path)
               (stringExtensions := Sample.plainArgument) in
  let K := Some Sample.fileOnC in
  exists y1 y2 y3,
    run [Call (InitializeRepl None); Resume 1; Resume 1; TimerFires 0; Resume 0;
         Call (InitializeRepl K); Resume 3; Resume 3; TimerFires 1; Resume 2]
        (boot Sample.fresh) = Some y1
    /\ replActive (ctl y1) !! resourceKey K = Some 1
    /\ settled (ctl y1) !! 1 = Some true
    /\ run [TerminalClosed (Sample.terminalOf K)] y1 = Some y2
    /\ replActive (ctl y2) !! resourceKey K = None
    /\ run [Call (Execute "1+1" K); Resume 4; Resume 4; Resume 4; Resume 4] y2 = Some y3
    /\ pool y3 = [Done tt; Done tt; Done tt; Done tt; Done tt]
    /\ sendCommands (ctl y3) = sendCommands (ctl y1)
    /\ terminalLog (ctl y3)
       = terminalLog (ctl y1)
         ++ [(Sample.terminalOf None, Show); (Sample.terminalOf K, SendText "1+1")]
    /\ replActive (ctl y3) !! resourceKey K = None.
Proof.
  eexists _, _, _. split; [vm_compute; reflexivity|].
  split; [reflexivity|]. split; [reflexivity|].
  split; [vm_compute; reflexivity|]. split; [reflexivity|].
  split; [vm_compute; reflexivity|]. repeat split; reflexivity.
Qed.

(** ** Solo runs are runs of the event loop *)

(** Induction over the calls of the pool. *)
Lemma Async_unit_ind (P : Async unit -> Prop) :
  (forall a, P (Done a)) ->
  (forall B (f : Controller -> B * Controller) k, (forall b, P (k b)) -> P (Act f k)) ->
  (forall k, P k -> P (Suspend k)) ->
  (forall h k, (forall b, P (k b)) -> P (AwaitHandle h k)) ->
  (forall c k, P c -> P k -> P (Spawn c k)) ->
  forall t, P t.
Proof.
  intros Hdone Hact Hsuspend Hawait Hspawn.
  fix IH 1. intros [a|B f k|k|h k|c k].
  - apply Hdone.
  - apply Hact. intros b. apply IH.
  - apply Hsuspend, IH.
  - apply Hawait. intros b. apply IH.
  - apply Hspawn; apply IH.
Qed.

Lemma Straight_bind {A B : Type} (t : Async A) (f : A -> Async B) :
  Straight t -> (forall a, Straight (f a)) -> Straight (t ≫= f).
Proof.
  unfold mbind, Async_bind. revert B f.
  induction t as [A a|A C g k IH|A k IH|A h k IH|A c IHc k IH]; intros B f Ht Hf;
    simpl in *; auto.
Qed.

Ltac straight_step :=
  match goal with
  | |- Straight (_ ≫= _) => apply Straight_bind
  | |- Straight (if ?b then _ else _) => destruct b
  | |- Straight (match ?o with _ => _ end) => destruct o
  | |- forall _, _ => intros
  | |- True => exact I
  | |- Straight _ => exact I
  end.
Ltac straight :=
  unfold await, get, modify, mret, Async_ret; cbv zeta;
  repeat (straight_step; simpl).

Section SoloRuns.

Context {platformService : IPlatformService}
        {workspace : IWorkspaceService}
        {configurationService : IConfigurationService}
        {interpreterService : IInterpreterService}
        {pathModule : PathModule}
        {stringExtensions : StringExtensions}.

Lemma executeFile_Straight (file : Uri) : Straight (executeFile file).
Proof.
  unfold executeFile, setCwdForFileExecution, getExecuteFileArgs, getExecutableInfo,
    getTerminalService, sendText, sendCommand.
  straight.
Qed.

(** The step of a suspended call depends on the pool only through the
    call itself. *)
Lemma exec_Resume_eq (i : nat) (y : System) (t k : Async unit) :
  pool y !! i = Some t -> continuation (ctl y) t = Some k ->
  exec (Resume i) y
  = let '(s', sp, t') := advance k (ctl y) in
    Some {| ctl := s'; pool := <[i := t']> (pool y) ++ sp |}.
Proof. intros Ht Hk. simpl. rewrite Ht. simpl. by rewrite Hk. Qed.

(** A straight call suspended in the pool reaches, by going on some number
    of times with nothing in between, the state its solo run ends in. *)
Lemma solo_resumes (t : Async unit) :
  Straight t ->
  forall (s s' : Controller) (l : list (Async unit)) (i : nat),
    solo t s = Some (tt, s') ->
    l !! i = Some (Suspend t) ->
    exists n, run (replicate (S n) (Resume i)) {| ctl := s; pool := l |}
              = Some {| ctl := s'; pool := <[i := Done tt]> l |}.
Proof.
  induction t as [a|C g k IH|k IH|h k IH|c IHc k IH] using Async_unit_ind;
    intros Ht s s' l i Hsolo Hi; simpl in *; try done.
  - exists 0. simpl. rewrite Hi. simpl. destruct a. simplify_eq.
    by rewrite app_nil_r.
  - destruct (g s) as [b s1] eqn:Hg.
    destruct (IH b (Ht b) s1 s' (<[i := Suspend (k b)]> l) i Hsolo) as [n Hn].
    { apply list_lookup_insert_eq. by eapply lookup_lt_Some. }
    exists n. simpl in *. rewrite Hi. simpl. rewrite Hg.
    rewrite list_lookup_insert_eq in Hn by (by eapply lookup_lt_Some). simpl in Hn.
    destruct (advance (k b) s1) as [[s2 sp] t'].
    by rewrite !list_insert_insert_eq in Hn.
  - destruct (IH Ht s s' (<[i := Suspend k]> l) i Hsolo) as [n Hn].
    { apply list_lookup_insert_eq. by eapply lookup_lt_Some. }
    exists (S n). change (replicate (S (S n)) (Resume i))
      with (Resume i :: replicate (S n) (Resume i)).
    cbn [run]. simpl exec. rewrite Hi. simpl. rewrite app_nil_r.
    by rewrite list_insert_insert_eq in Hn.
Qed.

(** The solo run of a straight method is the run of the event loop in
    which the method is called and its call goes on until it returns. *)
Lemma solo_run (r : Request) (y : System) (s' : Controller) :
  Straight (method r) ->
  solo (method r) (ctl y) = Some (tt, s') ->
  exists n, run (Call r :: replicate n (Resume (length (pool y)))) y
            = Some {| ctl := s'; pool := pool y ++ [Done tt] |}.
Proof.
  intros Hr Hsolo.
  destruct (solo_resumes (method r) Hr (ctl y) s' (pool y ++ [Suspend (method r)])
              (length (pool y)) Hsolo) as [n Hn].
  { by rewrite lookup_app_r, Nat.sub_diag. }
  exists n. simpl in *.
  rewrite lookup_app_r, Nat.sub_diag in Hn by done. simpl in Hn.
  destruct (advance (method r) (ctl y)) as [[s1 sp] t']. simpl in *.
  rewrite insert_app_r_alt, Nat.sub_diag in Hn by done. simpl in Hn.
  rewrite insert_app_r_alt, Nat.sub_diag in Hn by done. simpl in Hn.
  rewrite <- app_assoc in Hn. exact Hn.
Qed.

(** So what the solo run of [executeFile] ends in is what the event loop
    reaches when the file is executed and nothing else comes in between. *)
Lemma executeFile_run (file : Uri) (y : System) (s' : Controller) :
  solo (executeFile file) (ctl y) = Some (tt, s') ->
  exists n, run (Call (ExecuteFile file) :: replicate n (Resume (length (pool y)))) y
            = Some {| ctl := s'; pool := pool y ++ [Done tt] |}.
Proof. apply (solo_run (ExecuteFile file)), executeFile_Straight. Qed.

End SoloRuns.

(** ** One launch for a session *)

Lemma foldl_delete_other (t : TerminalOptions) (key : string)
      (ls : list (TerminalOptions * string)) (m : gmap string nat) :
  (t, key) ∉ ls ->
  foldl (fun m l => if decide (l.1 = t) then delete l.2 m else m) m ls !! key = m !! key.
Proof.
  revert m. induction ls as [|[t' k'] ls IH]; intros m Hnot; simpl; [done|].
  apply not_elem_of_cons in Hnot as [Hne Hnot]. rewrite IH by done.
  case_decide as Ht; [|done]. simpl in Ht. subst t'.
  apply lookup_delete_ne. by intros ->.
Qed.

(** The close of a terminal leaves the keys for which it has no listener. *)
Lemma fireClose_other (t : TerminalOptions) (key : string) (s : Controller) :
  (t, key) ∉ closeListeners s -> replActive (fireClose t s) !! key = replActive s !! key.
Proof. intros Hnot. unfold fireClose. simpl. by apply foldl_delete_other. Qed.

Lemma Stays_bind R {A B : Type} (t : Async A) (f : A -> Async B) :
  Stays R t -> (forall a, Stays R (f a)) -> Stays R (bind t f).
Proof.
  revert B f.
  induction t as [A a|A C g k IH|A k IH|A h k IH|A c IHc k IHk]; intros B f Ht Hf;
    simpl in *; auto.
  intros s. destruct (Ht s) as [H1 H2]. split; [done|]. by apply IH.
Qed.

Lemma Stays_advance R `{!PreOrder R} {A : Type} (t : Async A) (s : Controller) :
  Stays R t ->
  (advance t s).1.2 = [] /\ R s (advance t s).1.1 /\ Stays R (advance t s).2.
Proof.
  revert s.
  induction t as [A a|A C g k IH|A k IH|A h k IH|A c IHc k IHk]; intros s Ht;
    simpl in *; try done.
  destruct (Ht s) as [H1 H2]. destruct (g s) as [b s']. simpl in *.
  destruct (IH b s' H2) as (Ha & Hb & Hc). split; [done|]. split; [by etrans|done].
Qed.

Lemma Stays_continuation R (s : Controller) (t k : Async unit) :
  settledTrue s -> Stays R t -> continuation s t = Some k -> Stays R k.
Proof.
  intros Htrue Ht Hk. destruct t as [?|? ? ?|k'|h k'|? ?]; simpl in *; try done.
  - by simplify_eq.
  - destruct (settled s !! h) as [b|] eqn:Hb; simplify_eq/=.
    by rewrite (Htrue h b Hb).
Qed.




(** A launcher goes on: it stays a launcher, with nothing changed, or it
    sends, sets its timer and returns. *)
Lemma Launcher_step start h (s : Controller) (t k : Async unit) :
  Launcher start h t -> continuation s t = Some k ->
  (advance k s).1.2 = []
  /\ (((advance k s).1.1 = s /\ Launcher start h (advance k s).2)
      \/ ((advance k s).1.1 = setTimers (timers s ++ [h]) (logCall (start.1) (start.2) s)
          /\ (advance k s).2 = Done tt)).
Proof.
  intros Hl Hc. apply Launcher_advance. by eapply Launcher_continuation.
Qed.



(** Unfolds a call down to the constructors of [Async], with the values
    its synchronous code produces. *)
Ltac stays_step :=
  match goal with
  | |- Stays _ _ => progress cbn [Stays bind fst snd]
  | |- Stays _ (bind (bind _ _) _) => apply Stays_bind
  | |- Stays _ (bind (if ?b then _ else _) _) => destruct b
  | |- Stays _ (if ?b then _ else _) => destruct b
  | |- forall _, _ => intros
  | |- _ /\ _ => split
  | |- True => exact I
  end.
Ltac stays :=
  unfold await, awaitHandle, get, modify, mret, Async_ret, mbind, Async_bind;
  cbv zeta; repeat stays_step.

Section OneLaunch.

Context {platformService : IPlatformService}
        {workspace : IWorkspaceService}
        {configurationService : IConfigurationService}
        {interpreterService : IInterpreterService}
        {pathModule : PathModule}
        {stringExtensions : StringExtensions}.

#[global] Instance aside_preorder : PreOrder aside.
Proof.
  split.
  - by intros s.
  - intros s1 s2 s3 (?&?&?&?&?&?) (?&?&?&?&?&?). repeat split; congruence.
Qed.

Lemma starts_logCall (t : TerminalOptions) (c : TerminalCall) (s : Controller) :
  starts (logCall t c s) = starts s ++ (if isStart (t, c) then [(t, c)] else []).
Proof.
  unfold starts, logCall. cbn [terminalLog setTerminalLog].
  rewrite List.filter_app. cbn [List.filter]. by destruct (isStart (t, c)).
Qed.


Lemma aside_logCall (t : TerminalOptions) (c : TerminalCall) (s : Controller) :
  isStart (t, c) = false -> aside s (logCall t c s).
Proof.
  intros Hc. repeat split. rewrite starts_logCall, Hc. apply app_nil_r.
Qed.






(** A call that is no launcher goes on: it starts nothing, and is no
    launcher after. *)
Lemma Aside_step (s : Controller) (t k : Async unit) :
  settledTrue s -> Aside t -> continuation s t = Some k ->
  (advance k s).1.2 = [] /\ aside s (advance k s).1.1 /\ Aside (advance k s).2.
Proof.
  intros Htrue Ht Hc. apply Stays_advance; [apply _|].
  by eapply Stays_continuation.
Qed.





(** With a promise under the key, [initializeRepl] changes nothing and is
    suspended on that promise; from there on it only shows the terminal. *)
Lemma initializeRepl_reuse_aside (resource : option Uri) (s : Controller) (h : handle) :
  replActive s !! resourceKey resource = Some h ->
  exists k,
    advance (initializeRepl resource) s = (s, [], AwaitHandle h k)
    /\ Awaiting h (AwaitHandle h k).
Proof.
  intros Hsome. unfold initializeRepl.
  rewrite advance_bind. simpl. rewrite advance_bind. simpl. rewrite Hsome. simpl.
  eexists. split; [reflexivity|]. split; [by eexists|].
  simpl. intros s'. split; [|done]. by apply aside_logCall.
Qed.



(** *** The calls of the pool *)

Lemma executeFile_aside (file : Uri) : Aside (executeFile file).
Proof.
  unfold Aside, executeFile, setCwdForFileExecution, getExecuteFileArgs,
    getExecutableInfo, getTerminalService, sendText, sendCommand.
  stays; try reflexivity; try (by apply aside_logCall); try (by repeat split).
  apply aside_logCall. unfold isStart. simpl.
  apply bool_decide_eq_false. intros H%app_inv_head. discriminate.
Qed.


(** What follows the session in [execute] only sends the code. *)
Lemma execute_rest_aside (code : string) (resource : option Uri) (t : Async unit) :
  Aside t ->
  Aside (await t;; terminalService ← getTerminalService resource;
         await (sendText terminalService code)).
Proof.
  intros Ht. unfold Aside, getTerminalService, sendText, await, get, modify, mret,
    Async_ret, mbind, Async_bind.
  apply Stays_bind; [apply Stays_bind; [done|by intros []]|].
  intros []. stays; [reflexivity|by apply aside_logCall].
Qed.

(** The first step of a method: it leaves a call that is no launcher;
    and either it keeps the registry, the promises and the timers, and
    starts nothing, or it is the first step of an [initializeRepl] that
    finds no promise, and starts the launcher of the promise it makes. *)
Lemma first_step_reached (r : Request) (s : Controller) :
  Aside (advance (method r) s).2
  /\ ((aside s (advance (method r) s).1.1 /\ (advance (method r) s).1.2 = [])
      \/ exists resource l,
           replActive s !! resourceKey resource = None
           /\ (advance (method r) s).1.1 = registered resource s
           /\ (advance (method r) s).1.2 = [l]
           /\ Launcher (startCommand resource s) (nextHandle s) l).
Proof.
  assert (forall resource,
    exists s1 sp h k,
      advance (initializeRepl resource) s = (s1, sp, AwaitHandle h k)
      /\ Aside (AwaitHandle h k)
      /\ ((s1 = s /\ sp = [])
          \/ exists l, replActive s !! resourceKey resource = None
                       /\ s1 = registered resource s /\ sp = [l]
                       /\ Launcher (startCommand resource s) (nextHandle s) l)) as Hinit.
  { intros resource. destruct (replActive s !! resourceKey resource) as [h|] eqn:Hreg.
    - destruct (initializeRepl_reuse_aside resource s h Hreg) as (k & Hadv & _ & Hk).
      exists s, [], h, k. split; [done|]. split; [done|]. by left.
    - destruct (initializeRepl_launch resource s Hreg) as (l & k & Hadv & Hl & _).
      rewrite (initializeRepl_launch_explicit resource s Hreg) in Hadv.
      injection Hadv as <- <-.
      eexists _, _, _, _.
      split; [by apply initializeRepl_launch_explicit|]. split; [done|].
      right. by eexists. }
  destruct r as [file|code resource|resource]; cbn [method].
  - destruct (Stays_advance aside (executeFile file) s (executeFile_aside file))
      as (Hsp & Hs & Ht).
    split; [done|]. by left.
  - unfold execute.
    destruct (String.eqb code "" || (String.length (trim code) =? 0)).
    { simpl. split; [done|]. left. by split. }
    destruct (Hinit None) as (s1 & sp & h & k & Hadv & Hk & Hs1).
    pose proof (execute_rest_aside code resource _ Hk) as Hrest.
    unfold await in *. rewrite !advance_bind, Hadv. simpl.
    split; [done|]. destruct Hs1 as [[-> ->]|(l & Hnone & -> & -> & Hl)].
    + left. by split.
    + right. by exists None, l.
  - destruct (Hinit resource) as (s1 & sp & h & k & Hadv & Hk & Hs1).
    rewrite Hadv. simpl.
    split; [done|]. destruct Hs1 as [[-> ->]|(l & Hnone & -> & -> & Hl)].
    + left. by split.
    + right. by exists resource, l.
Qed.

Lemma registered_listenersKeyed (resource : option Uri) (s : Controller) :
  listenersKeyed s -> listenersKeyed (registered resource s).
Proof.
  intros Hs t key. simpl.
  intros [Hin|Hin%list_elem_of_singleton]%elem_of_app; [by apply Hs|].
  by simplify_eq.
Qed.

(** One step of the event loop from a state that a new provider reaches. *)
Lemma Reached_exec (e : Event) (y y' : System) :
  Reached y -> exec e y = Some y' -> Reached y'.
Proof.
  intros [Htrue Htm Hpr Hls Hpool] Hexec. destruct e as [r|i|h|t].
  - destruct (first_step_reached r (ctl y)) as (Ht & Hcases).
    unfold exec in Hexec.
    destruct (advance (method r) (ctl y)) as [[s' sp] t']. simplify_eq/=.
    destruct Hcases as [[(Er & Es & En & Et & El & _) ->]
                       |(resource & l & _ & -> & -> & Hl)].
    + split; simpl.
      * intros h b. rewrite Es. apply Htrue.
      * intros h. rewrite Et, En. apply Htm.
      * intros h. rewrite Es, En. apply Hpr.
      * intros t key. rewrite El. apply Hls.
      * rewrite En. apply Forall_app. split; [done|]. apply Forall_singleton. by left.
    + split; simpl.
      * done.
      * intros h Hh. specialize (Htm h Hh). lia.
      * intros h Hh. specialize (Hpr h Hh). lia.
      * by apply (registered_listenersKeyed resource).
      * apply Forall_app. split.
        { eapply Forall_impl; [exact Hpool|].
          intros t [?|(start' & h' & ? & ?)]; [by left|right].
          exists start', h'. split; [done|lia]. }
        apply Forall_cons. split; [by left|]. apply Forall_singleton. right.
        eexists _, _. split; [exact Hl|lia].
  - simpl in Hexec.
    destruct (pool y !! i) as [t|] eqn:Hi; simpl in Hexec; [|done].
    destruct (continuation (ctl y) t) as [k|] eqn:Hk; simpl in Hexec; [|done].
    pose proof (Forall_lookup_1 _ _ _ _ Hpool Hi) as [Ht|(start' & h' & Hl & Hlt)].
    + destruct (Aside_step (ctl y) t k Htrue Ht Hk) as (Hsp & Ha & Ht').
      destruct (advance k (ctl y)) as [[s' sp] t']. simpl in *. subst sp.
      injection Hexec as <-. rewrite app_nil_r.
      destruct Ha as (Er & Es & En & Et & El & _).
      split; simpl.
      * intros h b. rewrite Es. apply Htrue.
      * intros h. rewrite Et, En. apply Htm.
      * intros h. rewrite Es, En. apply Hpr.
      * intros t0 key. rewrite El. apply Hls.
      * rewrite En. apply Forall_insert; [done|by left].
    + destruct (Launcher_step start' h' (ctl y) t k Hl Hk) as [Hsp Hcases].
      destruct (advance k (ctl y)) as [[s' sp] t']. simpl in *. subst sp.
      injection Hexec as <-. rewrite app_nil_r.
      destruct Hcases as [[-> Hl']|[-> ->]].
      * split; [done|done|done|done|]. apply Forall_insert; [done|]. right. by eauto.
      * split; simpl; [done| |done|done|].
        -- intros h [Hh|Hh%list_elem_of_singleton]%elem_of_app; [by apply Htm|by subst].
        -- apply Forall_insert; [done|by left].
  - simpl in Hexec. case_decide as Hin; [|done]. simplify_eq/=.
    match goal with |- context [resolve h true ?s] => set (s1 := s) end.
    destruct (resolve_fields h true s1) as (_ & Et & _).
    assert (nextHandle (resolve h true s1) = nextHandle (ctl y)) as En.
    { unfold resolve. by destruct (settled s1 !! h). }
    assert (closeListeners (resolve h true s1) = closeListeners (ctl y)) as El.
    { unfold resolve. by destruct (settled s1 !! h). }
    split; simpl.
    + intros h' b Hb. apply resolve_settled in Hb as [Hb|[_ ->]]; [|done].
      by apply (Htrue h').
    + intros h'. rewrite Et, En. simpl. intros [_ Hh]%list_elem_of_filter. by apply Htm.
    + intros h' [b Hb]. rewrite En. simpl.
      apply resolve_settled in Hb as [Hb|[-> _]]; [by apply Hpr|by apply Htm].
    + intros t key. rewrite El. apply Hls.
    + by rewrite En.
  - by simplify_eq/=.
Qed.

(** Every state that a new provider reaches. *)
Lemma Reached_run (title : string) (es : list Event) (y : System) :
  run es (boot (newController title)) = Some y -> Reached y.
Proof.
  assert (forall es y0 y, Reached y0 -> run es y0 = Some y -> Reached y) as Hall.
  { clear. intros es. induction es as [|e es IH]; intros y0 y Hy0 Hrun; simpl in *.
    - by simplify_eq.
    - destruct (exec e y0) as [y1|] eqn:Hexec; [|done]. simpl in Hrun.
      eapply IH; [|done]. by eapply Reached_exec. }
  apply Hall. split.
  - intros h b. simpl. by rewrite lookup_empty.
  - intros h Hh. by apply elem_of_nil in Hh.
  - intros h [b Hb]. simpl in Hb. by rewrite lookup_empty in Hb.
  - intros t key Hin. by apply elem_of_nil in Hin.
  - apply Forall_nil_2.
Qed.

Lemma Reached_fresh (y : System) : Reached y -> nextHandleFresh (ctl y).
Proof.
  intros [_ Htm Hpr _ _]. split.
  - destruct (settled (ctl y) !! nextHandle (ctl y)) as [b|] eqn:Hb; [|done].
    assert (nextHandle (ctl y) < nextHandle (ctl y)); [|lia]. apply Hpr. by eexists.
  - intros Hh. apply Htm in Hh. lia.
Qed.







End OneLaunch.



(** ** What the methods leave alone *)

#[global] Instance sessionsSame_preorder : PreOrder sessionsSame.
Proof.
  split.
  - by intros s.
  - intros s1 s2 s3 (?&?&?&?&?&?) (?&?&?&?&?&?). repeat split; congruence.
Qed.

#[global] Instance flagSame_preorder : PreOrder flagSame.
Proof. split; [by intros s|intros s1 s2 s3 H12 H23; unfold flagSame in *; congruence]. Qed.

#[global] Instance settledStayTrue_preorder : PreOrder settledStayTrue.
Proof.
  split; [intros s H; exact H|intros s1 s2 s3 H12 H23 H; by apply H23, H12].
Qed.

#[global] Instance apartFrom_preorder key ts : PreOrder (apartFrom key ts).
Proof.
  split.
  - by intros s Hs.
  - intros s1 s2 s3 H12 H23 Hs1.
    destruct (H12 Hs1) as [Hs2 E12]. destruct (H23 Hs2) as [Hs3 E23].
    split; [done|congruence].
Qed.

Lemma resolve_other_fields (h : handle) (v : bool) (s : Controller) :
  hasRanOutsideCurrentDrive (resolve h v s) = hasRanOutsideCurrentDrive s
  /\ closeListeners (resolve h v s) = closeListeners s
  /\ nextHandle (resolve h v s) = nextHandle s.
Proof. unfold resolve. by destruct (settled s !! h). Qed.

Section LeftAlone.

Context {platformService : IPlatformService}
        {workspace : IWorkspaceService}
        {configurationService : IConfigurationService}
        {interpreterService : IInterpreterService}
        {pathModule : PathModule}
        {stringExtensions : StringExtensions}.

(** A relation that the methods called, the timers and the closes keep is
    kept by the run. *)
Lemma Keeps_run R (ok : Event -> bool) `{!PreOrder R} :
  (forall r, ok (Call r) = true -> Keeps R (fun _ => True) (method r)) ->
  (forall h s, ok (TimerFires h) = true ->
     R s (resolve h true (setTimers (filter (fun h' => h' ≠ h) (timers s)) s))) ->
  (forall t s, ok (TerminalClosed t) = true -> R s (fireClose t s)) ->
  forall es y y',
    Forall (Keeps R (fun _ => True)) (pool y) ->
    forallb ok es = true ->
    run es y = Some y' ->
    R (ctl y) (ctl y') /\ Forall (Keeps R (fun _ => True)) (pool y').
Proof.
  intros Hcall Htimer Hclose es.
  induction es as [|e es IH]; intros y y' Hpool Hes Hrun; simpl in *.
  - by simplify_eq.
  - apply andb_prop in Hes as [He Hes].
    destruct (exec e y) as [y1|] eqn:Hexec; [|done]. simpl in Hrun.
    assert (R (ctl y) (ctl y1) /\ Forall (Keeps R (fun _ => True)) (pool y1))
      as [H1 Hpool1].
    { destruct e as [r|i|h|t].
      - eapply Keeps_call; [apply _|by apply Hcall|done|done].
      - eapply Keeps_resume; [apply _|done|done|done].
      - simpl in Hexec. case_decide; [|done]. simplify_eq/=.
        split; [by apply Htimer|done].
      - simplify_eq/=. split; [by apply Hclose|done]. }
    destruct (IH y1 y' Hpool1 Hes Hrun) as [H2 Hpool2].
    split; [by etrans|done].
Qed.

Lemma method_settledStayTrue (r : Request) :
  Keeps settledStayTrue (fun _ => True) (method r).
Proof.
  destruct r as [file|code resource|resource]; simpl;
    unfold executeFile, setCwdForFileExecution, getExecuteFileArgs, execute,
      initializeRepl, launchRepl, getExecutableInfo, getTerminalService,
      sendText, sendCommand, show, onDidCloseTerminal;
    keeps; by intros ?.
Qed.

Lemma executeFile_sessionsSame (file : Uri) :
  Keeps sessionsSame (fun _ => True) (executeFile file).
Proof.
  unfold executeFile, setCwdForFileExecution, getExecuteFileArgs, getExecutableInfo,
    getTerminalService, sendText, sendCommand.
  keeps; done.
Qed.

Lemma initializeRepl_flagSame (resource : option Uri) :
  Keeps flagSame (fun _ => True) (initializeRepl resource).
Proof.
  unfold initializeRepl, launchRepl, getExecutableInfo, getTerminalService,
    sendCommand, show, onDidCloseTerminal.
  keeps; done.
Qed.

Lemma execute_flagSame (code : string) (resource : option Uri) :
  Keeps flagSame (fun _ => True) (execute code resource).
Proof.
  unfold execute, getTerminalService, sendText.
  keeps; try done. apply initializeRepl_flagSame.
Qed.

Lemma executeFile_apartFrom key ts (file : Uri) :
  Keeps (apartFrom key ts) (fun _ => True) (executeFile file).
Proof.
  unfold executeFile, setCwdForFileExecution, getExecuteFileArgs, getExecutableInfo,
    getTerminalService, sendText, sendCommand.
  keeps; by intros ?.
Qed.

Lemma initializeRepl_apartFrom key ts (resource : option Uri) :
  key <> resourceKey resource ->
  Keeps (apartFrom key ts) (fun _ => True) (initializeRepl resource).
Proof.
  intros Hkey.
  unfold initializeRepl, launchRepl, getExecutableInfo, getTerminalService,
    sendCommand, show, onDidCloseTerminal.
  keeps; try (by intros ?).
  - intros Hs. split; [done|]. simpl. by rewrite lookup_insert_ne.
  - intros Hs. split; [|done]. intros t. simpl. intros Hin.
    apply elem_of_app in Hin as [Hin|Hin]; [by apply Hs|].
    apply list_elem_of_singleton in Hin. by simplify_eq.
Qed.

Lemma execute_apartFrom key ts (code : string) (resource : option Uri) :
  key <> "" -> Keeps (apartFrom key ts) (fun _ => True) (execute code resource).
Proof.
  intros Hkey. unfold execute, getTerminalService, sendText.
  keeps; try (by intros ?). by apply initializeRepl_apartFrom.
Qed.

(** X1: in every state that a new provider reaches, by whatever calls,
    resumes, timers and closes, every promise that has settled is [true]:
    no promise of the registry is ever resolved with [false]. *)
Theorem settled_promises_true (title : string) (es : list Event) (y : System) :
  run es (boot (newController title)) = Some y -> settledTrue (ctl y).
Proof.
  intros Hrun.
  edestruct (Keeps_run settledStayTrue (fun _ => true)) as [Hstay _];
    [..|exact Hrun|].
  - intros r _. apply method_settledStayTrue.
  - intros h s _ Hs h' b Hb.
    apply resolve_settled in Hb as [Hb|[_ ->]]; [by apply (Hs h')|done].
  - by intros t s _ Hs.
  - apply Forall_nil_2.
  - by apply forallb_forall.
  - apply Hstay. intros h b. simpl. by rewrite lookup_empty.
Qed.

(** X2: [hasRanOutsideCurrentDrive] is changed by file executions only:
    over every run in which [executeFile] is not called, whatever else is
    called and whatever timers fire and terminals close, the flag is what
    it was. *)
Theorem flag_changed_by_executeFile_only (s : Controller) (es : list Event) (y : System) :
  forallb noFileExecution es = true ->
  run es (boot s) = Some y ->
  hasRanOutsideCurrentDrive (ctl y) = hasRanOutsideCurrentDrive s.
Proof.
  intros Hes Hrun.
  edestruct (Keeps_run flagSame noFileExecution) as [Hsame _];
    [..|exact Hes|exact Hrun|exact Hsame].
  - intros [file|code resource|resource] Hok; try done; simpl.
    + apply execute_flagSame.
    + apply initializeRepl_flagSame.
  - intros h s0 _. unfold flagSame. by rewrite (proj1 (resolve_other_fields _ _ _)).
  - by intros t s0 _.
  - apply Forall_nil_2.
Qed.

(** X3: file executions leave the sessions alone: over every run of
    [executeFile] calls, interleaved in any way, the registry, the
    promises, the timers and the close listeners are what they were. *)
Theorem executeFile_leaves_sessions (s : Controller) (es : list Event) (y : System) :
  forallb fileExecutionOnly es = true ->
  run es (boot s) = Some y ->
  sessionsSame s (ctl y).
Proof.
  intros Hes Hrun.
  edestruct (Keeps_run sessionsSame fileExecutionOnly) as [Hsame _];
    [..|exact Hes|exact Hrun|exact Hsame].
  - intros [file|code resource|resource] Hok; try done. apply executeFile_sessionsSame.
  - by intros h s0 ?.
  - by intros t s0 ?.
  - apply Forall_nil_2.
Qed.

(** X4: the registry entry of a key changes only by [initializeRepl] for
    that key ([execute] counts for the empty key) and by the close of a
    terminal that has a listener for the key.  With the listeners for
    [key] on the terminals [ts], every run of calls for other keys,
    resumes, timers and closes of terminals outside [ts] leaves the entry
    of [key] as it was, and adds no listener for [key] elsewhere. *)
Theorem registry_entry_isolated (key : string) (ts : list TerminalOptions)
        (s : Controller) (es : list Event) (y : System) :
  listenersWithin key ts s ->
  forallb (notAbout key ts) es = true ->
  run es (boot s) = Some y ->
  replActive (ctl y) !! key = replActive s !! key
  /\ listenersWithin key ts (ctl y).
Proof.
  intros Hs Hes Hrun.
  edestruct (Keeps_run (apartFrom key ts) (notAbout key ts)) as [Hapart _];
    [..|exact Hes|exact Hrun|].
  - intros [file|code resource|resource] Hok; simpl in *.
    + apply executeFile_apartFrom.
    + apply execute_apartFrom. apply negb_true_iff in Hok.
      by apply bool_decide_eq_false in Hok.
    + apply initializeRepl_apartFrom. apply negb_true_iff in Hok.
      by apply bool_decide_eq_false in Hok.
  - intros h s0 _ Hs0. destruct (resolve_fields h true
        (setTimers (filter (fun h' => h' ≠ h) (timers s0)) s0)) as (Hr & _ & _).
    destruct (resolve_other_fields h true
        (setTimers (filter (fun h' => h' ≠ h) (timers s0)) s0)) as (_ & Hl & _).
    split; [|by rewrite Hr]. intros t. rewrite Hl. apply Hs0.
  - intros t s0 Hok Hs0. simpl in Hok. apply negb_true_iff in Hok.
    apply bool_decide_eq_false in Hok. split; [done|].
    apply fireClose_other. intros Hin. by apply Hok, Hs0.
  - apply Forall_nil_2.
  - destruct (Hapart Hs) as [Hy Hreg]. by split.
Qed.

End LeftAlone.

(** A session is started from a new provider and its timer fires: the
    promise is [true]. *)
Lemma settled_promises_true_witness :
  let run := run (platformService := Sample.windows) (workspace := Sample.rootOnC)
               (configurationService := Sample.settings)
               (interpreterService := Sample.interpreter)
               (pathModule := Sample.win32Path)
               (stringExtensions := Sample.plainArgument) in
  exists y,
    run [Call (InitializeRepl None); Resume 1; Resume 1; TimerFires 0; Resume 0]
        (boot (newController "Python")) = Some y
    /\ settled (ctl y) !! 0 = Some true
    /\ settledTrue (ctl y).
Proof.
  eexists. split; [vm_compute; reflexivity|]. split; [reflexivity|].
  eapply (settled_promises_true
            (platformService := Sample.windows) (workspace := Sample.rootOnC)
            (configurationService := Sample.settings)
            (interpreterService := Sample.interpreter)
            (pathModule := Sample.win32Path)
            (stringExtensions := Sample.plainArgument) "Python"
            [Call (InitializeRepl None); Resume 1; Resume 1; TimerFires 0; Resume 0]).
  vm_compute. reflexivity.
Defined.

(** Code is executed for a file and a terminal is closed, by a provider
    whose flag is set: the flag is still set. *)
Lemma flag_changed_by_executeFile_only_witness :
  let run := run (platformService := Sample.windows) (workspace := Sample.rootOnC)
               (configurationService := Sample.settings)
               (interpreterService := Sample.interpreter)
               (pathModule := Sample.win32Path)
               (stringExtensions := Sample.plainArgument) in
  exists y,
    run [Call (Execute "1+1" (Some Sample.fileOnC)); Resume 1; Resume 1;
         TimerFires 0; Resume 0; Resume 0; Resume 0;
         TerminalClosed (Sample.terminalOf None)]
        (boot Hosts.ranOutside) = Some y
    /\ hasRanOutsideCurrentDrive (ctl y) = true.
Proof.
  eexists. split; [vm_compute; reflexivity|].
  erewrite (flag_changed_by_executeFile_only
              (platformService := Sample.windows) (workspace := Sample.rootOnC)
              (configurationService := Sample.settings)
              (interpreterService := Sample.interpreter)
              (pathModule := Sample.win32Path)
              (stringExtensions := Sample.plainArgument) Hosts.ranOutside
              [Call (Execute "1+1" (Some Sample.fileOnC)); Resume 1; Resume 1;
               TimerFires 0; Resume 0; Resume 0; Resume 0;
               TerminalClosed (Sample.terminalOf None)]);
    [reflexivity|reflexivity|vm_compute; reflexivity].
Defined.

(** Two files are executed, their calls interleaved, by a provider that
    has a session for no resource: the session is as it was. *)
Lemma executeFile_leaves_sessions_witness :
  let run := run (platformService := Sample.windows) (workspace := Sample.rootOnC)
               (configurationService := Sample.settings)
               (interpreterService := Sample.interpreter)
               (pathModule := Sample.win32Path)
               (stringExtensions := Sample.plainArgument) in
  exists y,
    run [Call (ExecuteFile Sample.fileOnD); Call (ExecuteFile Sample.fileOnC);
         Resume 1; Resume 0; Resume 0; Resume 1; Resume 1; Resume 0;
         Resume 0; Resume 0; Resume 1; Resume 0; Resume 1; Resume 1]
        (boot (registered None Sample.fresh)) = Some y
    /\ pool y = [Done tt; Done tt]
    /\ replActive (registered None Sample.fresh) !! "" = Some 0
    /\ sessionsSame (registered None Sample.fresh) (ctl y).
Proof.
  eexists. split; [vm_compute; reflexivity|]. split; [reflexivity|].
  split; [reflexivity|].
  eapply (executeFile_leaves_sessions
            (platformService := Sample.windows) (workspace := Sample.rootOnC)
            (configurationService := Sample.settings)
            (interpreterService := Sample.interpreter)
            (pathModule := Sample.win32Path)
            (stringExtensions := Sample.plainArgument) (registered None Sample.fresh)
            [Call (ExecuteFile Sample.fileOnD); Call (ExecuteFile Sample.fileOnC);
             Resume 1; Resume 0; Resume 0; Resume 1; Resume 1; Resume 0;
             Resume 0; Resume 0; Resume 1; Resume 0; Resume 1; Resume 1]);
    [reflexivity|vm_compute; reflexivity].
Defined.

(** The file [C:\proj\a.py] has a session.  A session for no resource is
    started, made ready and closed: the entry of the file is as it was,
    and the entry of the empty key is gone. *)
Lemma registry_entry_isolated_witness :
  let run := run (platformService := Sample.windows) (workspace := Sample.rootOnC)
               (configurationService := Sample.settings)
               (interpreterService := Sample.interpreter)
               (pathModule := Sample.win32Path)
               (stringExtensions := Sample.plainArgument) in
  exists y,
    run [Call (InitializeRepl None); Resume 1; Resume 1; TimerFires 1; Resume 0;
         TerminalClosed (Sample.terminalOf None)]
        (boot (registered (Some Sample.fileOnC) Sample.fresh)) = Some y
    /\ replActive (ctl y) !! "" = None
    /\ replActive (ctl y) !! "C:\proj\a.py" = Some 0.
Proof.
  eexists. split; [vm_compute; reflexivity|]. split; [reflexivity|].
  edestruct (registry_entry_isolated
               (platformService := Sample.windows) (workspace := Sample.rootOnC)
               (configurationService := Sample.settings)
               (interpreterService := Sample.interpreter)
               (pathModule := Sample.win32Path)
               (stringExtensions := Sample.plainArgument)
               "C:\proj\a.py" [Sample.terminalOf (Some Sample.fileOnC)]
               (registered (Some Sample.fileOnC) Sample.fresh)
               [Call (InitializeRepl None); Resume 1; Resume 1; TimerFires 1; Resume 0;
                TerminalClosed (Sample.terminalOf None)])
    as [Hentry _]; [|reflexivity|vm_compute; reflexivity|].
  - intros t Hin. simpl in Hin. apply list_elem_of_singleton in Hin.
    injection Hin as ->. apply list_elem_of_singleton. reflexivity.
  - rewrite Hentry. reflexivity.
Defined.

(** ** Further cases of file execution *)

Lemma backslashesToSlashes_clean (p : string) :
  existsb (Ascii.eqb "\") (chars (backslashesToSlashes p)) = false
  /\ String.length (backslashesToSlashes p) = String.length p
  /\ backslashesToSlashes (backslashesToSlashes p) = backslashesToSlashes p.
Proof.
  induction p as [|c r (IH1 & IH2 & IH3)]; [done|].
  cbn [backslashesToSlashes chars existsb String.length].
  rewrite IH1, IH2, IH3.
  destruct (Ascii.eqb c "\") eqn:Hc; [done|].
  by rewrite Hc, (Ascii.eqb_sym "\" c), Hc.
Qed.

Section FileExecutionCases.

Context {platformService : IPlatformService}
        {workspace : IWorkspaceService}
        {configurationService : IConfigurationService}
        {interpreterService : IInterpreterService}
        {pathModule : PathModule}
        {stringExtensions : StringExtensions}.

(** X5: when [executeInFileDir] is off for the file, or the directory of
    the file is empty, [executeFile] makes one terminal call, the run
    command on the file's terminal, and changes nothing else: no [cd], no
    drive change, the flag as it was. *)
Theorem executeFile_in_place (file : Uri) (s : Controller) :
  executeInFileDir (terminal (getSettings (Some file))) = false
  \/ dirname (fsPath file) = "" ->
  exists info,
    solo (getExecuteFileArgs (Some file)
            [fileToCommandArgumentForPythonExt (fsPath file)]) s = Some (info, s)
    /\ solo (executeFile file) s
       = Some (tt, logCall {| resource := Some file; title := terminalTitle s |}
                     (SendCommand (command info) (args info)) s).
Proof.
  intros Hcase. eexists. split; [apply solo_getExecutableInfo|].
  rewrite solo_executeFile. unfold setCwdForFileExecution.
  destruct Hcase as [-> | ->]; simpl; [done|].
  by destruct (executeInFileDir _).
Qed.

(** X6: when [executeInFileDir] is on and the directory of the file is
    not empty, and the platform is not Windows or the directory has no
    letter followed by a colon, [executeFile] sends the [cd] and the run
    command and no drive change, and leaves the flag as it was, set or
    not. *)
Theorem executeFile_without_drive (file : Uri) (s : Controller) :
  executeInFileDir (terminal (getSettings (Some file))) = true ->
  dirname (fsPath file) <> "" ->
  isWindows && testDriveLetter (dirname (fsPath file)) = false ->
  exists info,
    solo (getExecuteFileArgs (Some file)
            [fileToCommandArgumentForPythonExt (fsPath file)]) s = Some (info, s)
    /\ solo (executeFile file) s
       = Some (tt, logCall {| resource := Some file; title := terminalTitle s |}
                     (SendCommand (command info) (args info))
                     (logCall {| resource := Some file; title := terminalTitle s |}
                        (SendText ("cd " +:+ fileToCommandArgumentForPythonExt
                                               (dirname (fsPath file)))) s)).
Proof.
  intros Hdir Hne Hdrive. eexists. split; [apply solo_getExecutableInfo|].
  rewrite solo_executeFile. unfold setCwdForFileExecution.
  rewrite Hdir, Hdrive. simpl.
  by destruct (dirname (fsPath file)).
Qed.

(** X7: whatever the settings, the platform and the flag, [executeFile]
    run alone returns, having made at most two [sendText] calls and then
    one [sendCommand], the run command with the quoted path of the file as
    its last argument, all on the terminal service of the file. *)
Theorem executeFile_calls (file : Uri) (s : Controller) :
  exists texts info s',
    solo (executeFile file) s = Some (tt, s')
    /\ length texts <= 2
    /\ solo (getExecutableInfo (Some file) []) s = Some (info, s)
    /\ terminalLog s'
       = terminalLog s
         ++ ((fun x => ({| resource := Some file; title := terminalTitle s |}, SendText x))
               <$> texts)
         ++ [({| resource := Some file; title := terminalTitle s |},
              SendCommand (command info)
                (args info ++ [fileToCommandArgumentForPythonExt (fsPath file)]))].
Proof.
  pose proof (solo_executeFile file s) as Hrun.
  unfold setCwdForFileExecution in Hrun.
  destruct (executeInFileDir _); simpl in Hrun;
    [destruct (0 <? String.length (dirname (fsPath file))); simpl in Hrun;
     [destruct (isWindows && testDriveLetter (dirname (fsPath file))); simpl in Hrun;
      [destruct (negb _ || _); simpl in Hrun|]|]|].
  - eexists [_; _], _, _. split; [exact Hrun|]. split; [simpl; lia|].
    split; [apply solo_getExecutableInfo|]. simpl.
    by rewrite app_nil_r, <- !app_assoc.
  - eexists [_], _, _. split; [exact Hrun|]. split; [simpl; lia|].
    split; [apply solo_getExecutableInfo|]. simpl.
    by rewrite app_nil_r, <- !app_assoc.
  - eexists [_], _, _. split; [exact Hrun|]. split; [simpl; lia|].
    split; [apply solo_getExecutableInfo|]. simpl.
    by rewrite app_nil_r, <- !app_assoc.
  - eexists [], _, _. split; [exact Hrun|]. split; [simpl; lia|].
    split; [apply solo_getExecutableInfo|]. simpl. by rewrite app_nil_r.
  - eexists [], _, _. split; [exact Hrun|]. split; [simpl; lia|].
    split; [apply solo_getExecutableInfo|]. simpl. by rewrite app_nil_r.
Qed.

(** X8: on Windows the command that [getExecutableInfo] returns has no
    backslash in it, is as long as the interpreter path it was made from,
    and is left as it is by the replacement done again. *)
Theorem windows_command_has_no_backslash (resource : option Uri) (extra : list string)
        (s : Controller) :
  isWindows = true ->
  exists info,
    solo (getExecutableInfo resource extra) s = Some (info, s)
    /\ existsb (Ascii.eqb "\") (chars (command info)) = false
    /\ String.length (command info) = String.length (interpreterPathOf resource)
    /\ backslashesToSlashes (command info) = command info.
Proof.
  intros Hwin. eexists. split; [apply solo_getExecutableInfo|]. simpl.
  rewrite Hwin. apply backslashesToSlashes_clean.
Qed.

End FileExecutionCases.

(** [executeInFileDir] off on Windows, and a path module that gives no
    directory: the run command is all that is sent. *)
Lemma executeFile_in_place_witness :
  (exists s',
     solo (executeFile (platformService := Sample.windows)
             (workspace := Sample.rootOnC)
             (configurationService := Hosts.settingsInPlace)
             (interpreterService := Sample.interpreter)
             (pathModule := Sample.win32Path)
             (stringExtensions := Sample.plainArgument) Sample.fileOnD) Sample.fresh
     = Some (tt, s')
     /\ terminalLog s'
        = [(Sample.terminalOf (Some Sample.fileOnD),
            SendCommand "C:/py/python.exe" ["-i"; "D:\data\b.py"])]
     /\ hasRanOutsideCurrentDrive s' = false)
  /\ (exists s',
     solo (executeFile (platformService := Sample.windows)
             (workspace := Sample.rootOnC)
             (configurationService := Sample.settings)
             (interpreterService := Sample.interpreter)
             (pathModule := Hosts.noDirectory)
             (stringExtensions := Sample.plainArgument) Sample.fileOnD) Sample.fresh
     = Some (tt, s')
     /\ terminalLog s'
        = [(Sample.terminalOf (Some Sample.fileOnD),
            SendCommand "C:/py/python.exe" ["-i"; "D:\data\b.py"])]
     /\ hasRanOutsideCurrentDrive s' = false).
Proof.
  split.
  - destruct (executeFile_in_place
                (platformService := Sample.windows) (workspace := Sample.rootOnC)
                (configurationService := Hosts.settingsInPlace)
                (interpreterService := Sample.interpreter)
                (pathModule := Sample.win32Path)
                (stringExtensions := Sample.plainArgument)
                Sample.fileOnD Sample.fresh) as (info & Hinfo & Hrun);
      [left; reflexivity|].
    injection Hinfo as <-. eexists. split; [exact Hrun|]. split; reflexivity.
  - destruct (executeFile_in_place
                (platformService := Sample.windows) (workspace := Sample.rootOnC)
                (configurationService := Sample.settings)
                (interpreterService := Sample.interpreter)
                (pathModule := Hosts.noDirectory)
                (stringExtensions := Sample.plainArgument)
                Sample.fileOnD Sample.fresh) as (info & Hinfo & Hrun);
      [right; reflexivity|].
    injection Hinfo as <-. eexists. split; [exact Hrun|]. split; reflexivity.
Defined.

(** A file in a home folder, off Windows, and a file in a folder on a
    share, on Windows, both with the flag set: a [cd] and the run
    command. *)
Lemma executeFile_without_drive_witness :
  (exists s',
     solo (executeFile (platformService := Sample.posix)
             (workspace := Sample.noRoot)
             (configurationService := Sample.settings)
             (interpreterService := Sample.noInterpreter)
             (pathModule := Hosts.posixPath)
             (stringExtensions := Sample.plainArgument) Hosts.fileInHome)
          Hosts.ranOutside
     = Some (tt, s')
     /\ terminalLog s'
        = [(Sample.terminalOf (Some Hosts.fileInHome), SendText "cd /home/me");
           (Sample.terminalOf (Some Hosts.fileInHome),
            SendCommand "python" ["-i"; "/home/me/a.py"])])
  /\ (exists s',
     solo (executeFile (platformService := Sample.windows)
             (workspace := Sample.rootOnC)
             (configurationService := Sample.settings)
             (interpreterService := Sample.interpreter)
             (pathModule := Hosts.sharePath)
             (stringExtensions := Sample.plainArgument) Hosts.fileOnShare)
          Hosts.ranOutside
     = Some (tt, s')
     /\ terminalLog s'
        = [(Sample.terminalOf (Some Hosts.fileOnShare), SendText "cd \\srv\share\docs");
           (Sample.terminalOf (Some Hosts.fileOnShare),
            SendCommand "C:/py/python.exe" ["-i"; "\\srv\share\docs\a.py"])]).
Proof.
  split.
  - destruct (executeFile_without_drive
                (platformService := Sample.posix) (workspace := Sample.noRoot)
                (configurationService := Sample.settings)
                (interpreterService := Sample.noInterpreter)
                (pathModule := Hosts.posixPath)
                (stringExtensions := Sample.plainArgument)
                Hosts.fileInHome Hosts.ranOutside) as (info & Hinfo & Hrun);
      [reflexivity|discriminate|reflexivity|].
    injection Hinfo as <-. eexists. split; [exact Hrun|reflexivity].
  - destruct (executeFile_without_drive
                (platformService := Sample.windows) (workspace := Sample.rootOnC)
                (configurationService := Sample.settings)
                (interpreterService := Sample.interpreter)
                (pathModule := Hosts.sharePath)
                (stringExtensions := Sample.plainArgument)
                Hosts.fileOnShare Hosts.ranOutside) as (info & Hinfo & Hrun);
      [reflexivity|discriminate|reflexivity|].
    injection Hinfo as <-. eexists. split; [exact Hrun|reflexivity].
Defined.

(** The interpreter at [C:\py\python.exe]. *)
Lemma windows_command_has_no_backslash_witness :
  exists info,
    solo (getExecutableInfo (platformService := Sample.windows)
            (configurationService := Sample.settings)
            (interpreterService := Sample.interpreter) None []) Sample.fresh
    = Some (info, Sample.fresh)
    /\ command info = "C:/py/python.exe"
    /\ existsb (Ascii.eqb "\") (chars (command info)) = false.
Proof.
  destruct (windows_command_has_no_backslash
              (platformService := Sample.windows)
              (configurationService := Sample.settings)
              (interpreterService := Sample.interpreter) None [] Sample.fresh)
    as (info & Hrun & Hclean & _); [reflexivity|].
  exists info. split; [exact Hrun|]. split; [|exact Hclean].
  injection Hrun as <-. reflexivity.
Defined.

(** ** Further cases of sessions *)

Section SessionCases.

Context {platformService : IPlatformService}
        {workspace : IWorkspaceService}
        {configurationService : IConfigurationService}
        {interpreterService : IInterpreterService}
        {pathModule : PathModule}
        {stringExtensions : StringExtensions}.

(** X9: for a session that is ready, the registry has a promise under the
    key and the promise is [true], [initializeRepl] run alone shows the
    terminal of the resource and does nothing else: no start command, no
    new promise, no new listener. *)
Theorem initializeRepl_ready_shows (resource : option Uri) (s : Controller) (h : handle) :
  replActive s !! resourceKey resource = Some h ->
  settled s !! h = Some true ->
  solo (initializeRepl resource) s
  = Some (tt, logCall {| resource := resource; title := terminalTitle s |} Show s).
Proof.
  intros Hreg Hset. unfold initializeRepl.
  rewrite solo_bind. simpl. rewrite solo_bind. simpl. rewrite Hreg. simpl.
  by rewrite Hset.
Qed.

(** X10: [execute] returns at once, with nothing changed, exactly for the
    strings made of white space only (the empty string among them).  For
    every other string its first synchronous step ends suspended on a
    promise of the registry, the one that the registry then holds under
    the empty key, whatever resource was given, and nothing has been sent
    to a terminal. *)
Theorem execute_noop_iff_blank (code : string) (resource : option Uri) (s : Controller) :
  (forallb isWhiteSpace (chars code) = true
   <-> advance (execute code resource) s = (s, [], Done tt))
  /\ (forallb isWhiteSpace (chars code) = false ->
      exists s' sp h k,
        advance (execute code resource) s = (s', sp, AwaitHandle h k)
        /\ replActive s' !! "" = Some h
        /\ terminalLog s' = terminalLog s).
Proof.
  assert (forallb isWhiteSpace (chars code) = false ->
          exists s' sp h k,
            advance (execute code resource) s = (s', sp, AwaitHandle h k)
            /\ replActive s' !! "" = Some h
            /\ terminalLog s' = terminalLog s) as Hsuspended.
  { intros Hblank.
    assert (trim code <> "") as Hcode.
    { intros Htrim. apply trim_empty_iff in Htrim. congruence. }
    unfold execute. rewrite (execute_guard code Hcode).
    unfold await. rewrite !advance_bind.
    destruct (replActive s !! resourceKey None) as [h|] eqn:Hreg.
    - destruct (initializeRepl_reuse None s h Hreg) as (k & Hadv & _).
      rewrite Hadv. simpl. by eexists _, _, _, _.
    - destruct (initializeRepl_launch None s Hreg) as (l & k & Hadv & _).
      rewrite Hadv. simpl. eexists _, _, _, _. split; [reflexivity|].
      split; [apply lookup_insert_eq|done]. }
  split; [|exact Hsuspended]. split.
  - intros Hblank. apply trim_empty_iff in Hblank. unfold execute.
    by rewrite Hblank, orb_true_r.
  - intros Hnoop. destruct (forallb isWhiteSpace (chars code)) eqn:Hblank; [done|].
    destruct Hsuspended as (s' & sp & h & k & Hadv & _); [done|]. congruence.
Qed.

End SessionCases.

(** A blank between two tabs is dropped; [x = 1] for [D:\data\b.py], on a
    new provider, ends suspended on promise 0, which is under the empty
    key. *)
Lemma execute_noop_iff_blank_witness :
  let execute := execute (platformService := Sample.windows)
                   (configurationService := Sample.settings)
                   (interpreterService := Sample.interpreter) in
  advance (execute (String "009" (String " " (String "009" ""))) None) Sample.fresh
  = (Sample.fresh, [], Done tt)
  /\ exists s' sp k,
       advance (execute "x = 1" (Some Sample.fileOnD)) Sample.fresh
       = (s', sp, AwaitHandle 0 k)
       /\ replActive s' !! "" = Some 0
       /\ replActive s' !! "D:\data\b.py" = None
       /\ terminalLog s' = [].
Proof.
  split.
  - apply (execute_noop_iff_blank
             (platformService := Sample.windows)
             (configurationService := Sample.settings)
             (interpreterService := Sample.interpreter)). reflexivity.
  - destruct (execute_noop_iff_blank
                (platformService := Sample.windows)
                (configurationService := Sample.settings)
                (interpreterService := Sample.interpreter)
                "x = 1" (Some Sample.fileOnD) Sample.fresh)
      as (_ & (s' & sp & h & k & Hadv & Hreg & Hlog)); [reflexivity|].
    injection Hadv as <- <- <- <-.
    eexists _, _, _. split; [reflexivity|]. split; [exact Hreg|].
    split; [reflexivity|exact Hlog].
Defined.

(** The session of no resource is ready: the call shows its terminal. *)
Lemma initializeRepl_ready_shows_witness :
  let ready := resolve 0 true (registered None Sample.fresh) in
  solo (initializeRepl (platformService := Sample.windows)
          (configurationService := Sample.settings)
          (interpreterService := Sample.interpreter) None) ready
  = Some (tt, logCall (Sample.terminalOf None) Show ready).
Proof.
  apply (initializeRepl_ready_shows
           (platformService := Sample.windows)
           (configurationService := Sample.settings)
           (interpreterService := Sample.interpreter)
           None (resolve 0 true (registered None Sample.fresh)) 0); reflexivity.
Defined.

(** ** Relaunch after the close of the terminal *)

Section Relaunch.

Context {platformService : IPlatformService}
        {workspace : IWorkspaceService}
        {configurationService : IConfigurationService}
        {interpreterService : IInterpreterService}
        {pathModule : PathModule}
        {stringExtensions : StringExtensions}.

(** X11: when the terminal of a session that [initializeRepl] has
    registered is closed and [initializeRepl] is called again for the
    resource, the call makes a new promise and puts it in the registry
    under the key, and its launcher, gone on twice, sends the start command
    again and sets the warm-up timer of the new promise. *)
Theorem initializeRepl_relaunches_after_close (resource : option Uri) (y : System) :
  ({| resource := resource; title := terminalTitle (ctl y) |}, resourceKey resource)
    ∈ closeListeners (ctl y) ->
  exists y',
    run [TerminalClosed {| resource := resource; title := terminalTitle (ctl y) |};
         Call (InitializeRepl resource);
         Resume (S (length (pool y))); Resume (S (length (pool y)))] y = Some y'
    /\ replActive (ctl y') !! resourceKey resource = Some (nextHandle (ctl y))
    /\ settled (ctl y') = settled (ctl y)
    /\ timers (ctl y') = timers (ctl y) ++ [nextHandle (ctl y)]
    /\ terminalLog (ctl y') = terminalLog (ctl y) ++ [startCommand resource (ctl y)].
Proof.
  intros Hin.
  set (t := {| resource := resource; title := terminalTitle (ctl y) |}) in *.
  pose proof (fireClose_deletes t _ _ Hin) as Hnone.
  pose proof (initializeRepl_launch_explicit resource (fireClose t (ctl y)) Hnone) as Hadv.
  eexists. split.
  - change (run (?e1 :: ?e2 :: ?es) y) with (y1 ← exec e1 y; y2 ← exec e2 y1; run es y2).
    cbn [exec mbind option_bind]. unfold method. cbn [ctl pool]. rewrite Hadv.
    cbn [mbind option_bind]. apply launcher_resumes.
    rewrite lookup_app_r by lia. by rewrite Nat.sub_succ_l, Nat.sub_diag.
  - simpl. split; [apply lookup_insert_eq|]. done.
Qed.

End Relaunch.

(** The session of [C:\proj\a.py] is ready; its terminal is closed and
    [initializeRepl] is called for the file again. *)
Lemma initializeRepl_relaunches_after_close_witness :
  let run := run (platformService := Sample.windows) (workspace := Sample.rootOnC)
               (configurationService := Sample.settings)
               (interpreterService := Sample.interpreter)
               (pathModule := Sample.win32Path)
               (stringExtensions := Sample.plainArgument) in
  let ready := resolve 0 true (registered (Some Sample.fileOnC) Sample.fresh) in
  exists y',
    run [TerminalClosed (Sample.terminalOf (Some Sample.fileOnC));
         Call (InitializeRepl (Some Sample.fileOnC)); Resume 1; Resume 1]
        (boot ready) = Some y'
    /\ replActive ready !! "C:\proj\a.py" = Some 0
    /\ replActive (ctl y') !! "C:\proj\a.py" = Some 1
    /\ timers (ctl y') = [1]
    /\ terminalLog (ctl y')
       = [(Sample.terminalOf (Some Sample.fileOnC),
           SendCommand "C:/py/python.exe" ["-i"])].
Proof.
  destruct (initializeRepl_relaunches_after_close
              (platformService := Sample.windows) (workspace := Sample.rootOnC)
              (configurationService := Sample.settings)
              (interpreterService := Sample.interpreter)
              (pathModule := Sample.win32Path)
              (stringExtensions := Sample.plainArgument)
              (Some Sample.fileOnC)
              (boot (resolve 0 true (registered (Some Sample.fileOnC) Sample.fresh))))
    as (y' & Hrun & Hreg & _ & Htimers & Hlog).
  - simpl. apply list_elem_of_singleton. reflexivity.
  - exists y'. split; [exact Hrun|]. split; [reflexivity|].
    split; [exact Hreg|]. split; [exact Htimers|exact Hlog].
Defined.

(** ** Nothing but the start command is sent before the session is ready *)

#[global] Instance quietAppend_preorder : PreOrder quietAppend.
Proof.
  split.
  - intros s. split; [done|]. exists []. by rewrite app_nil_r.
  - intros s1 s2 s3 [H12 [l1 E1]] [H23 [l2 E2]]. split; [by etrans|].
    exists (l1 ++ l2). by rewrite E2, E1, app_assoc.
Qed.

Lemma quietAppend_logCall (t : TerminalOptions) (c : TerminalCall) (s : Controller) :
  isSendCommand (t, c) = false -> quietAppend s (logCall t c s).
Proof. intros Hc. split; [by apply quiet_logCall|]. by eexists. Qed.

Lemma resolve_fresh (h : handle) (v : bool) (s : Controller) :
  settled s !! h = None -> settled (resolve h v s) !! h = Some v.
Proof. intros Hh. unfold resolve. rewrite Hh. simpl. apply lookup_insert_eq. Qed.

Lemma resolve_keeps (h h' : handle) (v b : bool) (s : Controller) :
  settled s !! h = Some b -> settled (resolve h' v s) !! h = Some b.
Proof.
  intros Hh. unfold resolve. destruct (settled s !! h') eqn:Hh'; simpl; [done|].
  rewrite lookup_insert_ne; [done|]. intros ->. congruence.
Qed.

Lemma Idle_blocked (h : handle) (s : Controller) (t : Async unit) :
  Idle h t -> settled s !! h = None -> continuation s t = None.
Proof. intros [->|[[k ->] _]] Hh; simpl; [done|]. by rewrite Hh. Qed.

Lemma Idle_Keeps (h : handle) (ts : list (Async unit)) :
  Forall (Idle h) ts -> Forall (Keeps quietAppend (fun b => b = true)) ts.
Proof.
  intros H. eapply Forall_impl; [exact H|].
  intros t [->|[_ Ht]]; [apply Keeps_done|done].
Qed.

Section Warmup.

Context {platformService : IPlatformService}
        {workspace : IWorkspaceService}
        {configurationService : IConfigurationService}
        {interpreterService : IInterpreterService}
        {pathModule : PathModule}
        {stringExtensions : StringExtensions}.

Lemma initializeRepl_reuse_idle (resource : option Uri) (s : Controller) (h : handle) :
  replActive s !! resourceKey resource = Some h ->
  exists k,
    advance (initializeRepl resource) s = (s, [], AwaitHandle h k)
    /\ Keeps quietAppend (fun b => b = true) (AwaitHandle h k).
Proof.
  intros Hsome. unfold initializeRepl.
  rewrite advance_bind. simpl. rewrite advance_bind. simpl. rewrite Hsome. simpl.
  eexists. split; [reflexivity|].
  apply Keeps_await. intros b ->. simpl.
  apply Keeps_act; [intros s'; by apply quietAppend_logCall|].
  intros []. apply Keeps_suspend, Keeps_done.
Qed.

(** What follows the session in [execute] only sends the code. *)
Lemma execute_rest_quietAppend (code : string) (resource : option Uri) (t : Async unit) :
  Keeps quietAppend (fun b => b = true) t ->
  Keeps quietAppend (fun b => b = true)
    (await t;; terminalService ← getTerminalService resource;
     await (sendText terminalService code)).
Proof.
  intros Ht. unfold await, getTerminalService, sendText.
  apply Keeps_bind; [apply Keeps_bind; [done|]|]; keeps; try done.
  by apply quietAppend_logCall.
Qed.

(** With a promise under the empty key, a call of the session changes
    nothing in its first step and is idle after it. *)
Lemma codeSession_call_idle (r : Request) (s : Controller) (h : handle) :
  codeSession (Call r) = true ->
  replActive s !! "" = Some h ->
  exists t, advance (method r) s = (s, [], t) /\ Idle h t.
Proof.
  intros Hr Hreg. destruct r as [file|code resource|resource]; simpl in Hr; [done| |].
  - simpl. unfold execute.
    destruct (String.eqb code "" || (String.length (trim code) =? 0)).
    { exists (Done tt). split; [done|by left]. }
    destruct (initializeRepl_reuse_idle None s h Hreg) as (k & Hadv & Hk).
    pose proof (execute_rest_quietAppend code resource _ Hk) as Hrest.
    unfold await in *. rewrite !advance_bind, Hadv. simpl.
    eexists. split; [reflexivity|]. right. split; [by eexists|]. exact Hrest.
  - apply bool_decide_eq_true in Hr. simpl.
    destruct (initializeRepl_reuse_idle resource s h) as (k & Hadv & Hk);
      [by rewrite Hr|].
    exists (AwaitHandle h k). split; [done|]. right. split; [by eexists|done].
Qed.

(** With no promise under the empty key, [execute] of a string that is
    not blank starts the session of no resource and is idle after its
    first step. *)
Lemma execute_launch_idle (code : string) (resource : option Uri) (s : Controller) :
  trim code <> "" ->
  replActive s !! "" = None ->
  exists l t,
    advance (execute code resource) s = (registered None s, [l], t)
    /\ Launcher (startCommand None s) (nextHandle s) l
    /\ Idle (nextHandle s) t.
Proof.
  intros Hcode Hreg. unfold execute. rewrite (execute_guard code Hcode).
  assert (Keeps quietAppend (fun b => b = true)
            (AwaitHandle (nextHandle s) (fun _ => mret tt))) as Hk.
  { apply Keeps_await. intros b _. apply Keeps_done. }
  pose proof (execute_rest_quietAppend code resource _ Hk) as Hrest.
  unfold await in *.
  rewrite !advance_bind, (initializeRepl_launch_explicit None s Hreg). simpl.
  eexists _, _. split; [reflexivity|]. split.
  - apply Launcher_suspend, Launcher_suspend.
    eapply Launcher_send
      with (g := fun s0 => (tt, setTimers (timers s0 ++ [nextHandle s]) s0)) (k' := Done);
      [intros; reflexivity..|by intros []].
  - right. split; [by eexists|]. exact Hrest.
Qed.

(** One step of the event loop keeps the stages of the warm-up, or goes
    to the next. *)
Lemma Warmup_exec h start log (y y' : System) (e : Event) :
  Warmup h start log y ->
  codeSession e = true ->
  exec e y = Some y' ->
  Warmup h start log y'.
Proof.
  intros [Hreg Hset Hstage] He Hexec.
  destruct e as [r|i|h'|t]; [| | |done].
  - destruct (codeSession_call_idle r (ctl y) h He Hreg) as (t & Hadv & Ht).
    unfold exec in Hexec. rewrite Hadv in Hexec. simplify_eq/=.
    split; simpl; [done|done|].
    destruct Hstage as [(Hlog & Hh & Htm & pre & l & post & Hpool & Hl & Hpre & Hpost)
                       |[(Hlog & Hh & Hidle)|(Hh & Hlog & Hq)]].
    + left. repeat (split; [done|]). exists pre, l, (post ++ [t]).
      rewrite Hpool, <- app_assoc. split; [done|]. split; [done|]. split; [done|].
      apply Forall_app. split; [done|]. by apply Forall_singleton.
    + right. left. repeat (split; [done|]). apply Forall_app. split; [done|].
      by apply Forall_singleton.
    + right. right. repeat (split; [done|]). apply Forall_app. split; [done|].
      apply (Idle_Keeps h). by apply Forall_singleton.
  - destruct Hstage as [(Hlog & Hh & Htm & pre & l & post & Hpool & Hl & Hpre & Hpost)
                       |[(Hlog & Hh & Hidle)|(Hh & Hlog & Hq)]].
    + simpl in Hexec. rewrite Hpool in Hexec.
      destruct ((pre ++ l :: post) !! i) as [t|] eqn:Hi; simpl in Hexec; [|done].
      apply lookup_middle in Hi as [[Hlt Hi]|[[-> ->]|[Hgt Hi]]].
      * rewrite (Idle_blocked h _ t) in Hexec; [done| |done].
        eapply Forall_lookup_1; [exact Hpre|exact Hi].
      * destruct (continuation (ctl y) l) as [k|] eqn:Hk; [|done]. simpl in Hexec.
        pose proof (Launcher_continuation _ _ _ _ _ Hl Hk) as Hlk.
        destruct (Launcher_advance start h k (ctl y) Hlk) as [Hsp Hcases].
        destruct (advance k (ctl y)) as [[s' sp] t']. simpl in *. subst sp.
        injection Hexec as <-. rewrite app_nil_r, insert_middle.
        destruct Hcases as [[-> Hl']|[-> ->]].
        -- split; [done|done|]. left. repeat (split; [done|]).
           by exists pre, t', post.
        -- split; simpl; [done|done|]. right. left.
           split; [by rewrite Hlog, <- surjective_pairing|]. split; [done|].
           apply Forall_app. split; [done|]. apply Forall_cons. split; [by left|done].
      * rewrite (Idle_blocked h _ t) in Hexec; [done| |done].
        eapply Forall_lookup_1; [exact Hpost|exact Hi].
    + simpl in Hexec. destruct (pool y !! i) as [t|] eqn:Hi; simpl in Hexec; [|done].
      rewrite (Idle_blocked h _ t) in Hexec; [done| |done].
      eapply Forall_lookup_1; [exact Hidle|exact Hi].
    + destruct (Keeps_resume quietAppend (fun b => b = true) y y' i Hset Hq Hexec)
        as [[(Hr & Hs & _) [l Hl]] Hq'].
      split; [by rewrite Hr| |].
      * intros h' b. rewrite Hs. apply Hset.
      * right. right. split; [by rewrite Hs|]. split; [|done].
        destruct Hlog as [rest Hrest]. exists (rest ++ l).
        by rewrite Hl, Hrest, <- app_assoc.
  - simpl in Hexec. case_decide as Hin; [|done]. injection Hexec as <-.
    match goal with |- context [resolve h' true ?s] => set (s1 := s) end.
    destruct (resolve_fields h' true s1) as (Hr & Ht' & _).
    assert (terminalLog (resolve h' true s1) = terminalLog (ctl y)) as Hlog'.
    { unfold resolve. by destruct (settled s1 !! h'). }
    split; simpl.
    + by rewrite Hr.
    + intros h'' b Hb. apply resolve_settled in Hb as [Hb|[_ ->]]; [|done].
      by apply (Hset h'').
    + rewrite Hlog'.
      destruct Hstage as [(Hlog & Hh & Htm & Hpool)
                         |[(Hlog & Hh & Hidle)|(Hh & Hlog & Hq)]].
      * left. split; [done|]. split.
        { rewrite resolve_settled_other; [done|]. by intros ->. }
        split; [|done]. rewrite Ht'. simpl. intros [_ ?]%list_elem_of_filter. done.
      * destruct (decide (h' = h)) as [->|Hne].
        -- right. right. split; [by apply resolve_fresh|].
           split; [by exists []|]. by apply (Idle_Keeps h).
        -- right. left. split; [done|]. split; [|done].
           by rewrite resolve_settled_other.
      * right. right. split; [by apply resolve_keeps|]. done.
Qed.

Lemma Warmup_run h start log (es : list Event) (y y' : System) :
  Warmup h start log y ->
  forallb codeSession es = true ->
  run es y = Some y' ->
  Warmup h start log y'.
Proof.
  revert y. induction es as [|e es IH]; intros y Hy Hes Hrun; simpl in *.
  - by simplify_eq.
  - apply andb_prop in Hes as [He Hes].
    destruct (exec e y) as [y1|] eqn:Hexec; [|done]. simpl in Hrun.
    eapply IH; [|done|done]. by eapply Warmup_exec.
Qed.

(** X12: a provider has been used in any way; no call is in flight, every
    call made has returned, and the registry has no promise under the
    empty key.  [execute] is called with a string that is not blank.  Over
    every run of the event loop from there in which suspended calls go on,
    timers fire and [execute] and [initializeRepl] for the empty key are
    called again: either nothing has been sent to a terminal since, or the
    start command has been sent and nothing else, or the promise of the
    session is [true], its warm-up timer has fired, and the start command
    is the first of what has been sent.  So no code and no [show] goes to
    a terminal before the start command and the warm-up.  (A call that is
    still in flight when [execute] is called, left from a session whose
    terminal was closed, can send before: hence the condition on the
    calls.) *)
Theorem execute_sends_after_warmup (title : string) (es0 : list Event) (y0 : System)
        (code : string) (resource : option Uri) :
  run es0 (boot (newController title)) = Some y0 ->
  Forall (fun t => t = Done tt) (pool y0) ->
  replActive (ctl y0) !! "" = None ->
  trim code <> "" ->
  exists y1,
    exec (Call (Execute code resource)) y0 = Some y1
    /\ forall es y,
         forallb codeSession es = true ->
         run es y1 = Some y ->
         terminalLog (ctl y) = terminalLog (ctl y0)
         \/ (terminalLog (ctl y) = terminalLog (ctl y0) ++ [startCommand None (ctl y0)]
             /\ settled (ctl y) !! nextHandle (ctl y0) = None)
         \/ (settled (ctl y) !! nextHandle (ctl y0) = Some true
             /\ exists rest,
                  terminalLog (ctl y)
                  = terminalLog (ctl y0) ++ startCommand None (ctl y0) :: rest).
Proof.
  intros Hrun0 Hdone Hnone Hcode.
  pose proof (Reached_run title es0 y0 Hrun0) as Hreached.
  destruct (Reached_fresh y0 Hreached) as [Hfresh Htimer].
  pose proof (reached_settled y0 Hreached) as Htrue.
  destruct (execute_launch_idle code resource (ctl y0) Hcode Hnone)
    as (l & t & Hadv & Hl & Ht).
  eexists. unfold exec, method.
  rewrite Hadv. split; [reflexivity|]. simpl.
  intros es y Hes Hrun.
  assert (Warmup (nextHandle (ctl y0)) (startCommand None (ctl y0)) (terminalLog (ctl y0))
            {| ctl := registered None (ctl y0); pool := pool y0 ++ [t; l] |}) as Hwarm.
  { split; simpl; [apply lookup_insert_eq|done|]. left.
    repeat (split; [done|]). exists (pool y0 ++ [t]), l, [].
    split; [by rewrite <- app_assoc|]. split; [done|]. split; [|apply Forall_nil_2].
    apply Forall_app. split; [|by apply Forall_singleton].
    eapply Forall_impl; [exact Hdone|]. intros t' ->. by left. }
  destruct (Warmup_run _ _ _ es _ y Hwarm Hes Hrun) as [_ _ Hstage].
  destruct Hstage as [(Hlog & _)|[(Hlog & Hh & _)|(Hh & Hlog & _)]];
    [by left|right; by left|right; by right].
Qed.

End Warmup.

(** A provider has executed [a] for no resource, and the terminal has been
    closed after; both calls have returned.  [1+1] is executed for a
    file.  When the new launcher has run, only the start command has been
    sent since; the code follows when the timer has fired and the call has
    gone on. *)
Lemma execute_sends_after_warmup_witness :
  let exec := exec (platformService := Sample.windows) (workspace := Sample.rootOnC)
                (configurationService := Sample.settings)
                (interpreterService := Sample.interpreter)
                (pathModule := Sample.win32Path)
                (stringExtensions := Sample.plainArgument) in
  let run := run (platformService := Sample.windows) (workspace := Sample.rootOnC)
               (configurationService := Sample.settings)
               (interpreterService := Sample.interpreter)
               (pathModule := Sample.win32Path)
               (stringExtensions := Sample.plainArgument) in
  let start := (Sample.terminalOf None, SendCommand "C:/py/python.exe" ["-i"]) in
  exists y0 y1 y2 y3,
    run [Call (Execute "a" None); Resume 1; Resume 1; TimerFires 0;
         Resume 0; Resume 0; Resume 0; TerminalClosed (Sample.terminalOf None)]
        (boot Sample.fresh) = Some y0
    /\ pool y0 = [Done tt; Done tt]
    /\ terminalLog (ctl y0) = [start; (Sample.terminalOf None, SendText "a")]
    /\ exec (Call (Execute "1+1" (Some Sample.fileOnC))) y0 = Some y1
    /\ run [Resume 3; Resume 3] y1 = Some y2
    /\ terminalLog (ctl y2) = terminalLog (ctl y0) ++ [start]
    /\ settled (ctl y2) !! 1 = None
    /\ run [Resume 3; Resume 3; TimerFires 1; Resume 2; Resume 2; Resume 2] y1 = Some y3
    /\ settled (ctl y3) !! 1 = Some true
    /\ exists rest, terminalLog (ctl y3) = terminalLog (ctl y0) ++ start :: rest.
Proof.
  intros exec run start.
  set (es0 := [Call (Execute "a" None); Resume 1; Resume 1; TimerFires 0;
               Resume 0; Resume 0; Resume 0; TerminalClosed (Sample.terminalOf None)]).
  match eval vm_compute in (run es0 (boot Sample.fresh)) with
  | Some ?y => set (y0 := y)
  end.
  assert (run es0 (boot Sample.fresh) = Some y0) as Hrun0 by (vm_compute; reflexivity).
  destruct (execute_sends_after_warmup
              (platformService := Sample.windows) (workspace := Sample.rootOnC)
              (configurationService := Sample.settings)
              (interpreterService := Sample.interpreter)
              (pathModule := Sample.win32Path)
              (stringExtensions := Sample.plainArgument)
              "Python" es0 y0 "1+1" (Some Sample.fileOnC) Hrun0)
    as (y1 & Hcall & Hruns).
  - repeat constructor.
  - reflexivity.
  - discriminate.
  - injection Hcall as <-.
    eexists y0, _, _, _. split; [exact Hrun0|]. split; [reflexivity|].
    split; [reflexivity|]. split; [reflexivity|].
    split; [vm_compute; reflexivity|]. split; [reflexivity|]. split; [reflexivity|].
    split; [vm_compute; reflexivity|]. split; [reflexivity|].
    edestruct (Hruns [Resume 3; Resume 3; TimerFires 1; Resume 2; Resume 2; Resume 2])
      as [Hnothing|[[Honly _]|[_ Hrest]]];
      [reflexivity|vm_compute; reflexivity|discriminate Hnothing|discriminate Honly|].
    exact Hrest.
Defined.

(** ** Listeners are kept *)

#[global] Instance listenersGrow_preorder : PreOrder listenersGrow.
Proof.
  split.
  - by intros s.
  - intros s1 s2 s3 [? ?] [? ?]. split; by etrans.
Qed.

#[global] Instance launchesSame_preorder : PreOrder launchesSame.
Proof.
  split.
  - by intros s.
  - intros s1 s2 s3 (?&?&?&?) (?&?&?&?). repeat split; congruence.
Qed.

Section Listeners.

Context {platformService : IPlatformService}
        {workspace : IWorkspaceService}
        {configurationService : IConfigurationService}
        {interpreterService : IInterpreterService}
        {pathModule : PathModule}
        {stringExtensions : StringExtensions}.

Lemma method_listenersGrow (r : Request) :
  Keeps listenersGrow (fun _ => True) (method r).
Proof.
  destruct r as [file|code resource|resource]; simpl;
    unfold executeFile, setCwdForFileExecution, getExecuteFileArgs, execute,
      initializeRepl, launchRepl, getExecutableInfo, getTerminalService,
      sendText, sendCommand, show, onDidCloseTerminal;
    keeps; try done; split; simpl; try done; by apply prefix_app_r.
Qed.

Lemma executeFile_launchesSame (file : Uri) :
  Keeps launchesSame (fun b => b = true) (executeFile file).
Proof.
  unfold executeFile, setCwdForFileExecution, getExecuteFileArgs, getExecutableInfo,
    getTerminalService, sendText, sendCommand.
  keeps; done.
Qed.

Lemma execute_rest_launchesSame (code : string) (resource : option Uri)
      (t : Async unit) :
  Keeps launchesSame (fun b => b = true) t ->
  Keeps launchesSame (fun b => b = true)
    (await t;; terminalService ← getTerminalService resource;
     await (sendText terminalService code)).
Proof.
  intros Ht. unfold await, getTerminalService, sendText.
  apply Keeps_bind; [apply Keeps_bind; [done|]|]; keeps; done.
Qed.

(** The first step of [initializeRepl] either finds a promise and changes
    nothing, or makes one and registers one listener and one disposable;
    what it leaves suspended registers nothing. *)
Lemma initializeRepl_first_launches (resource : option Uri) (s : Controller) :
  exists s1 sp h k,
    advance (initializeRepl resource) s = (s1, sp, AwaitHandle h k)
    /\ (s1 = s \/ s1 = registered resource s)
    /\ Keeps launchesSame (fun b => b = true) (AwaitHandle h k)
    /\ Forall (Keeps launchesSame (fun b => b = true)) sp.
Proof.
  destruct (replActive s !! resourceKey resource) as [h|] eqn:Hreg.
  - exists s, [], h. unfold initializeRepl.
    rewrite advance_bind. simpl. rewrite advance_bind. simpl. rewrite Hreg. simpl.
    eexists. split; [reflexivity|]. split; [by left|]. split; [|apply Forall_nil_2].
    apply Keeps_await. intros b ->. simpl.
    apply Keeps_act; [done|]. intros []. apply Keeps_suspend, Keeps_done.
  - eexists _, _, _, _. split; [by apply initializeRepl_launch_explicit|].
    split; [by right|].
    split; [apply Keeps_await; intros b _; apply Keeps_done|].
    apply Forall_singleton. keeps; done.
Qed.

Lemma first_step_launches (r : Request) (s : Controller) :
  (launchesSame s (advance (method r) s).1.1
   \/ exists resource, (advance (method r) s).1.1 = registered resource s)
  /\ Forall (Keeps launchesSame (fun b => b = true))
       ((advance (method r) s).2 :: (advance (method r) s).1.2).
Proof.
  destruct r as [file|code resource|resource]; cbn [method].
  - destruct (Keeps_advance launchesSame (fun b => b = true) (executeFile file) s
                (executeFile_launchesSame file)) as (Hsame & Hsp & Ht).
    split; [by left|]. by apply Forall_cons.
  - unfold execute.
    destruct (String.eqb code "" || (String.length (trim code) =? 0)).
    { simpl. split; [by left|]. apply Forall_singleton, Keeps_done. }
    destruct (initializeRepl_first_launches None s)
      as (s1 & sp & h & k & Hadv & Hs1 & Hk & Hsp).
    pose proof (execute_rest_launchesSame code resource _ Hk) as Hrest.
    unfold await in *. rewrite !advance_bind, Hadv. simpl.
    split; [|by apply Forall_cons].
    destruct Hs1 as [-> | ->]; [by left|right; by eexists].
  - destruct (initializeRepl_first_launches resource s)
      as (s1 & sp & h & k & Hadv & Hs1 & Hk & Hsp).
    rewrite Hadv. simpl. split; [|by apply Forall_cons].
    destruct Hs1 as [-> | ->]; [by left|right; by eexists].
Qed.

(** One step of the event loop keeps the count. *)
Lemma onePerPromise_exec (s0 : Controller) (e : Event) (y y' : System) :
  onePerPromise s0 (ctl y) -> settledTrue (ctl y) ->
  Forall (Keeps launchesSame (fun b => b = true)) (pool y) ->
  exec e y = Some y' ->
  onePerPromise s0 (ctl y') /\ settledTrue (ctl y')
  /\ Forall (Keeps launchesSame (fun b => b = true)) (pool y').
Proof.
  intros (Hle & Hl & Hd) Htrue Hpool Hexec. destruct e as [r|i|h|t].
  - destruct (first_step_launches r (ctl y)) as (Hs' & Hts).
    unfold exec in Hexec.
    destruct (advance (method r) (ctl y)) as [[s' sp] t']. simplify_eq/=.
    split; [|split; [|by apply Forall_app]].
    + destruct Hs' as [(El & Ed & En & _)|[resource ->]].
      * unfold onePerPromise. by rewrite El, Ed, En.
      * unfold onePerPromise. simpl. rewrite !length_app. simpl. lia.
    + destruct Hs' as [(_ & _ & _ & Es)|[resource ->]]; [|done].
      intros h b. rewrite Es. apply Htrue.
  - destruct (Keeps_resume launchesSame (fun b => b = true) y y' i Htrue Hpool Hexec)
      as [(El & Ed & En & Es) Hpool'].
    split; [unfold onePerPromise; by rewrite El, Ed, En|]. split; [|done].
    intros h b. rewrite Es. apply Htrue.
  - simpl in Hexec. case_decide; [|done]. simplify_eq/=.
    match goal with |- context [resolve h true ?s] => set (s1 := s) end.
    split; [|split; [|done]].
    + unfold onePerPromise.
      destruct (resolve_other_fields h true s1) as (_ & -> & ->).
      assert (disposables (resolve h true s1) = disposables (ctl y)) as ->; [|done].
      unfold resolve. by destruct (settled s1 !! h).
    + intros h' b Hb. apply resolve_settled in Hb as [Hb|[_ ->]]; [|done].
      by apply (Htrue h').
  - by simplify_eq/=.
Qed.

(** X13: the provider never takes a close listener back, and never uses
    the disposables it pushes: over every run of calls, resumes, timers
    and closes, the listeners and the disposables registered before are
    still there, in the same order, and those of later launches come after
    them; a listener is not removed when it has run.  Where the promises
    settled at the start are [true], exactly one listener and one
    disposable have come for each promise made during the run.  And a call
    of [initializeRepl] that finds no promise under its key makes one
    promise and appends, in that same step, one listener, for the key on
    the terminal of the resource, and one disposable. *)
Theorem close_listeners_accumulate (s : Controller) (es : list Event) (y : System) :
  run es (boot s) = Some y ->
  closeListeners s `prefix_of` closeListeners (ctl y)
  /\ disposables s `prefix_of` disposables (ctl y)
  /\ (settledTrue s -> onePerPromise s (ctl y))
  /\ forall resource,
       replActive (ctl y) !! resourceKey resource = None ->
       exists y',
         exec (Call (InitializeRepl resource)) y = Some y'
         /\ nextHandle (ctl y') = S (nextHandle (ctl y))
         /\ closeListeners (ctl y')
            = closeListeners (ctl y)
              ++ [({| resource := resource; title := terminalTitle (ctl y) |},
                   resourceKey resource)]
         /\ disposables (ctl y')
            = disposables (ctl y) ++ [length (closeListeners (ctl y))].
Proof.
  intros Hrun.
  assert (closeListeners s `prefix_of` closeListeners (ctl y)
          /\ disposables s `prefix_of` disposables (ctl y)) as [Hl Hd].
  { edestruct (Keeps_run listenersGrow (fun _ => true)) as [Hgrow _];
      [..|exact Hrun|exact Hgrow].
    - intros r _. apply method_listenersGrow.
    - intros h s0 _.
      destruct (resolve_other_fields h true
                  (setTimers (filter (fun h' => h' ≠ h) (timers s0)) s0)) as (_ & Hl & _).
      split; [by rewrite Hl|]. unfold resolve. by destruct (settled _ !! h).
    - by intros t s0 _.
    - apply Forall_nil_2.
    - by apply forallb_forall. }
  split; [done|]. split; [done|]. split.
  - intros Htrue.
    assert (forall es y0 y,
      onePerPromise s (ctl y0) -> settledTrue (ctl y0) ->
      Forall (Keeps launchesSame (fun b => b = true)) (pool y0) ->
      run es y0 = Some y -> onePerPromise s (ctl y)) as Hall.
    { clear. intros es. induction es as [|e es IH]; intros y0 y Hc Ht Hp Hrun; simpl in *.
      - by simplify_eq.
      - destruct (exec e y0) as [y1|] eqn:Hexec; [|done]. simpl in Hrun.
        destruct (onePerPromise_exec s e y0 y1 Hc Ht Hp Hexec) as (Hc1 & Ht1 & Hp1).
        by apply (IH y1 y). }
    apply (Hall es (boot s) y); [|done|apply Forall_nil_2|done].
    unfold onePerPromise. simpl. lia.
  - intros resource Hnone. eexists. unfold exec, method.
    rewrite (initializeRepl_launch_explicit resource (ctl y) Hnone).
    split; [reflexivity|]. done.
Qed.

End Listeners.

(** A session is started, its terminal is closed, and it is started
    again: the listener of the first launch is still there, before the
    listener of the second, and the second launch has brought one promise,
    one listener and one disposable. *)
Lemma close_listeners_accumulate_witness :
  let run := run (platformService := Sample.windows) (workspace := Sample.rootOnC)
               (configurationService := Sample.settings)
               (interpreterService := Sample.interpreter)
               (pathModule := Sample.win32Path)
               (stringExtensions := Sample.plainArgument) in
  exists y,
    run [TerminalClosed (Sample.terminalOf None); Call (InitializeRepl None)]
        (boot (registered None Sample.fresh)) = Some y
    /\ closeListeners (registered None Sample.fresh) = [(Sample.terminalOf None, "")]
    /\ closeListeners (ctl y)
       = [(Sample.terminalOf None, ""); (Sample.terminalOf None, "")]
    /\ disposables (ctl y) = [0; 1]
    /\ nextHandle (ctl y) = 2
    /\ closeListeners (registered None Sample.fresh) `prefix_of` closeListeners (ctl y)
    /\ onePerPromise (registered None Sample.fresh) (ctl y).
Proof.
  eexists. split; [vm_compute; reflexivity|]. split; [reflexivity|].
  split; [reflexivity|]. split; [reflexivity|]. split; [reflexivity|].
  destruct (close_listeners_accumulate
              (platformService := Sample.windows) (workspace := Sample.rootOnC)
              (configurationService := Sample.settings)
              (interpreterService := Sample.interpreter)
              (pathModule := Sample.win32Path)
              (stringExtensions := Sample.plainArgument)
              (registered None Sample.fresh)
              [TerminalClosed (Sample.terminalOf None); Call (InitializeRepl None)]
              _ eq_refl)
    as (Hprefix & _ & Hcount & _).
  split; [exact Hprefix|]. apply Hcount.
  intros h b. simpl. rewrite lookup_empty. discriminate.
Defined.

(** ** The drive letter anywhere in the directory *)

Lemma testDriveLetter_inside (pre rest : string) (c : ascii) :
  isLetter c = true ->
  testDriveLetter (pre +:+ String c (String ":" rest)) = true.
Proof.
  intros Hc. induction pre as [|a pre IH]; simpl.
  - by rewrite Hc.
  - simpl in IH. rewrite IH.
    destruct (pre +:+ String c (String ":" rest)) eqn:Hpre; [by destruct pre|].
    apply orb_true_r.
Qed.

Lemma stripFromColon_inside (pre rest : string) (c : ascii) :
  noColon pre = true -> isLetter c = true -> singleLine rest = true ->
  stripFromColon (pre +:+ String c (String ":" rest)) = pre +:+ String c "".
Proof.
  intros Hpre Hc Hrest. unfold stripFromColon, noColon in *.
  induction pre as [|a pre IH]; simpl in *.
  - destruct (Ascii.eqb c ":") eqn:Hcc.
    + apply Ascii.eqb_eq in Hcc as ->. done.
    + by rewrite dropColonTails_inMatch.
  - apply andb_prop in Hpre as [Ha Hpre]. apply negb_true_iff in Ha.
    rewrite Ha. by rewrite IH.
Qed.

Lemma append_letter_colon (pre : string) (c : ascii) :
  (pre +:+ String c "") +:+ ":" = pre +:+ String c ":".
Proof.
  induction pre as [|a pre IH]; [done|].
  change (String a ((pre +:+ String c "") +:+ ":") = String a (pre +:+ String c ":")).
  by rewrite IH.
Qed.

Section DriveInside.

Context {platformService : IPlatformService}
        {workspace : IWorkspaceService}
        {configurationService : IConfigurationService}
        {interpreterService : IInterpreterService}
        {pathModule : PathModule}
        {stringExtensions : StringExtensions}.

(** X14: the drive-letter test is not tied to the start of the directory.
    On Windows, with [executeInFileDir] on and the workspace root on a
    drive, a directory in which a letter and a colon come after a prefix
    that is not empty and has no colon is taken to be on another drive,
    whatever the letter: the text sent as drive change is the prefix, the
    letter and a colon, and the flag is set. *)
Theorem executeFile_drive_letter_inside (d c : ascii) (root pre rest : string)
        (file : Uri) (s : Controller) :
  isWindows = true ->
  executeInFileDir (terminal (getSettings (Some file))) = true ->
  rootPath = Some root ->
  onDrive d root = true ->
  dirname (fsPath file) = pre +:+ String c (String ":" rest) ->
  pre <> "" ->
  noColon pre = true ->
  isLetter c = true ->
  singleLine rest = true ->
  exists info s',
    solo (getExecuteFileArgs (Some file)
            [fileToCommandArgumentForPythonExt (fsPath file)]) s = Some (info, s)
    /\ solo (executeFile file) s = Some (tt, s')
    /\ terminalLog s'
       = terminalLog s
         ++ [({| resource := Some file; title := terminalTitle s |},
              SendText (pre +:+ String c ":"));
             ({| resource := Some file; title := terminalTitle s |},
              SendText ("cd " +:+ fileToCommandArgumentForPythonExt (dirname (fsPath file))));
             ({| resource := Some file; title := terminalTitle s |},
              SendCommand (command info) (args info))]
    /\ hasRanOutsideCurrentDrive s' = true.
Proof.
  intros Hwin Hdir Hroot Hrd Hfile Hpre Hnc Hc Hrest.
  apply onDrive_inv in Hrd as (_ & Hrs & _).
  pose proof (testDriveLetter_inside pre rest c Hc) as Htest.
  pose proof (stripFromColon_inside pre rest c Hnc Hc Hrest) as Hstrip.
  rewrite <- Hfile in Htest, Hstrip.
  destruct (solo_executeFile_drive file s Hwin Hdir Htest) as (info & s' & Hi & Hrun & H).
  exists info, s'. split; [done|]. split; [done|].
  cbv zeta in H. rewrite Hroot, Hstrip in H. simpl in H. rewrite Hrs in H.
  rewrite bool_decide_eq_false_2 in H.
  - simpl in H. destruct H as [Hlog Hflag]. split; [|done].
    by rewrite Hlog, append_letter_colon.
  - intros [= Heq]. destruct pre as [|a pre]; [done|].
    change (String a (pre +:+ String c "") = String d "") in Heq.
    injection Heq as _ Heq. by destruct pre.
Qed.

End DriveInside.

(** The root on [C:] and a file of that folder, named by an
    extended-length path. *)
Lemma executeFile_drive_letter_inside_witness :
  exists s',
    solo (executeFile (platformService := Sample.windows)
            (workspace := Sample.rootOnC)
            (configurationService := Sample.settings)
            (interpreterService := Sample.interpreter)
            (pathModule := Sample.win32Path)
            (stringExtensions := Sample.plainArgument) Hosts.fileExtended) Sample.fresh
    = Some (tt, s')
    /\ terminalLog s'
       = [(Sample.terminalOf (Some Hosts.fileExtended), SendText "\\?\C:");
          (Sample.terminalOf (Some Hosts.fileExtended), SendText "cd \\?\C:\proj");
          (Sample.terminalOf (Some Hosts.fileExtended),
           SendCommand "C:/py/python.exe" ["-i"; "\\?\C:\proj\a.py"])]
    /\ hasRanOutsideCurrentDrive s' = true.
Proof.
  destruct (executeFile_drive_letter_inside
              (platformService := Sample.windows) (workspace := Sample.rootOnC)
              (configurationService := Sample.settings)
              (interpreterService := Sample.interpreter)
              (pathModule := Sample.win32Path)
              (stringExtensions := Sample.plainArgument)
              "C"%char "C"%char "C:\proj" "\\?\" "\proj" Hosts.fileExtended Sample.fresh)
    as (info & s' & Hinfo & Hrun & Hlog & Hflag);
    [reflexivity|reflexivity|reflexivity|reflexivity|reflexivity|discriminate
    |reflexivity|reflexivity|reflexivity|].
  injection Hinfo as <-. exists s'. split; [exact Hrun|]. split; [exact Hlog|exact Hflag].
Defined.

(** ** Every session has its close listener *)

#[global] Instance calm_preorder : PreOrder calm.
Proof.
  split.
  - by intros s.
  - intros s1 s2 s3 (?&?&?&?) (?&?&?&?). repeat split; congruence.
Qed.

Lemma calm_listened (s s' : Controller) : calm s s' -> listened s -> listened s'.
Proof.
  intros (Hr & Hl & _ & Ht) Hs key h. rewrite Hr, Hl, Ht. apply Hs.
Qed.

Lemma calm_settledTrue (s s' : Controller) : calm s s' -> settledTrue s -> settledTrue s'.
Proof. intros (_ & _ & Hs & _) Htrue h b. rewrite Hs. apply Htrue. Qed.

Lemma foldl_delete_Some (t : TerminalOptions) (key : string) (h : handle)
      (ls : list (TerminalOptions * string)) (m : gmap string nat) :
  foldl (fun m l => if decide (l.1 = t) then delete l.2 m else m) m ls !! key = Some h ->
  m !! key = Some h.
Proof.
  revert m. induction ls as [|l ls IH]; intros m Hm; simpl in *; [done|].
  apply IH in Hm. case_decide; [|done].
  rewrite lookup_delete in Hm. by case_decide.
Qed.

Section Lifecycle.

Context {platformService : IPlatformService}
        {workspace : IWorkspaceService}
        {configurationService : IConfigurationService}
        {interpreterService : IInterpreterService}
        {pathModule : PathModule}
        {stringExtensions : StringExtensions}.

Lemma executeFile_calm (file : Uri) :
  Keeps calm (fun b => b = true) (executeFile file).
Proof.
  unfold executeFile, setCwdForFileExecution, getExecuteFileArgs, getExecutableInfo,
    getTerminalService, sendText, sendCommand.
  keeps; done.
Qed.

Lemma initializeRepl_reuse_calm (resource : option Uri) (s : Controller) (h : handle) :
  replActive s !! resourceKey resource = Some h ->
  exists k,
    advance (initializeRepl resource) s = (s, [], AwaitHandle h k)
    /\ Keeps calm (fun b => b = true) (AwaitHandle h k).
Proof.
  intros Hsome. unfold initializeRepl.
  rewrite advance_bind. simpl. rewrite advance_bind. simpl. rewrite Hsome. simpl.
  eexists. split; [reflexivity|].
  apply Keeps_await. intros b ->. simpl.
  apply Keeps_act; [done|]. intros []. apply Keeps_suspend, Keeps_done.
Qed.

Lemma execute_rest_calm (code : string) (resource : option Uri) (t : Async unit) :
  Keeps calm (fun b => b = true) t ->
  Keeps calm (fun b => b = true)
    (await t;; terminalService ← getTerminalService resource;
     await (sendText terminalService code)).
Proof.
  intros Ht. unfold await, getTerminalService, sendText.
  apply Keeps_bind; [apply Keeps_bind; [done|]|]; keeps; done.
Qed.

Lemma registered_listened (resource : option Uri) (s : Controller) :
  listened s -> listened (registered resource s).
Proof.
  intros Hs key h. simpl. rewrite lookup_insert. case_decide as Hkey.
  - intros _. exists resource. split; [done|]. subst key.
    apply elem_of_app. right. by apply list_elem_of_singleton.
  - intros Hh. destruct (Hs key h Hh) as (r & Hr & Hin). exists r. split; [done|].
    apply elem_of_app. by left.
Qed.

Lemma launcher_calm (resource : option Uri) (s : Controller) :
  Keeps calm (fun b => b = true)
    (Suspend (Suspend
       (modify (logCall ((startCommand resource s).1) ((startCommand resource s).2));;
        setTimeoutResolve (nextHandle s)))).
Proof. keeps; done. Qed.

(** The first step of [initializeRepl] keeps the registry listened to,
    and leaves the call suspended on a promise and calm. *)
Lemma initializeRepl_first_step (resource : option Uri) (s : Controller) :
  listened s ->
  exists s1 sp h k,
    advance (initializeRepl resource) s = (s1, sp, AwaitHandle h k)
    /\ listened s1 /\ settled s1 = settled s
    /\ Keeps calm (fun b => b = true) (AwaitHandle h k)
    /\ Forall (Keeps calm (fun b => b = true)) sp.
Proof.
  intros Hs. destruct (replActive s !! resourceKey resource) as [h|] eqn:Hreg.
  - destruct (initializeRepl_reuse_calm resource s h Hreg) as (k & Hadv & Hk).
    exists s, [], h, k. repeat split; [done|done|done|apply Forall_nil_2].
  - eexists _, _, _, _. split; [by apply initializeRepl_launch_explicit|].
    split; [by apply registered_listened|]. split; [done|].
    split; [apply Keeps_await; intros b _; apply Keeps_done|].
    apply Forall_singleton, launcher_calm.
Qed.

(** The first step of a method keeps the registry listened to, and what
    it leaves suspended is calm. *)
Lemma first_step_listened (r : Request) (s : Controller) :
  listened s ->
  listened (advance (method r) s).1.1
  /\ settled (advance (method r) s).1.1 = settled s
  /\ Forall (Keeps calm (fun b => b = true))
       ((advance (method r) s).2 :: (advance (method r) s).1.2).
Proof.
  intros Hs. destruct r as [file|code resource|resource]; cbn [method].
  - destruct (Keeps_advance calm (fun b => b = true) (executeFile file) s
                (executeFile_calm file)) as (Hcalm & Hsp & Ht).
    split; [by eapply calm_listened|]. split; [apply Hcalm|]. by apply Forall_cons.
  - unfold execute.
    destruct (String.eqb code "" || (String.length (trim code) =? 0)).
    { simpl. split; [done|]. split; [done|]. apply Forall_singleton, Keeps_done. }
    destruct (initializeRepl_first_step None s Hs)
      as (s1 & sp & h & k & Hadv & Hl & Hset & Hk & Hsp).
    pose proof (execute_rest_calm code resource _ Hk) as Hrest.
    unfold await in *. rewrite !advance_bind, Hadv. simpl.
    split; [done|]. split; [done|]. by apply Forall_cons.
  - destruct (initializeRepl_first_step resource s Hs)
      as (s1 & sp & h & k & Hadv & Hl & Hset & Hk & Hsp).
    rewrite Hadv. simpl. split; [done|]. split; [done|]. by apply Forall_cons.
Qed.

(** One step of the event loop keeps the registry listened to. *)
Lemma listened_exec (e : Event) (y y' : System) :
  listened (ctl y) -> settledTrue (ctl y) ->
  Forall (Keeps calm (fun b => b = true)) (pool y) ->
  exec e y = Some y' ->
  listened (ctl y') /\ settledTrue (ctl y')
  /\ Forall (Keeps calm (fun b => b = true)) (pool y').
Proof.
  intros Hl Htrue Hpool Hexec. destruct e as [r|i|h|t].
  - destruct (first_step_listened r (ctl y) Hl) as (Hl' & Hs' & Hts).
    unfold exec in Hexec.
    destruct (advance (method r) (ctl y)) as [[s' sp] t']. simplify_eq/=.
    split; [done|]. split; [intros h b; rewrite Hs'; apply Htrue|].
    by apply Forall_app.
  - destruct (Keeps_resume calm (fun b => b = true) y y' i Htrue Hpool Hexec)
      as [Hcalm Hpool'].
    split; [by eapply calm_listened|]. split; [by eapply calm_settledTrue|done].
  - simpl in Hexec. case_decide; [|done]. simplify_eq/=.
    match goal with |- context [resolve h true ?s] => set (s1 := s) end.
    split; [|split; [|done]].
    + intros key h'. destruct (resolve_fields h true s1) as (-> & _).
      destruct (resolve_other_fields h true s1) as (_ & -> & _).
      assert (terminalTitle (resolve h true s1) = terminalTitle (ctl y)) as ->.
      { unfold resolve. by destruct (settled s1 !! h). }
      apply Hl.
    + intros h' b Hb. apply resolve_settled in Hb as [Hb|[_ ->]]; [|done].
      by apply (Htrue h').
  - simplify_eq/=. split; [|done]. intros key h Hh.
    apply foldl_delete_Some in Hh. by apply (Hl key h).
Qed.

(** X15: in every state that a new provider reaches, every key of the
    registry is the key of a resource on whose terminal service a close
    listener for that key is registered: no session is in the registry
    without the listener that deletes it when its terminal is closed. *)
Theorem registry_entries_have_listeners (title : string) (es : list Event)
        (y : System) :
  run es (boot (newController title)) = Some y ->
  listened (ctl y).
Proof.
  intros Hrun.
  assert (forall es y0 y,
    listened (ctl y0) -> settledTrue (ctl y0) ->
    Forall (Keeps calm (fun b => b = true)) (pool y0) ->
    run es y0 = Some y -> listened (ctl y)) as Hall.
  { clear. intros es. induction es as [|e es IH]; intros y0 y Hl Ht Hp Hrun; simpl in *.
    - by simplify_eq.
    - destruct (exec e y0) as [y1|] eqn:Hexec; [|done]. simpl in Hrun.
      destruct (listened_exec e y0 y1 Hl Ht Hp Hexec) as (Hl1 & Ht1 & Hp1).
      by apply (IH y1 y). }
  apply (Hall es (boot (newController title)) y); [| |apply Forall_nil_2|done].
  - intros key h. simpl. by rewrite lookup_empty.
  - intros h b. simpl. by rewrite lookup_empty.
Qed.

End Lifecycle.

(** Sessions for no resource and for [C:\proj\a.py], started from a new
    provider. *)
Lemma registry_entries_have_listeners_witness :
  let run := run (platformService := Sample.windows) (workspace := Sample.rootOnC)
               (configurationService := Sample.settings)
               (interpreterService := Sample.interpreter)
               (pathModule := Sample.win32Path)
               (stringExtensions := Sample.plainArgument) in
  exists y,
    run [Call (InitializeRepl None); Call (InitializeRepl (Some Sample.fileOnC));
         Resume 1; Resume 3; Resume 1]
        (boot (newController "Python")) = Some y
    /\ replActive (ctl y) !! "" = Some 0
    /\ replActive (ctl y) !! "C:\proj\a.py" = Some 1
    /\ listened (ctl y).
Proof.
  eexists. split; [vm_compute; reflexivity|]. split; [reflexivity|].
  split; [reflexivity|].
  eapply (registry_entries_have_listeners
            (platformService := Sample.windows) (workspace := Sample.rootOnC)
            (configurationService := Sample.settings)
            (interpreterService := Sample.interpreter)
            (pathModule := Sample.win32Path)
            (stringExtensions := Sample.plainArgument) "Python"
            [Call (InitializeRepl None); Call (InitializeRepl (Some Sample.fileOnC));
             Resume 1; Resume 3; Resume 1]).
  vm_compute. reflexivity.
Defined.

(** ** The code is delivered *)

Section Delivery.

Context {platformService : IPlatformService}
        {workspace : IWorkspaceService}
        {configurationService : IConfigurationService}
        {interpreterService : IInterpreterService}
        {pathModule : PathModule}
        {stringExtensions : StringExtensions}.

Lemma resolve_unsettled (h : handle) (v : bool) (s : Controller) :
  settled s !! h = None -> resolve h v s = setSettled (<[h := v]> (settled s)) s.
Proof. intros Hh. unfold resolve. by rewrite Hh. Qed.

Lemma filter_other (h : handle) (l : list handle) :
  h ∉ l -> filter (fun h' => h' ≠ h) (l ++ [h]) = l.
Proof.
  intros Hl. rewrite filter_app, filter_cons_False, filter_nil, app_nil_r by (by intros ?).
  induction l as [|a l IH]; [done|].
  apply not_elem_of_cons in Hl as [Hne Hl].
  rewrite filter_cons_True by done. by rewrite IH.
Qed.

(** X16: [execute] is called, with a string that is not blank, on a
    provider that has no promise under the empty key and whose next
    promise is new.  When the launcher has gone on twice, the warm-up
    timer has fired and the call has gone on three times, both have
    returned, and what has been sent is the start command and then the
    code, unchanged, as text to the terminal of the resource given; the
    promise is [true] and stays in the registry, and the timer is gone. *)
Theorem execute_delivers (code : string) (resource : option Uri) (s : Controller) :
  trim code <> "" ->
  replActive s !! "" = None ->
  nextHandleFresh s ->
  exists y,
    run [Call (Execute code resource); Resume 1; Resume 1;
         TimerFires (nextHandle s); Resume 0; Resume 0; Resume 0] (boot s)
    = Some y
    /\ pool y = [Done tt; Done tt]
    /\ terminalLog (ctl y)
       = terminalLog s
         ++ [startCommand None s;
             ({| resource := resource; title := terminalTitle s |}, SendText code)]
    /\ replActive (ctl y) !! "" = Some (nextHandle s)
    /\ settled (ctl y) !! nextHandle s = Some true
    /\ timers (ctl y) = timers s.
Proof.
  intros Hcode Hnone [Hfresh Htimer].
  eexists. split.
  - change (run (?e :: ?es) ?y) with (y1 ← exec e y; run es y1).
    unfold exec at 1. unfold method, execute.
    rewrite (execute_guard code Hcode). unfold await.
    change (ctl (boot s)) with s.
    rewrite !advance_bind, (initializeRepl_launch_explicit None s Hnone).
    simpl.
    rewrite decide_True by (apply elem_of_app; right; by apply list_elem_of_singleton).
    simpl. rewrite resolve_unsettled by done. simpl.
    rewrite lookup_insert_eq. simpl. reflexivity.
  - simpl. split; [done|]. split; [by rewrite <- app_assoc|].
    split; [apply lookup_insert_eq|]. split; [apply lookup_insert_eq|].
    by apply filter_other.
Qed.

End Delivery.

(** [x = 1] is executed for [D:\data\b.py] by a new provider: the start
    command goes to the terminal of no resource, the code to the terminal
    of the file. *)
Lemma execute_delivers_witness :
  let run := run (platformService := Sample.windows) (workspace := Sample.rootOnC)
               (configurationService := Sample.settings)
               (interpreterService := Sample.interpreter)
               (pathModule := Sample.win32Path)
               (stringExtensions := Sample.plainArgument) in
  exists y,
    run [Call (Execute "x = 1" (Some Sample.fileOnD)); Resume 1; Resume 1;
         TimerFires 0; Resume 0; Resume 0; Resume 0] (boot Sample.fresh) = Some y
    /\ pool y = [Done tt; Done tt]
    /\ terminalLog (ctl y)
       = [(Sample.terminalOf None, SendCommand "C:/py/python.exe" ["-i"]);
          (Sample.terminalOf (Some Sample.fileOnD), SendText "x = 1")]
    /\ replActive (ctl y) !! "" = Some 0
    /\ settled (ctl y) !! 0 = Some true
    /\ timers (ctl y) = [].
Proof.
  destruct (execute_delivers
              (platformService := Sample.windows) (workspace := Sample.rootOnC)
              (configurationService := Sample.settings)
              (interpreterService := Sample.interpreter)
              (pathModule := Sample.win32Path)
              (stringExtensions := Sample.plainArgument)
              "x = 1" (Some Sample.fileOnD) Sample.fresh)
    as (y & Hrun & Hpool & Hlog & Hkey & Hset & Htimers).
  - discriminate.
  - reflexivity.
  - split; [reflexivity|]. simpl. apply not_elem_of_nil.
  - exists y. split; [exact Hrun|]. split; [exact Hpool|].
    split; [exact Hlog|]. split; [exact Hkey|]. split; [exact Hset|exact Htimers].
Defined.
